(** * HEC-RAS compliance checker: the rules engine

    A shallow embedding of [hecras_compliance/rules/engine.py], of the custom
    handlers under [rules/checks/] and of the parser dataclasses the engine
    walks through ([parsers/geometry.py], [flow.py], [plan.py], [project.py]),
    followed by the properties of the engine.

    Conventions of the embedding.
    - Python exceptions are values of [exn]; a computation that may raise has
      type [exc A].
    - Python [float] is IEEE binary64, represented by the Standard Library's
      [spec_float]; arithmetic is [SFadd 53 1024] and friends, comparisons are
      exact (and false on NaN), also between [int] and [float].
    - Strings are sequences of ASCII characters; [lower] and [strip] act on the
      ASCII letters and the ASCII white space, as [str.lower] and [str.strip]
      do on such strings.
    - Values that come out of the YAML rule files have type [yaml]: a rule is
      such a value, and so are the fields of a [RuleResult].  Values read from
      the parsed model by attribute lookup have type [pyval].  A dictionary
      is an association list in insertion order, keyed by strings.
    - Attribute lookup reads the fields and evaluates the properties the
      dataclasses declare.  What Python answers for every other name (a
      method, an attribute inherited from the class or from [object], an
      attribute of a [str] or of a number) is a parameter of the sections that
      walk paths ([inherited]); the objects such a lookup can return, other
      than the ones above, are the values [POther].
    - The built-in [str()] / f-string formatting of floats, lists and
      dataclass instances is not defined here: it is a parameter of the
      sections that need it ([py_str], [yaml_str]).
    - [logger.warning] appends a record to a log that [evaluate] threads
      through; the file system is a function from paths to parsed
      documents. *)

From Stdlib Require Import ZArith QArith Qpower List String Ascii Bool Lia.
From Stdlib Require Import Floats.SpecFloat DecimalString.
Import ListNotations.
Local Open Scope string_scope.
Set Warnings "-register-all".

(** ** Exceptions *)

Inductive exn : Set :=
| KeyError
| TypeError
| AttributeError
| ZeroDivisionError
| FileNotFoundError
| YAMLError.

Inductive exc (A : Type) : Type :=
| Ok (a : A)
| Raise (e : exn).
Arguments Ok {A} a.
Arguments Raise {A} e.

Definition bind {A B : Type} (m : exc A) (f : A -> exc B) : exc B :=
  match m with
  | Ok a => f a
  | Raise e => Raise e
  end.

Notation "x <- m ;; k" := (bind m (fun x => k))
  (at level 61, m at next level, right associativity).

Fixpoint mapM {A B : Type} (f : A -> exc B) (l : list A) : exc (list B) :=
  match l with
  | [] => Ok []
  | a :: l' => b <- f a ;; bs <- mapM f l' ;; Ok (b :: bs)
  end.

Definition is_ok {A : Type} (m : exc A) : bool :=
  match m with Ok _ => true | Raise _ => false end.

(** ** Strings: the [str] methods the engine uses *)

Module PyStr.

Definition is_upper (c : ascii) : bool :=
  let n := nat_of_ascii c in (65 <=? n)%nat && (n <=? 90)%nat.

Definition lower_char (c : ascii) : ascii :=
  if is_upper c then ascii_of_nat (nat_of_ascii c + 32) else c.

(** [s.lower()] *)
Fixpoint lower (s : string) : string :=
  match s with
  | EmptyString => EmptyString
  | String c r => String (lower_char c) (lower r)
  end.

(** [c.isspace()] on ASCII: TAB, LF, VT, FF, CR, FS, GS, RS, US, SPACE. *)
Definition is_space (c : ascii) : bool :=
  let n := nat_of_ascii c in
  ((9 <=? n)%nat && (n <=? 13)%nat) || ((28 <=? n)%nat && (n <=? 32)%nat).

Definition is_dot (c : ascii) : bool := Ascii.eqb c ".".

Fixpoint lstrip_by (p : ascii -> bool) (s : string) : string :=
  match s with
  | EmptyString => EmptyString
  | String c r => if p c then lstrip_by p r else s
  end.

Fixpoint rstrip_by (p : ascii -> bool) (s : string) : string :=
  match s with
  | EmptyString => EmptyString
  | String c r =>
      match rstrip_by p r with
      | EmptyString => if p c then EmptyString else String c EmptyString
      | r' => String c r'
      end
  end.

(** [s.strip()] *)
Definition strip (s : string) : string :=
  rstrip_by is_space (lstrip_by is_space s).

Fixpoint drop (n : nat) (s : string) : string :=
  match n, s with
  | S n', String _ r => drop n' r
  | _, _ => s
  end.

(** [sub in s] *)
Fixpoint contains (sub s : string) : bool :=
  String.prefix sub s ||
  match s with
  | EmptyString => false
  | String _ r => contains sub r
  end.

(** [s.partition(sep)], for a non-empty [sep]: split at the first
    occurrence; [(s, "", "")] when there is none. *)
Fixpoint partition (sep s : string) : string * string * string :=
  if String.prefix sep s then ("", sep, drop (String.length sep) s)
  else
    match s with
    | EmptyString => ("", "", "")
    | String c r =>
        let '(a, m, b) := partition sep r in (String c a, m, b)
    end.

(** [s.split(c)] for a one-character separator. *)
Fixpoint split (c : ascii) (s : string) : list string :=
  match s with
  | EmptyString => [""]
  | String a r =>
      if Ascii.eqb a c then "" :: split c r
      else
        match split c r with
        | h :: t => String a h :: t
        | [] => [String a ""]
        end
  end.

(** [sep.join(l)] *)
Definition join (sep : string) (l : list string) : string :=
  String.concat sep l.

(** the characters of [s], as iteration over a [str] yields them *)
Fixpoint chars (s : string) : list string :=
  match s with
  | EmptyString => []
  | String c r => String c "" :: chars r
  end.

Definition is_lower (c : ascii) : bool :=
  let n := nat_of_ascii c in (97 <=? n)%nat && (n <=? 122)%nat.

Definition upper_char (c : ascii) : ascii :=
  if is_lower c then ascii_of_nat (nat_of_ascii c - 32) else c.

(** [s.upper()] *)
Fixpoint upper (s : string) : string :=
  match s with
  | EmptyString => EmptyString
  | String c r => String (upper_char c) (upper r)
  end.

(** [str(z)] for an [int] *)
Definition of_Z (z : Z) : string := NilZero.string_of_int (Z.to_int z).

Definition of_nat (n : nat) : string := of_Z (Z.of_nat n).

End PyStr.

(** ** Numbers: exact comparison of [bool], [int] and [float] *)

Module PyNum.

Definition float := spec_float.

Definition inf : float := S754_infinity false.
Definition neg_inf : float := S754_infinity true.
Definition nan : float := S754_nan.

(** binary64 arithmetic *)
Definition fadd : float -> float -> float := SFadd 53 1024.
Definition fsub : float -> float -> float := SFsub 53 1024.
Definition fmul : float -> float -> float := SFmul 53 1024.
Definition fabs : float -> float := SFabs.

Definition is_zero (x : float) : bool :=
  match x with S754_zero _ => true | _ => false end.

(** [x / y]: Python raises on a zero divisor instead of returning an
    infinity or a NaN. *)
Definition fdiv (x y : float) : exc float :=
  if is_zero y then Raise ZeroDivisionError else Ok (SFdiv 53 1024 x y).

Definition one : float := S754_finite false 4503599627370496 (-52).

(** [float(z)]: the binary64 value nearest to the integer [z], in canonical
    form (the product with 1.0 rounds and normalises). *)
Definition of_Z (z : Z) : float :=
  match z with
  | Z0 => S754_zero false
  | Zpos p => fmul (S754_finite false p 0) one
  | Zneg p => fmul (S754_finite true p 0) one
  end.

(** The value a number denotes: NaN, an infinity, or [m * 2 ^ e]. *)
Inductive xreal : Set :=
| XNan
| XInf (neg : bool)
| XFin (m e : Z).

Definition of_float (f : float) : xreal :=
  match f with
  | S754_zero _ => XFin 0 0
  | S754_infinity s => XInf s
  | S754_nan => XNan
  | S754_finite s m e => XFin (if s then Zneg m else Zpos m) e
  end.

Definition of_int (z : Z) : xreal := XFin z 0.

Definition of_bool (b : bool) : xreal := XFin (if b then 1 else 0) 0.

Definition fin_compare (m1 e1 m2 e2 : Z) : comparison :=
  let e := Z.min e1 e2 in
  Z.compare (m1 * 2 ^ (e1 - e)) (m2 * 2 ^ (e2 - e)).

(** [None] when the two are unordered (a NaN is involved). *)
Definition compare (a b : xreal) : option comparison :=
  match a, b with
  | XNan, _ | _, XNan => None
  | XInf true, XInf true => Some Eq
  | XInf false, XInf false => Some Eq
  | XInf true, _ => Some Lt
  | _, XInf true => Some Gt
  | XInf false, _ => Some Gt
  | _, XInf false => Some Lt
  | XFin m1 e1, XFin m2 e2 => Some (fin_compare m1 e1 m2 e2)
  end.

Definition leb (a b : xreal) : bool :=
  match compare a b with
  | Some Lt | Some Eq => true
  | _ => false
  end.

Definition ltb (a b : xreal) : bool :=
  match compare a b with
  | Some Lt => true
  | _ => false
  end.

Definition eqb (a b : xreal) : bool :=
  match compare a b with
  | Some Eq => true
  | _ => false
  end.

Definition is_nan (a : xreal) : bool :=
  match a with XNan => true | _ => false end.

(** float comparisons, as [<=], [<], [>=] between two floats *)
Definition fle (x y : float) : bool := leb (of_float x) (of_float y).
Definition flt (x y : float) : bool := ltb (of_float x) (of_float y).

End PyNum.

(** ** The parsed model: [parsers/geometry.py]

    One module per dataclass; the record is [t], its fields and properties
    keep the names of the source. *)

Module StationElevation.
Record t := mk { station : PyNum.float; elevation : PyNum.float }.
End StationElevation.

Module ManningRegion.
Record t := mk { n_value : PyNum.float; start_station : PyNum.float }.
End ManningRegion.

Module IneffectiveFlowArea.
Record t := mk {
  left_station : PyNum.float;
  left_elevation : PyNum.float;
  left_permanent : bool;
  right_station : PyNum.float;
  right_elevation : PyNum.float;
  right_permanent : bool }.
End IneffectiveFlowArea.

Module LeveeStation.
Record t := mk { station : PyNum.float; elevation : PyNum.float }.
End LeveeStation.

Module ReachLengths.
Record t := mk {
  left : PyNum.float;
  channel : PyNum.float;
  right : PyNum.float }.
End ReachLengths.

Module BankStations.
Record t := mk { left : PyNum.float; right : PyNum.float }.
End BankStations.

Module DeckPoint.
Record t := mk {
  station : PyNum.float;
  high_chord : PyNum.float;
  low_chord : PyNum.float }.
End DeckPoint.

Module PierElevWidth.
Record t := mk { elevation : PyNum.float; width : PyNum.float }.
End PierElevWidth.

Module Pier.
Record t := mk {
  skew : PyNum.float;
  center_sta_upstream : PyNum.float;
  center_sta_downstream : PyNum.float;
  elevations : list PierElevWidth.t }.
End Pier.

Module BridgeDeck.
Record t := mk {
  width : PyNum.float;
  points : list DeckPoint.t;
  us_weir_coef : PyNum.float;
  ds_weir_coef : PyNum.float;
  us_dist : PyNum.float;
  ds_dist : PyNum.float }.
End BridgeDeck.

Module CrossSection.
Record t := mk {
  river_station : PyNum.float;
  river : string;
  reach : string;
  description : string;
  reach_lengths : ReachLengths.t;
  station_elevation : list StationElevation.t;
  manning_regions : list ManningRegion.t;
  bank_stations : option BankStations.t;
  expansion : PyNum.float;
  contraction : PyNum.float;
  ineffective_areas : list IneffectiveFlowArea.t;
  levee_stations : list LeveeStation.t }.

(** [self.manning_regions[0].n_value if self.manning_regions else None] *)
Definition manning_n_left (self : t) : option PyNum.float :=
  match manning_regions self with
  | [] => None
  | r :: _ => Some (ManningRegion.n_value r)
  end.

(** [self.manning_regions[-1].n_value if self.manning_regions else None] *)
Definition manning_n_right (self : t) : option PyNum.float :=
  match manning_regions self with
  | [] => None
  | r :: rs => Some (ManningRegion.n_value (last rs r))
  end.

(** the [for region in self.manning_regions] loop of [manning_n_channel] *)
Fixpoint first_region_from (left_bank : PyNum.float)
    (regions : list ManningRegion.t) : option PyNum.float :=
  match regions with
  | [] => None
  | region :: rest =>
      if PyNum.fle left_bank (ManningRegion.start_station region)
      then Some (ManningRegion.n_value region)
      else first_region_from left_bank rest
  end.

Definition manning_n_channel (self : t) : option PyNum.float :=
  match manning_regions self, bank_stations self with
  | [], _ => None
  | _, None => None
  | r :: rs, Some bank =>
      match first_region_from (BankStations.left bank) (r :: rs) with
      | Some n => Some n
      | None => Some (ManningRegion.n_value (last rs r))
      end
  end.

Definition manning_n_values (self : t)
  : option PyNum.float * option PyNum.float * option PyNum.float :=
  (manning_n_left self, manning_n_channel self, manning_n_right self).
End CrossSection.

(** [_interpolate_pier_width]: the [for i in range(len(pts) - 1)] loop over
    consecutive table entries; [None] when no interval contains the
    elevation. *)
Fixpoint interpolate_between (elevation : PyNum.float)
    (pts : list PierElevWidth.t) : option (exc PyNum.float) :=
  match pts with
  | lo :: ((hi :: _) as rest) =>
      if PyNum.fle (PierElevWidth.elevation lo) elevation
         && PyNum.fle elevation (PierElevWidth.elevation hi)
      then Some (
        frac <- PyNum.fdiv
                  (PyNum.fsub elevation (PierElevWidth.elevation lo))
                  (PyNum.fsub (PierElevWidth.elevation hi)
                              (PierElevWidth.elevation lo)) ;;
        Ok (PyNum.fadd (PierElevWidth.width lo)
              (PyNum.fmul frac
                 (PyNum.fsub (PierElevWidth.width hi)
                             (PierElevWidth.width lo)))))
      else interpolate_between elevation rest
  | _ => None
  end.

Definition _interpolate_pier_width (pier : Pier.t) (elevation : PyNum.float)
  : exc PyNum.float :=
  match Pier.elevations pier with
  | [] => Ok (S754_zero false)
  | p0 :: ps =>
      let plast := last ps p0 in
      if PyNum.fle elevation (PierElevWidth.elevation p0)
      then Ok (PierElevWidth.width p0)
      else if PyNum.fle (PierElevWidth.elevation plast) elevation
      then Ok (PierElevWidth.width plast)
      else
        match interpolate_between elevation (p0 :: ps) with
        | Some r => r
        | None => Ok (PierElevWidth.width plast)
        end
  end.

Module Bridge.
Record t := mk {
  river_station : PyNum.float;
  river : string;
  reach : string;
  description : string;
  node_name : string;
  reach_lengths : ReachLengths.t;
  skew : PyNum.float;
  deck : option BridgeDeck.t;
  piers : list Pier.t;
  us_boundary_sta : option (PyNum.float * PyNum.float);
  ds_boundary_sta : option (PyNum.float * PyNum.float);
  modeling_approach : list Z;
  energy_coefs : list PyNum.float;
  yarnell_coefs : list PyNum.float;
  momentum_coef : option PyNum.float;
  wspro_coefs : list PyNum.float }.

(** the built-in [min] over a non-empty sequence of floats: a later item
    replaces the current one only when it compares strictly smaller *)
Definition py_min (x : PyNum.float) (xs : list PyNum.float) : PyNum.float :=
  fold_left (fun cur y => if PyNum.flt y cur then y else cur) xs x.

Definition min_low_chord (self : t) : option PyNum.float :=
  match deck self with
  | None => None
  | Some d =>
      match BridgeDeck.points d with
      | [] => None
      | p :: ps =>
          Some (py_min (DeckPoint.low_chord p) (map DeckPoint.low_chord ps))
      end
  end.

Definition opening_width (self : t) : option PyNum.float :=
  match us_boundary_sta self with
  | Some (a, b) => Some (PyNum.fabs (PyNum.fsub b a))
  | None => None
  end.

(** the [for pier in self.piers: total += ...] loop *)
Fixpoint sum_pier_widths (lc total : PyNum.float) (ps : list Pier.t)
  : exc PyNum.float :=
  match ps with
  | [] => Ok total
  | pier :: rest =>
      w <- _interpolate_pier_width pier lc ;;
      sum_pier_widths lc (PyNum.fadd total w) rest
  end.

Definition total_pier_width_at_low_chord (self : t) : exc PyNum.float :=
  match min_low_chord self with
  | None => Ok (S754_zero false)
  | Some lc => sum_pier_widths lc (S754_zero false) (piers self)
  end.
End Bridge.

Module GeometryFile.
Record t := mk {
  title : string;
  cross_sections : list CrossSection.t;
  bridges : list Bridge.t }.

(** the float literal [0.01]: the binary64 value nearest to 1/100 *)
Definition tolerance : PyNum.float :=
  SFdiv 53 1024 (PyNum.of_Z 1) (PyNum.of_Z 100).

(** [abs(a - b) < 0.01] *)
Definition near (a b : PyNum.float) : bool :=
  PyNum.flt (PyNum.fabs (PyNum.fsub a b)) tolerance.

(** the [for xs in self.cross_sections] loop: the first one within the
    tolerance *)
Definition get_cross_section (self : t) (station : PyNum.float)
  : option CrossSection.t :=
  find (fun xs => near (CrossSection.river_station xs) station)
       (cross_sections self).

Definition get_bridge (self : t) (station : PyNum.float) : option Bridge.t :=
  find (fun br => near (Bridge.river_station br) station) (bridges self).
End GeometryFile.

(** ** The parsed model: [parsers/flow.py] *)

(** the module-level tables [BOUNDARY_TYPES], [PLAN_TYPES],
    [FRICTION_SLOPE_METHODS], [ENCROACHMENT_METHODS], and the
    [TABLE.get(k, f"Unknown ({k})")] lookup the [*_name] properties share *)
Definition BOUNDARY_TYPES : list (Z * string) :=
  [(0%Z, "Known WS"); (1%Z, "Critical Depth"); (2%Z, "Rating Curve");
   (3%Z, "Normal Depth")].

Definition PLAN_TYPES : list (Z * string) :=
  [(1%Z, "Steady Flow"); (2%Z, "Unsteady Flow"); (3%Z, "Quasi-Unsteady Flow")].

Definition FRICTION_SLOPE_METHODS : list (Z * string) :=
  [(1%Z, "Average Conveyance"); (2%Z, "Average Friction Slope");
   (3%Z, "Geometric Mean Friction Slope"); (4%Z, "Harmonic Mean Friction Slope")].

Definition ENCROACHMENT_METHODS : list (Z * string) :=
  [(1%Z, "Specified Stations"); (2%Z, "Fixed Top Width");
   (3%Z, "Percent Reduction in Conveyance"); (4%Z, "Target Surcharge");
   (5%Z, "Optimized Surcharge and Energy")].

Fixpoint table_get (table : list (Z * string)) (k : Z) : option string :=
  match table with
  | [] => None
  | (k', v) :: rest => if Z.eqb k' k then Some v else table_get rest k
  end.

Definition name_or_unknown (table : list (Z * string)) (k : Z) : string :=
  match table_get table k with
  | Some v => v
  | None => "Unknown (" ++ PyStr.of_Z k ++ ")"
  end.

Module FlowProfile.
Record t := mk { name : string }.
End FlowProfile.

Module FlowChangeLocation.
Record t := mk {
  river : string;
  reach : string;
  river_station : PyNum.float;
  flows : list PyNum.float }.
End FlowChangeLocation.

Module SteadyBoundaryCondition.
Record t := mk {
  river : string;
  reach : string;
  profile_number : Z;
  upstream_type : Z;
  downstream_type : Z;
  downstream_slope : PyNum.float;
  upstream_slope : PyNum.float;
  downstream_known_ws : PyNum.float;
  upstream_known_ws : PyNum.float }.

Definition upstream_type_name (self : t) : string :=
  name_or_unknown BOUNDARY_TYPES (upstream_type self).

Definition downstream_type_name (self : t) : string :=
  name_or_unknown BOUNDARY_TYPES (downstream_type self).
End SteadyBoundaryCondition.

Module UnsteadyBoundaryCondition.
Record t := mk {
  river : string;
  reach : string;
  river_station : string;
  bc_type : string;
  interval : string;
  data : list PyNum.float;
  friction_slope : option PyNum.float;
  use_dss : bool;
  dss_file : string;
  dss_path : string }.
End UnsteadyBoundaryCondition.

Module FlowFile.
Record t := mk {
  title : string;
  program_version : string;
  is_steady : bool;
  profiles : list FlowProfile.t;
  flow_change_locations : list FlowChangeLocation.t;
  steady_boundaries : list SteadyBoundaryCondition.t;
  unsteady_boundaries : list UnsteadyBoundaryCondition.t }.

Definition profile_names (self : t) : list string :=
  map FlowProfile.name (profiles self).

Definition num_profiles (self : t) : nat := List.length (profiles self).
End FlowFile.

(** ** The parsed model: [parsers/plan.py] *)

Module ComputationalSettings.
Record t := mk {
  flow_tolerance : PyNum.float;
  ws_tolerance : PyNum.float;
  critical_always : bool;
  friction_slope_method : Z;
  flow_ratio : PyNum.float;
  split_flow : bool;
  warm_up : bool;
  computation_interval : string;
  flow_tolerance_method : Z;
  check_data : bool }.

Definition friction_slope_method_name (self : t) : string :=
  name_or_unknown FRICTION_SLOPE_METHODS (friction_slope_method self).
End ComputationalSettings.

Module EncroachmentSettings.
Record t := mk {
  enabled : bool;
  method : Z;
  values : list PyNum.float }.

Definition method_name (self : t) : string :=
  name_or_unknown ENCROACHMENT_METHODS (method self).

(** [self.enabled and self.method in (4, 5)] *)
Definition is_floodway (self : t) : bool :=
  enabled self && (Z.eqb (method self) 4 || Z.eqb (method self) 5).

Definition target_surcharge (self : t) : option PyNum.float :=
  if is_floodway self then
    match values self with
    | v :: _ => Some v
    | [] => None
    end
  else None.
End EncroachmentSettings.

Module OutputSettings.
Record t := mk {
  run_htab : bool;
  run_post_process : bool;
  run_sediment : bool;
  run_unet : bool;
  run_ras_mapper : bool;
  write_ic_file : bool;
  write_detailed : bool;
  echo_input : bool;
  echo_parameters : bool;
  echo_output : bool;
  log_output_level : Z;
  output_interval : string;
  mapping_interval : string;
  hydrograph_output_interval : string;
  detailed_output_interval : string;
  instantaneous_interval : string }.
End OutputSettings.

Module PlanFile.
Record t := mk {
  title : string;
  program_version : string;
  short_identifier : string;
  simulation_date : string;
  geom_file : string;
  flow_file : string;
  flow_regime : string;
  plan_type : Z;
  profiles : list string;
  computation : ComputationalSettings.t;
  encroachment : EncroachmentSettings.t;
  output : OutputSettings.t;
  paused : bool }.

Definition plan_type_name (self : t) : string :=
  name_or_unknown PLAN_TYPES (plan_type self).

Definition is_steady (self : t) : bool := Z.eqb (plan_type self) 1.

Definition is_floodway_analysis (self : t) : bool :=
  EncroachmentSettings.is_floodway (encroachment self).
End PlanFile.

(** [_set_enc_val] of [parsers/plan.py].  The settings object is updated in
    place; here the updated settings are returned. *)
Section PlanParser.

(** [_float(raw)]: the float the text denotes, or the default 0.0; reading
    the digits is not modelled.  It never raises. *)
Variable _float : string -> PyNum.float.

(** the [while len(values) <= index: values.append(0.0)] loop, for the
    number of rounds it makes *)
Fixpoint grow (rounds : nat) (values : list PyNum.float)
  : list PyNum.float :=
  match rounds with
  | O => values
  | S n => grow n (values ++ [S754_zero false])%list
  end.

(** [values[index] = v]; the index is in range once the list has grown *)
Fixpoint set_item (values : list PyNum.float) (index : nat) (v : PyNum.float)
  : list PyNum.float :=
  match values, index with
  | [], _ => []
  | _ :: rest, O => v :: rest
  | x :: rest, S i => x :: set_item rest i v
  end.

Definition _set_enc_val (enc : EncroachmentSettings.t) (index : nat)
    (raw : string) : EncroachmentSettings.t :=
  let v := _float raw in
  let values := EncroachmentSettings.values enc in
  let values := grow (S index - List.length values) values in
  EncroachmentSettings.mk (EncroachmentSettings.enabled enc)
    (EncroachmentSettings.method enc) (set_item values index v).

End PlanParser.

(** ** The parsed model: [parsers/project.py] *)

Module ProjectFile.
Record t := mk {
  title : string;
  description : string;
  units : string;
  current_plan : string;
  geom_files : list string;
  steady_files : list string;
  unsteady_files : list string;
  quasi_files : list string;
  plan_files : list string;
  default_expansion : PyNum.float;
  default_contraction : PyNum.float }.

Definition all_flow_files (self : t) : list string :=
  (steady_files self ++ unsteady_files self ++ quasi_files self)%list.

(** [self.units.lower().startswith("english") if self.units else False] *)
Definition is_english (self : t) : bool :=
  match units self with
  | EmptyString => false
  | u => String.prefix "english" (PyStr.lower u)
  end.

(** ["metric" in self.units.lower() if self.units else False] *)
Definition is_metric (self : t) : bool :=
  match units self with
  | EmptyString => false
  | u => PyStr.contains "metric" (PyStr.lower u)
  end.
End ProjectFile.

(** ** [ModelData] ([rules/engine.py]) *)

Module ModelData.
Record t := mk {
  geometry : option GeometryFile.t;
  plan : option PlanFile.t;
  flow : option FlowFile.t;
  project : option ProjectFile.t }.

(** [ModelData()]: nothing loaded *)
Definition empty : t := mk None None None None.
End ModelData.

(** ** Values

    [yaml]: what [yaml.safe_load] builds (None, bool, int, float, str, list,
    dict keyed by strings, in insertion order).  The rule dictionaries, the
    dictionaries returned by the custom handlers and the fields of a
    [RuleResult] hold such values. *)

Inductive yaml : Type :=
| YNull
| YBool (b : bool)
| YInt (z : Z)
| YFloat (f : PyNum.float)
| YStr (s : string)
| YSeq (l : list yaml)
| YMap (d : list (string * yaml)).

Definition dict : Type := list (string * yaml).

(** Instances of the parser dataclasses, as attribute lookup meets them. *)
Inductive obj : Type :=
| OModelData (x : ModelData.t)
| OGeometryFile (x : GeometryFile.t)
| OCrossSection (x : CrossSection.t)
| OBridge (x : Bridge.t)
| OBridgeDeck (x : BridgeDeck.t)
| ODeckPoint (x : DeckPoint.t)
| OPier (x : Pier.t)
| OPierElevWidth (x : PierElevWidth.t)
| OStationElevation (x : StationElevation.t)
| OManningRegion (x : ManningRegion.t)
| OIneffectiveFlowArea (x : IneffectiveFlowArea.t)
| OLeveeStation (x : LeveeStation.t)
| OReachLengths (x : ReachLengths.t)
| OBankStations (x : BankStations.t)
| OPlanFile (x : PlanFile.t)
| OComputationalSettings (x : ComputationalSettings.t)
| OEncroachmentSettings (x : EncroachmentSettings.t)
| OOutputSettings (x : OutputSettings.t)
| OFlowFile (x : FlowFile.t)
| OFlowProfile (x : FlowProfile.t)
| OFlowChangeLocation (x : FlowChangeLocation.t)
| OSteadyBoundaryCondition (x : SteadyBoundaryCondition.t)
| OUnsteadyBoundaryCondition (x : UnsteadyBoundaryCondition.t)
| OProjectFile (x : ProjectFile.t).

(** [pyval]: what walking an attribute path through the model can reach.

    [POther] is any other Python object, which is not [None]: a bound
    method, a class, a dict, a descriptor.  The engine formats such an
    object, compares it with a rule parameter, iterates it and looks
    attributes up on it; the constructor records what the comparisons and
    the iteration give: the outcome of [v == y] for a parameter [y] other
    than [None] (no such object equals [None]: methods, classes and
    descriptors compare by identity, containers with containers of their own
    type), of [v <= y] and of [y <= v], and the items of [for x in v]
    ([None] when [hasattr(v, "__iter__")] is false, an exception when
    iterating raises). *)
Inductive pyval : Type :=
| PNone
| PBool (b : bool)
| PInt (z : Z)
| PFloat (f : PyNum.float)
| PStr (s : string)
| PList (l : list pyval)
| PTuple (l : list pyval)
| PObj (o : obj)
| POther (other_eq : yaml -> bool) (other_le other_ge : yaml -> exc bool)
         (other_items : option (exc (list pyval))).

Definition p_opt {A : Type} (f : A -> pyval) (o : option A) : pyval :=
  match o with
  | Some a => f a
  | None => PNone
  end.

Definition p_list {A : Type} (f : A -> pyval) (l : list A) : pyval :=
  PList (map f l).

Definition p_pair (ab : PyNum.float * PyNum.float) : pyval :=
  PTuple [PFloat (fst ab); PFloat (snd ab)].

Definition p_nat (n : nat) : pyval := PInt (Z.of_nat n).

Definition P (c : obj) : pyval := PObj c.

(** The instance attributes (dataclass fields) of an object. *)
Definition fields (o : obj) : list (string * pyval) :=
  match o with
  | OModelData x =>
      [("geometry", p_opt (fun g => P (OGeometryFile g)) (ModelData.geometry x));
       ("plan", p_opt (fun g => P (OPlanFile g)) (ModelData.plan x));
       ("flow", p_opt (fun g => P (OFlowFile g)) (ModelData.flow x));
       ("project", p_opt (fun g => P (OProjectFile g)) (ModelData.project x))]
  | OGeometryFile x =>
      [("title", PStr (GeometryFile.title x));
       ("cross_sections",
        p_list (fun c => P (OCrossSection c)) (GeometryFile.cross_sections x));
       ("bridges", p_list (fun c => P (OBridge c)) (GeometryFile.bridges x))]
  | OCrossSection x =>
      [("river_station", PFloat (CrossSection.river_station x));
       ("river", PStr (CrossSection.river x));
       ("reach", PStr (CrossSection.reach x));
       ("description", PStr (CrossSection.description x));
       ("reach_lengths", P (OReachLengths (CrossSection.reach_lengths x)));
       ("station_elevation",
        p_list (fun c => P (OStationElevation c)) (CrossSection.station_elevation x));
       ("manning_regions",
        p_list (fun c => P (OManningRegion c)) (CrossSection.manning_regions x));
       ("bank_stations",
        p_opt (fun c => P (OBankStations c)) (CrossSection.bank_stations x));
       ("expansion", PFloat (CrossSection.expansion x));
       ("contraction", PFloat (CrossSection.contraction x));
       ("ineffective_areas",
        p_list (fun c => P (OIneffectiveFlowArea c)) (CrossSection.ineffective_areas x));
       ("levee_stations",
        p_list (fun c => P (OLeveeStation c)) (CrossSection.levee_stations x))]
  | OBridge x =>
      [("river_station", PFloat (Bridge.river_station x));
       ("river", PStr (Bridge.river x));
       ("reach", PStr (Bridge.reach x));
       ("description", PStr (Bridge.description x));
       ("node_name", PStr (Bridge.node_name x));
       ("reach_lengths", P (OReachLengths (Bridge.reach_lengths x)));
       ("skew", PFloat (Bridge.skew x));
       ("deck", p_opt (fun c => P (OBridgeDeck c)) (Bridge.deck x));
       ("piers", p_list (fun c => P (OPier c)) (Bridge.piers x));
       ("us_boundary_sta", p_opt p_pair (Bridge.us_boundary_sta x));
       ("ds_boundary_sta", p_opt p_pair (Bridge.ds_boundary_sta x));
       ("modeling_approach", p_list PInt (Bridge.modeling_approach x));
       ("energy_coefs", p_list PFloat (Bridge.energy_coefs x));
       ("yarnell_coefs", p_list PFloat (Bridge.yarnell_coefs x));
       ("momentum_coef", p_opt PFloat (Bridge.momentum_coef x));
       ("wspro_coefs", p_list PFloat (Bridge.wspro_coefs x))]
  | OBridgeDeck x =>
      [("width", PFloat (BridgeDeck.width x));
       ("points", p_list (fun c => P (ODeckPoint c)) (BridgeDeck.points x));
       ("us_weir_coef", PFloat (BridgeDeck.us_weir_coef x));
       ("ds_weir_coef", PFloat (BridgeDeck.ds_weir_coef x));
       ("us_dist", PFloat (BridgeDeck.us_dist x));
       ("ds_dist", PFloat (BridgeDeck.ds_dist x))]
  | ODeckPoint x =>
      [("station", PFloat (DeckPoint.station x));
       ("high_chord", PFloat (DeckPoint.high_chord x));
       ("low_chord", PFloat (DeckPoint.low_chord x))]
  | OPier x =>
      [("skew", PFloat (Pier.skew x));
       ("center_sta_upstream", PFloat (Pier.center_sta_upstream x));
       ("center_sta_downstream", PFloat (Pier.center_sta_downstream x));
       ("elevations", p_list (fun c => P (OPierElevWidth c)) (Pier.elevations x))]
  | OPierElevWidth x =>
      [("elevation", PFloat (PierElevWidth.elevation x));
       ("width", PFloat (PierElevWidth.width x))]
  | OStationElevation x =>
      [("station", PFloat (StationElevation.station x));
       ("elevation", PFloat (StationElevation.elevation x))]
  | OManningRegion x =>
      [("n_value", PFloat (ManningRegion.n_value x));
       ("start_station", PFloat (ManningRegion.start_station x))]
  | OIneffectiveFlowArea x =>
      [("left_station", PFloat (IneffectiveFlowArea.left_station x));
       ("left_elevation", PFloat (IneffectiveFlowArea.left_elevation x));
       ("left_permanent", PBool (IneffectiveFlowArea.left_permanent x));
       ("right_station", PFloat (IneffectiveFlowArea.right_station x));
       ("right_elevation", PFloat (IneffectiveFlowArea.right_elevation x));
       ("right_permanent", PBool (IneffectiveFlowArea.right_permanent x))]
  | OLeveeStation x =>
      [("station", PFloat (LeveeStation.station x));
       ("elevation", PFloat (LeveeStation.elevation x))]
  | OReachLengths x =>
      [("left", PFloat (ReachLengths.left x));
       ("channel", PFloat (ReachLengths.channel x));
       ("right", PFloat (ReachLengths.right x))]
  | OBankStations x =>
      [("left", PFloat (BankStations.left x));
       ("right", PFloat (BankStations.right x))]
  | OPlanFile x =>
      [("title", PStr (PlanFile.title x));
       ("program_version", PStr (PlanFile.program_version x));
       ("short_identifier", PStr (PlanFile.short_identifier x));
       ("simulation_date", PStr (PlanFile.simulation_date x));
       ("geom_file", PStr (PlanFile.geom_file x));
       ("flow_file", PStr (PlanFile.flow_file x));
       ("flow_regime", PStr (PlanFile.flow_regime x));
       ("plan_type", PInt (PlanFile.plan_type x));
       ("profiles", p_list PStr (PlanFile.profiles x));
       ("computation", P (OComputationalSettings (PlanFile.computation x)));
       ("encroachment", P (OEncroachmentSettings (PlanFile.encroachment x)));
       ("output", P (OOutputSettings (PlanFile.output x)));
       ("paused", PBool (PlanFile.paused x))]
  | OComputationalSettings x =>
      [("flow_tolerance", PFloat (ComputationalSettings.flow_tolerance x));
       ("ws_tolerance", PFloat (ComputationalSettings.ws_tolerance x));
       ("critical_always", PBool (ComputationalSettings.critical_always x));
       ("friction_slope_method", PInt (ComputationalSettings.friction_slope_method x));
       ("flow_ratio", PFloat (ComputationalSettings.flow_ratio x));
       ("split_flow", PBool (ComputationalSettings.split_flow x));
       ("warm_up", PBool (ComputationalSettings.warm_up x));
       ("computation_interval", PStr (ComputationalSettings.computation_interval x));
       ("flow_tolerance_method", PInt (ComputationalSettings.flow_tolerance_method x));
       ("check_data", PBool (ComputationalSettings.check_data x))]
  | OEncroachmentSettings x =>
      [("enabled", PBool (EncroachmentSettings.enabled x));
       ("method", PInt (EncroachmentSettings.method x));
       ("values", p_list PFloat (EncroachmentSettings.values x))]
  | OOutputSettings x =>
      [("run_htab", PBool (OutputSettings.run_htab x));
       ("run_post_process", PBool (OutputSettings.run_post_process x));
       ("run_sediment", PBool (OutputSettings.run_sediment x));
       ("run_unet", PBool (OutputSettings.run_unet x));
       ("run_ras_mapper", PBool (OutputSettings.run_ras_mapper x));
       ("write_ic_file", PBool (OutputSettings.write_ic_file x));
       ("write_detailed", PBool (OutputSettings.write_detailed x));
       ("echo_input", PBool (OutputSettings.echo_input x));
       ("echo_parameters", PBool (OutputSettings.echo_parameters x));
       ("echo_output", PBool (OutputSettings.echo_output x));
       ("log_output_level", PInt (OutputSettings.log_output_level x));
       ("output_interval", PStr (OutputSettings.output_interval x));
       ("mapping_interval", PStr (OutputSettings.mapping_interval x));
       ("hydrograph_output_interval", PStr (OutputSettings.hydrograph_output_interval x));
       ("detailed_output_interval", PStr (OutputSettings.detailed_output_interval x));
       ("instantaneous_interval", PStr (OutputSettings.instantaneous_interval x))]
  | OFlowFile x =>
      [("title", PStr (FlowFile.title x));
       ("program_version", PStr (FlowFile.program_version x));
       ("is_steady", PBool (FlowFile.is_steady x));
       ("profiles", p_list (fun c => P (OFlowProfile c)) (FlowFile.profiles x));
       ("flow_change_locations",
        p_list (fun c => P (OFlowChangeLocation c)) (FlowFile.flow_change_locations x));
       ("steady_boundaries",
        p_list (fun c => P (OSteadyBoundaryCondition c)) (FlowFile.steady_boundaries x));
       ("unsteady_boundaries",
        p_list (fun c => P (OUnsteadyBoundaryCondition c)) (FlowFile.unsteady_boundaries x))]
  | OFlowProfile x => [("name", PStr (FlowProfile.name x))]
  | OFlowChangeLocation x =>
      [("river", PStr (FlowChangeLocation.river x));
       ("reach", PStr (FlowChangeLocation.reach x));
       ("river_station", PFloat (FlowChangeLocation.river_station x));
       ("flows", p_list PFloat (FlowChangeLocation.flows x))]
  | OSteadyBoundaryCondition x =>
      [("river", PStr (SteadyBoundaryCondition.river x));
       ("reach", PStr (SteadyBoundaryCondition.reach x));
       ("profile_number", PInt (SteadyBoundaryCondition.profile_number x));
       ("upstream_type", PInt (SteadyBoundaryCondition.upstream_type x));
       ("downstream_type", PInt (SteadyBoundaryCondition.downstream_type x));
       ("downstream_slope", PFloat (SteadyBoundaryCondition.downstream_slope x));
       ("upstream_slope", PFloat (SteadyBoundaryCondition.upstream_slope x));
       ("downstream_known_ws", PFloat (SteadyBoundaryCondition.downstream_known_ws x));
       ("upstream_known_ws", PFloat (SteadyBoundaryCondition.upstream_known_ws x))]
  | OUnsteadyBoundaryCondition x =>
      [("river", PStr (UnsteadyBoundaryCondition.river x));
       ("reach", PStr (UnsteadyBoundaryCondition.reach x));
       ("river_station", PStr (UnsteadyBoundaryCondition.river_station x));
       ("bc_type", PStr (UnsteadyBoundaryCondition.bc_type x));
       ("interval", PStr (UnsteadyBoundaryCondition.interval x));
       ("data", p_list PFloat (UnsteadyBoundaryCondition.data x));
       ("friction_slope", p_opt PFloat (UnsteadyBoundaryCondition.friction_slope x));
       ("use_dss", PBool (UnsteadyBoundaryCondition.use_dss x));
       ("dss_file", PStr (UnsteadyBoundaryCondition.dss_file x));
       ("dss_path", PStr (UnsteadyBoundaryCondition.dss_path x))]
  | OProjectFile x =>
      [("title", PStr (ProjectFile.title x));
       ("description", PStr (ProjectFile.description x));
       ("units", PStr (ProjectFile.units x));
       ("current_plan", PStr (ProjectFile.current_plan x));
       ("geom_files", p_list PStr (ProjectFile.geom_files x));
       ("steady_files", p_list PStr (ProjectFile.steady_files x));
       ("unsteady_files", p_list PStr (ProjectFile.unsteady_files x));
       ("quasi_files", p_list PStr (ProjectFile.quasi_files x));
       ("plan_files", p_list PStr (ProjectFile.plan_files x));
       ("default_expansion", PFloat (ProjectFile.default_expansion x));
       ("default_contraction", PFloat (ProjectFile.default_contraction x))]
  end.

(** The [@property] attributes of an object's class; evaluating one may
    raise. *)
Definition properties (o : obj) : list (string * exc pyval) :=
  match o with
  | OCrossSection x =>
      [("manning_n_left", Ok (p_opt PFloat (CrossSection.manning_n_left x)));
       ("manning_n_channel", Ok (p_opt PFloat (CrossSection.manning_n_channel x)));
       ("manning_n_right", Ok (p_opt PFloat (CrossSection.manning_n_right x)));
       ("manning_n_values",
        Ok (PTuple [p_opt PFloat (CrossSection.manning_n_left x);
                    p_opt PFloat (CrossSection.manning_n_channel x);
                    p_opt PFloat (CrossSection.manning_n_right x)]))]
  | OBridge x =>
      [("min_low_chord", Ok (p_opt PFloat (Bridge.min_low_chord x)));
       ("opening_width", Ok (p_opt PFloat (Bridge.opening_width x)));
       ("total_pier_width_at_low_chord",
        w <- Bridge.total_pier_width_at_low_chord x ;; Ok (PFloat w))]
  | OSteadyBoundaryCondition x =>
      [("upstream_type_name", Ok (PStr (SteadyBoundaryCondition.upstream_type_name x)));
       ("downstream_type_name", Ok (PStr (SteadyBoundaryCondition.downstream_type_name x)))]
  | OFlowFile x =>
      [("profile_names", Ok (p_list PStr (FlowFile.profile_names x)));
       ("num_profiles", Ok (p_nat (FlowFile.num_profiles x)))]
  | OComputationalSettings x =>
      [("friction_slope_method_name",
        Ok (PStr (ComputationalSettings.friction_slope_method_name x)))]
  | OEncroachmentSettings x =>
      [("method_name", Ok (PStr (EncroachmentSettings.method_name x)));
       ("is_floodway", Ok (PBool (EncroachmentSettings.is_floodway x)));
       ("target_surcharge", Ok (p_opt PFloat (EncroachmentSettings.target_surcharge x)))]
  | OPlanFile x =>
      [("plan_type_name", Ok (PStr (PlanFile.plan_type_name x)));
       ("is_steady", Ok (PBool (PlanFile.is_steady x)));
       ("is_floodway_analysis", Ok (PBool (PlanFile.is_floodway_analysis x)))]
  | OProjectFile x =>
      [("all_flow_files", Ok (p_list PStr (ProjectFile.all_flow_files x)));
       ("is_english", Ok (PBool (ProjectFile.is_english x)));
       ("is_metric", Ok (PBool (ProjectFile.is_metric x)))]
  | _ => []
  end.

Fixpoint assoc {A : Type} (k : string) (l : list (string * A)) : option A :=
  match l with
  | [] => None
  | (k', v) :: rest => if String.eqb k' k then Some v else assoc k rest
  end.

(** [getattr(v, name, None)].  A dataclass field is read, a property is
    evaluated: one that raises [AttributeError] yields the default, any other
    exception propagates.  Every other name - a method, an attribute the
    object inherits from its class or from [object], an attribute of a
    [str], a number, a list, or a name the object does not have - is
    answered by [inherited], which stands for Python's attribute lookup
    outside the dataclass declarations: it gives the attribute, [None] (the
    default) when there is none, or an exception. *)
Definition getattr_or_None (inherited : pyval -> string -> exc pyval)
    (v : pyval) (name : string) : exc pyval :=
  match v with
  | PObj o =>
      match assoc name (fields o) with
      | Some x => Ok x
      | None =>
          match assoc name (properties o) with
          | Some (Ok x) => Ok x
          | Some (Raise AttributeError) => Ok PNone
          | Some (Raise e) => Raise e
          | None => inherited v name
          end
      end
  | _ => inherited v name
  end.

(** [hasattr(v, "__iter__")] and the items iteration yields *)
Definition iter_items (v : pyval) : option (exc (list pyval)) :=
  match v with
  | PList l => Some (Ok l)
  | PTuple l => Some (Ok l)
  | PStr s => Some (Ok (map PStr (PyStr.chars s)))
  | POther _ _ _ items => items
  | _ => None
  end.

(** ** Operations on [yaml] values *)

Module Yaml.

(** [y.get(k, default)]: only a dict has [get]. *)
Definition get (y : yaml) (k : string) (default : yaml) : exc yaml :=
  match y with
  | YMap d =>
      match assoc k d with
      | Some v => Ok v
      | None => Ok default
      end
  | _ => Raise AttributeError
  end.

(** [y[k]] for a string key [k] *)
Definition item (y : yaml) (k : string) : exc yaml :=
  match y with
  | YMap d =>
      match assoc k d with
      | Some v => Ok v
      | None => Raise KeyError
      end
  | _ => Raise TypeError
  end.

(** truth value, as [if y:] and [y or z] test it *)
Definition truthy (y : yaml) : bool :=
  match y with
  | YNull => false
  | YBool b => b
  | YInt z => negb (Z.eqb z 0)
  | YFloat f => negb (PyNum.is_zero f)
  | YStr s => negb (String.eqb s "")
  | YSeq l => match l with [] => false | _ => true end
  | YMap d => match d with [] => false | _ => true end
  end.

(** the items [for x in y] yields; a dict yields its keys *)
Definition iter (y : yaml) : exc (list yaml) :=
  match y with
  | YSeq l => Ok l
  | YStr s => Ok (map YStr (PyStr.chars s))
  | YMap d => Ok (map (fun kv => YStr (fst kv)) d)
  | _ => Raise TypeError
  end.

Definition hashable (y : yaml) : bool :=
  match y with
  | YSeq _ | YMap _ => false
  | _ => true
  end.

Definition num (y : yaml) : option PyNum.xreal :=
  match y with
  | YBool b => Some (PyNum.of_bool b)
  | YInt z => Some (PyNum.of_int z)
  | YFloat f => Some (PyNum.of_float f)
  | _ => None
  end.

(** [a == b] for hashable values (the elements of a set) *)
Definition eq_hashable (a b : yaml) : bool :=
  match a, b with
  | YNull, YNull => true
  | YStr s, YStr t => String.eqb s t
  | _, _ =>
      match num a, num b with
      | Some x, Some y => PyNum.eqb x y
      | _, _ => false
      end
  end.

(** [y == "s"] for a string literal *)
Definition eq_str (y : yaml) (s : string) : bool :=
  match y with
  | YStr t => String.eqb t s
  | _ => false
  end.

(** [sep.join(y)]: every item must be a [str]. *)
Definition join (sep : string) (y : yaml) : exc string :=
  l <- iter y ;;
  strs <- mapM (fun e => match e with
                         | YStr s => Ok s
                         | _ => Raise TypeError
                         end) l ;;
  Ok (PyStr.join sep strs).

End Yaml.

(** ** Comparing a model value with a rule parameter *)

Definition pyval_num (v : pyval) : option PyNum.xreal :=
  match v with
  | PBool b => Some (PyNum.of_bool b)
  | PInt z => Some (PyNum.of_int z)
  | PFloat f => Some (PyNum.of_float f)
  | _ => None
  end.

(** [v == y] *)
Fixpoint py_eq (v : pyval) (y : yaml) {struct v} : bool :=
  match v, y with
  | PNone, YNull => true
  | POther _ _ _ _, YNull => false
  | POther eq _ _ _, _ => eq y
  | PStr a, YStr b => String.eqb a b
  | PList lv, YSeq ly =>
      (fix all2 (lv : list pyval) (ly : list yaml) {struct lv} : bool :=
         match lv, ly with
         | [], [] => true
         | a :: lv', b :: ly' => py_eq a b && all2 lv' ly'
         | _, _ => false
         end) lv ly
  | _, _ =>
      match pyval_num v, Yaml.num y with
      | Some a, Some b => PyNum.eqb a b
      | _, _ => false
      end
  end.

(** [v <= y]: numbers with numbers, strings with strings, lists with lists
    (decided at the first position where the items differ); any other
    combination of these is a [TypeError]. *)
Fixpoint py_le_vy (v : pyval) (y : yaml) {struct v} : exc bool :=
  match v, y with
  | POther _ le _ _, _ => le y
  | PStr a, YStr b => Ok (String.leb a b)
  | PList lv, YSeq ly =>
      (fix go (lv : list pyval) (ly : list yaml) {struct lv} : exc bool :=
         match lv, ly with
         | [], _ => Ok true
         | _ :: _, [] => Ok false
         | a :: lv', b :: ly' =>
             if py_eq a b then go lv' ly' else py_le_vy a b
         end) lv ly
  | _, _ =>
      match pyval_num v, Yaml.num y with
      | Some a, Some b => Ok (PyNum.leb a b)
      | _, _ => Raise TypeError
      end
  end.

(** [y <= v] *)
Fixpoint py_le_yv (y : yaml) (v : pyval) {struct v} : exc bool :=
  match y, v with
  | _, POther _ _ ge _ => ge y
  | YStr a, PStr b => Ok (String.leb a b)
  | YSeq ly, PList lv =>
      (fix go (ly : list yaml) (lv : list pyval) {struct lv} : exc bool :=
         match ly, lv with
         | [], _ => Ok true
         | _ :: _, [] => Ok false
         | a :: ly', b :: lv' =>
             if py_eq b a then go ly' lv' else py_le_yv a b
         end) ly lv
  | _, _ =>
      match Yaml.num y, pyval_num v with
      | Some a, Some b => Ok (PyNum.leb a b)
      | _, _ => Raise TypeError
      end
  end.

(** [lo <= val <= hi]: the second comparison is evaluated only when the
    first one holds. *)
Definition between (lo : yaml) (val : pyval) (hi : yaml) : exc bool :=
  b <- py_le_yv lo val ;;
  if b then py_le_vy val hi else Ok false.

(** ** [RuleResult] *)

Module RuleResult.
Record t := mk {
  rule_id : yaml;
  rule_name : yaml;
  status : yaml;
  severity : yaml;
  actual_value : yaml;
  expected_value : yaml;
  citation : yaml;
  citation_url : yaml;
  message : yaml;
  location : yaml }.
End RuleResult.

Definition PASS : yaml := YStr "PASS".
Definition FAIL : yaml := YStr "FAIL".
Definition WARNING : yaml := YStr "WARNING".
Definition SKIPPED : yaml := YStr "SKIPPED".

(** ** Custom handlers: [rules/checks/] *)

(** [_make_result] of [checks/profiles.py] *)
Definition _make_result (rule : yaml) (status : yaml)
    (actual expected message : string) : exc dict :=
  rid <- Yaml.item rule "id" ;;
  name <- Yaml.item rule "name" ;;
  sev <- Yaml.item rule "severity" ;;
  cit <- Yaml.item rule "citation" ;;
  Ok [("rule_id", rid); ("rule_name", name); ("status", status);
      ("severity", sev); ("actual_value", YStr actual);
      ("expected_value", YStr expected); ("citation", cit);
      ("message", YStr message)].

(** [[n.lower() for n in names]] *)
Definition lower_all (names : yaml) : exc (list string) :=
  l <- Yaml.iter names ;;
  mapM (fun n => match n with
                 | YStr s => Ok (PyStr.lower s)
                 | _ => Raise AttributeError
                 end) l.

(** [any(pn.strip().lower() in accepted for pn in profile_names)] *)
Definition any_matches (accepted profile_names : list string) : bool :=
  existsb (fun pn =>
             existsb (String.eqb (PyStr.lower (PyStr.strip pn))) accepted)
          profile_names.

Definition check_profile_exists (rule : yaml) (model_data : ModelData.t)
  : exc (list dict) :=
  match ModelData.flow model_data with
  | None =>
      r <- _make_result rule SKIPPED "no flow data" ""
             "No flow file loaded; cannot check profile names." ;;
      Ok [r]
  | Some flow =>
      params <- Yaml.item rule "parameters" ;;
      names <- Yaml.get params "accepted_names" (YSeq []) ;;
      accepted <- lower_all names ;;
      let profile_names := FlowFile.profile_names flow in
      match profile_names with
      | [] =>
          params <- Yaml.item rule "parameters" ;;
          names <- Yaml.get params "accepted_names" (YSeq []) ;;
          expected <- Yaml.join ", " names ;;
          r <- _make_result rule SKIPPED "no profiles" expected
                 "Flow file contains no profiles." ;;
          Ok [r]
      | _ =>
          let matched := any_matches accepted profile_names in
          let present := PyStr.join ", " profile_names in
          params <- Yaml.item rule "parameters" ;;
          names <- Yaml.item params "accepted_names" ;;
          joined <- Yaml.join ", " names ;;
          if matched then
            r <- _make_result rule PASS present ("one of: " ++ joined)
                   ("Required profile found in: " ++ present ++ ".") ;;
            Ok [r]
          else
            r <- _make_result rule FAIL present ("one of: " ++ joined)
                   ("No profile matching the required event was found. "
                    ++ "Profiles present: " ++ present ++ ".") ;;
            Ok [r]
      end
  end.

(** the alias the FEMA rule refers to *)
Definition check_100yr_profile_exists := check_profile_exists.

Definition check_boundary_conditions_defined (rule : yaml)
    (model_data : ModelData.t) : exc (list dict) :=
  match ModelData.flow model_data with
  | None =>
      rid <- Yaml.item rule "id" ;;
      name <- Yaml.item rule "name" ;;
      sev <- Yaml.item rule "severity" ;;
      cit <- Yaml.item rule "citation" ;;
      Ok [[("rule_id", rid); ("rule_name", name); ("status", SKIPPED);
           ("severity", sev); ("actual_value", YStr "no flow data");
           ("expected_value", YStr "boundary conditions defined");
           ("citation", cit);
           ("message",
            YStr "No flow file loaded; cannot check boundary conditions.")]]
  | Some flow =>
      let '(count, bc_type) :=
        if FlowFile.is_steady flow
        then (List.length (FlowFile.steady_boundaries flow), "steady")
        else (List.length (FlowFile.unsteady_boundaries flow), "unsteady") in
      rid <- Yaml.item rule "id" ;;
      name <- Yaml.item rule "name" ;;
      sev <- Yaml.item rule "severity" ;;
      if (0 <? count)%nat then
        let actual := PyStr.of_nat count ++ " " ++ bc_type ++ " boundary conditions" in
        cit <- Yaml.item rule "citation" ;;
        Ok [[("rule_id", rid); ("rule_name", name); ("status", PASS);
             ("severity", sev); ("actual_value", YStr actual);
             ("expected_value", YStr "at least 1 boundary condition");
             ("citation", cit);
             ("message",
              YStr (PyStr.of_nat count ++ " " ++ bc_type
                    ++ " boundary condition(s) defined."))]]
      else
        cit <- Yaml.item rule "citation" ;;
        Ok [[("rule_id", rid); ("rule_name", name); ("status", FAIL);
             ("severity", sev);
             ("actual_value", YStr ("0 " ++ bc_type ++ " boundary conditions"));
             ("expected_value", YStr "at least 1 boundary condition");
             ("citation", cit);
             ("message",
              YStr ("No " ++ bc_type ++ " boundary conditions found. Every reach endpoint "
                    ++ "must have an assigned boundary condition."))]]
  end.

(** [checks/review.py] *)
Definition flag_for_manual_review (rule : yaml) (model_data : ModelData.t)
  : exc (list dict) :=
  params <- Yaml.item rule "parameters" ;;
  note <- Yaml.get params "review_note" (YStr "Manual review required.") ;;
  let note := match note with
              | YStr s => YStr (PyStr.strip s)
              | _ => note
              end in
  rid <- Yaml.item rule "id" ;;
  name <- Yaml.item rule "name" ;;
  cit <- Yaml.item rule "citation" ;;
  Ok [[("rule_id", rid); ("rule_name", name); ("status", PASS);
       ("severity", YStr "info"); ("actual_value", YStr "flagged for review");
       ("expected_value", YStr "manual verification"); ("citation", cit);
       ("message", note)]].

Definition handler : Type := yaml -> ModelData.t -> exc (list dict).

Definition HANDLER_REGISTRY : list (string * handler) :=
  [("check_profile_exists", check_profile_exists);
   ("check_100yr_profile_exists", check_100yr_profile_exists);
   ("check_boundary_conditions_defined", check_boundary_conditions_defined);
   ("flag_for_manual_review", flag_for_manual_review)].

(** [HANDLER_REGISTRY.get(name)]: the key must be hashable. *)
Definition registry_get (name : yaml) : exc (option handler) :=
  match name with
  | YStr s => Ok (assoc s HANDLER_REGISTRY)
  | YSeq _ | YMap _ => Raise TypeError
  | _ => Ok None
  end.

(** ** Path resolution and the engine: [rules/engine.py] *)

(** a record of
    [logger.warning("Error evaluating rule %s", id, exc_info=True)] *)
Record log_record := mk_log { log_rule : yaml; log_exc : exn }.

Section Engine.

(** Python's attribute lookup outside the dataclass declarations, see
    [getattr_or_None] *)
Variable inherited : pyval -> string -> exc pyval.

(** [str(v)], also what an f-string inserts for [{v}] *)
Variable py_str : pyval -> string.
Variable yaml_str : yaml -> string.

(** the [for part in path.split(".")] loop of [_getattr_path] *)
Fixpoint walk (obj : pyval) (parts : list string) : exc pyval :=
  match parts with
  | [] => Ok obj
  | part :: rest =>
      match obj with
      | PNone => Ok PNone
      | _ => o <- getattr_or_None inherited obj part ;; walk o rest
      end
  end.

Definition _getattr_path (obj : pyval) (path : string) : exc pyval :=
  walk obj (PyStr.split "." path).

(** what one item of the container contributes to [results] *)
Definition resolve_item (field_path : string) (item : pyval)
  : exc (list (pyval * string)) :=
  station <- getattr_or_None inherited item "river_station" ;;
  let loc := match station with
             | PNone => ""
             | _ => "RS " ++ py_str station
             end in
  if String.eqb field_path "manning_n_overbank" then
    left <- getattr_or_None inherited item "manning_n_left" ;;
    right <- getattr_or_None inherited item "manning_n_right" ;;
    let l := match left with
             | PNone => []
             | _ => [(left, if String.eqb loc "" then "LOB" else loc ++ " LOB")]
             end in
    let r := match right with
             | PNone => []
             | _ => [(right, if String.eqb loc "" then "ROB" else loc ++ " ROB")]
             end in
    Ok (l ++ r)%list
  else
    val <- _getattr_path item field_path ;;
    Ok [(val, loc)].

(** the [for item in container] loop *)
Fixpoint resolve_items (field_path : string) (items : list pyval)
  : exc (list (pyval * string)) :=
  match items with
  | [] => Ok []
  | item :: rest =>
      here <- resolve_item field_path item ;;
      more <- resolve_items field_path rest ;;
      Ok (here ++ more)%list
  end.

(** [applies_to] is whatever the rule holds under that key: the substring
    test and the string methods fail on anything but a [str]. *)
Definition _resolve_values (model : ModelData.t) (applies_to : yaml)
  : exc (list (pyval * string)) :=
  match applies_to with
  | YStr path =>
      if PyStr.contains "[]" path then
        let '(container_path, _, field_path) := PyStr.partition "[]" path in
        let container_path := PyStr.rstrip_by PyStr.is_dot container_path in
        let field_path := PyStr.lstrip_by PyStr.is_dot field_path in
        container <- _getattr_path (PObj (OModelData model)) container_path ;;
        match iter_items container with
        | None => Ok []
        | Some iteration =>
            items <- iteration ;;
            resolve_items field_path items
        end
      else
        val <- _getattr_path (PObj (OModelData model)) path ;;
        Ok [(val, "")]
  | YSeq l =>
      (* ["[]" in applies_to] is list membership; every branch then calls a
         [str] method on the list *)
      Raise AttributeError
  | YMap d => Raise AttributeError
  | _ => Raise TypeError
  end.

(** *** Generic checks *)

Definition failed_status (rule : yaml) : exc yaml :=
  sev <- Yaml.item rule "severity" ;;
  Ok (if Yaml.eq_str sev "warning" then WARNING else FAIL).

Definition _check_range (rule : yaml) (val : pyval) (location : string)
  : exc RuleResult.t :=
  params <- Yaml.get rule "parameters" (YMap []) ;;
  lo <- Yaml.get params "min" (YFloat PyNum.neg_inf) ;;
  hi <- Yaml.get params "max" (YFloat PyNum.inf) ;;
  passed <- between lo val hi ;;
  status <- (if passed then Ok PASS else failed_status rule) ;;
  let expected := yaml_str lo ++ " – " ++ yaml_str hi in
  let msg :=
    if passed
    then "Value " ++ py_str val ++ " is within range ["
         ++ yaml_str lo ++ ", " ++ yaml_str hi ++ "]."
    else "Value " ++ py_str val ++ " is outside range ["
         ++ yaml_str lo ++ ", " ++ yaml_str hi ++ "]." in
  rid <- Yaml.item rule "id" ;;
  name <- Yaml.item rule "name" ;;
  sev <- Yaml.item rule "severity" ;;
  cit <- Yaml.item rule "citation" ;;
  url <- Yaml.get rule "citation_url" (YStr "") ;;
  Ok (RuleResult.mk rid name status sev (YStr (py_str val)) (YStr expected)
        cit url (YStr msg) (YStr location)).

Definition _check_exact (rule : yaml) (val : pyval) (location : string)
  : exc RuleResult.t :=
  params <- Yaml.get rule "parameters" (YMap []) ;;
  expected <- Yaml.get params "value" YNull ;;
  let passed := py_eq val expected in
  status <- (if passed then Ok PASS else failed_status rule) ;;
  rid <- Yaml.item rule "id" ;;
  name <- Yaml.item rule "name" ;;
  sev <- Yaml.item rule "severity" ;;
  cit <- Yaml.item rule "citation" ;;
  url <- Yaml.get rule "citation_url" (YStr "") ;;
  Ok (RuleResult.mk rid name status sev (YStr (py_str val))
        (YStr (yaml_str expected)) cit url
        (YStr ("Value " ++ py_str val ++ " "
               ++ (if passed then "matches" else "does not match")
               ++ " expected " ++ yaml_str expected ++ "."))
        (YStr location)).

Definition _check_exists (rule : yaml) (val : pyval) (location : string)
  : exc RuleResult.t :=
  rid <- Yaml.item rule "id" ;;
  name <- Yaml.item rule "name" ;;
  sev <- Yaml.item rule "severity" ;;
  cit <- Yaml.item rule "citation" ;;
  url <- Yaml.get rule "citation_url" (YStr "") ;;
  Ok (RuleResult.mk rid name PASS sev (YStr (py_str val)) (YStr "present")
        cit url (YStr "Value is present.") (YStr location)).

Definition _skipped (rule : yaml) (reason : string) (location : string)
  : exc RuleResult.t :=
  rid <- Yaml.item rule "id" ;;
  name <- Yaml.item rule "name" ;;
  sev <- Yaml.item rule "severity" ;;
  cit <- Yaml.item rule "citation" ;;
  url <- Yaml.get rule "citation_url" (YStr "") ;;
  Ok (RuleResult.mk rid name SKIPPED sev (YStr "") (YStr "") cit url
        (YStr reason) (YStr location)).

(** *** Custom handler dispatch *)

(** the [RuleResult(...)] built from one dictionary a handler returned *)
Definition of_raw (rule : yaml) (r : dict) : exc RuleResult.t :=
  let r := YMap r in
  rid <- Yaml.item r "rule_id" ;;
  name <- Yaml.item r "rule_name" ;;
  status <- Yaml.item r "status" ;;
  sev <- Yaml.item r "severity" ;;
  actual <- Yaml.get r "actual_value" (YStr "") ;;
  expected <- Yaml.get r "expected_value" (YStr "") ;;
  cit <- Yaml.get r "citation" (YStr "") ;;
  rule_url <- Yaml.get rule "citation_url" (YStr "") ;;
  url <- Yaml.get r "citation_url" rule_url ;;
  msg <- Yaml.get r "message" (YStr "") ;;
  loc <- Yaml.get r "location" (YStr "") ;;
  Ok (RuleResult.mk rid name status sev actual expected cit url msg loc).

Definition _run_custom (rule : yaml) (model : ModelData.t)
  : exc (list RuleResult.t) :=
  params <- Yaml.get rule "parameters" (YMap []) ;;
  handler_name <- Yaml.get params "handler" (YStr "") ;;
  h <- registry_get handler_name ;;
  match h with
  | None =>
      r <- _skipped rule ("Unknown handler: " ++ yaml_str handler_name) "" ;;
      Ok [r]
  | Some handler =>
      raw_results <- handler rule model ;;
      mapM (of_raw rule) raw_results
  end.

(** *** Rule evaluation *)

(** the body of the [for val, location in values] loop *)
Definition check_value (rule check_type : yaml) (vl : pyval * string)
  : exc RuleResult.t :=
  let '(val, location) := vl in
  match val with
  | PNone => _skipped rule "Value is None" location
  | _ =>
      if Yaml.eq_str check_type "range" then _check_range rule val location
      else if Yaml.eq_str check_type "exact" then _check_exact rule val location
      else if Yaml.eq_str check_type "exists" then _check_exists rule val location
      else _skipped rule ("Unknown check_type: " ++ yaml_str check_type) location
  end.

Definition _evaluate_rule (rule : yaml) (model : ModelData.t)
  : exc (list RuleResult.t) :=
  check_type <- Yaml.get rule "check_type" (YStr "") ;;
  if Yaml.eq_str check_type "custom" then _run_custom rule model
  else
    applies_to <- Yaml.get rule "applies_to" (YStr "") ;;
    values <- _resolve_values model applies_to ;;
    match values with
    | [] => r <- _skipped rule "Data not available" "" ;; Ok [r]
    | _ => mapM (check_value rule check_type) values
    end.

(** the [RuleResult] the [except Exception] branch of [evaluate] appends *)
Definition internal_error (rule : yaml) : exc RuleResult.t :=
  rid <- Yaml.get rule "id" (YStr "?") ;;
  name <- Yaml.get rule "name" (YStr "?") ;;
  sev <- Yaml.get rule "severity" (YStr "error") ;;
  cit <- Yaml.get rule "citation" (YStr "") ;;
  url <- Yaml.get rule "citation_url" (YStr "") ;;
  Ok (RuleResult.mk rid name SKIPPED sev (YStr "") (YStr "") cit url
        (YStr "Internal error evaluating rule.") (YStr "")).

(** The [for rule in self.rules] loop of [evaluate], threading the result
    list and the log.  An exception raised inside the [except] branch is not
    caught: it ends the call. *)
Fixpoint evaluate_loop (rules : list yaml) (model : ModelData.t)
    (results : list RuleResult.t) (log : list log_record)
  : exc (list RuleResult.t) * list log_record :=
  match rules with
  | [] => (Ok results, log)
  | rule :: rest =>
      match _evaluate_rule rule model with
      | Ok rs => evaluate_loop rest model (results ++ rs)%list log
      | Raise e =>
          match Yaml.get rule "id" (YStr "?") with
          | Raise e' => (Raise e', log)
          | Ok rid =>
              let log := (log ++ [mk_log rid e])%list in
              match internal_error rule with
              | Raise e' => (Raise e', log)
              | Ok r => evaluate_loop rest model (results ++ [r])%list log
              end
          end
      end
  end.

(** [ComplianceEngine]: the rule list loaded at construction. *)
Record ComplianceEngine := mk_engine { rules : list yaml }.

Definition evaluate (self : ComplianceEngine) (model : ModelData.t)
    (log : list log_record) : exc (list RuleResult.t) * list log_record :=
  evaluate_loop (rules self) model [] log.

End Engine.

(** ** Rule loading: [load_rules] *)

Section Loader.

(** File paths, the built-in baseline file, the overlay file of a region
    ([_STATES_DIR / f"{name}.yaml"]) and the file system.  [fs p] is [None]
    when no file exists at [p]; otherwise it is the outcome of
    [yaml.safe_load(p.read_text())]. *)
Variable path : Type.
Variable _FEMA_RULES : path.
Variable state_file : string -> path.
Variable fs : path -> option (exc yaml).

Definition exists_ (p : path) : bool :=
  match fs p with Some _ => true | None => false end.

Definition read_yaml (p : path) : exc yaml :=
  match fs p with
  | Some r => r
  | None => Raise FileNotFoundError
  end.

(** [set(y)]: every item must be hashable. *)
Definition py_set (y : yaml) : exc (list yaml) :=
  l <- Yaml.iter y ;;
  if forallb Yaml.hashable l then Ok l else Raise TypeError.

(** [x in s] for a set [s] *)
Definition set_mem (x : yaml) (s : list yaml) : exc bool :=
  if Yaml.hashable x then Ok (existsb (Yaml.eq_hashable x) s)
  else Raise TypeError.

(** [[r for r in rules if r["id"] not in supersedes]] *)
Fixpoint drop_superseded (supersedes : list yaml) (rules : list yaml)
  : exc (list yaml) :=
  match rules with
  | [] => Ok []
  | r :: rest =>
      rid <- Yaml.item r "id" ;;
      superseded <- set_mem rid supersedes ;;
      kept <- drop_superseded supersedes rest ;;
      Ok (if superseded then kept else r :: kept)
  end.

(** [y or []] *)
Definition or_empty (y : yaml) : yaml :=
  if Yaml.truthy y then y else YSeq [].

(** [fema_path or _FEMA_RULES] *)
Definition baseline_file (fema_path : option path) : path :=
  match fema_path with
  | Some p => p
  | None => _FEMA_RULES
  end.

(** [st_file]: the explicit path, else the file of a non-empty region key *)
Definition overlay_file (state : option string) (state_path : option path)
  : option path :=
  match state_path, state with
  | Some p, _ => Some p
  | None, Some s =>
      if String.eqb s "" then None else Some (state_file (PyStr.lower s))
  | None, None => None
  end.

Definition load_rules (state : option string)
    (fema_path state_path : option path) : exc (list yaml) :=
  let fema_file := baseline_file fema_path in
  fema_data <- read_yaml fema_file ;;
  rs <- Yaml.get fema_data "rules" (YSeq []) ;;
  rules <- Yaml.iter rs ;;
  let st_file := overlay_file state state_path in
  match st_file with
  | None => Ok rules
  | Some f =>
      if exists_ f then
        st_data <- read_yaml f ;;
        sup <- Yaml.get st_data "supersedes" (YSeq []) ;;
        supersedes <- py_set (or_empty sup) ;;
        rules <- match supersedes with
                 | [] => Ok rules
                 | _ => drop_superseded supersedes rules
                 end ;;
        extra <- Yaml.get st_data "rules" (YSeq []) ;;
        more <- Yaml.iter (or_empty extra) ;;
        Ok (rules ++ more)%list
      else Ok rules
  end.

End Loader.

(** ** The callers: [cli.py], [web/app.py] and the report modules *)

(** [_STATE_ABBREVS] of [cli.py] *)
Definition _STATE_ABBREVS : list (string * string) :=
  [("TX", "texas"); ("TEXAS", "texas"); ("ME", "maine"); ("MAINE", "maine")].

Definition _resolve_state (state : option string) : option string :=
  match state with
  | None => None
  | Some s =>
      match assoc (PyStr.upper s) _STATE_ABBREVS with
      | Some name => Some name
      | None => Some (PyStr.lower s)
      end
  end.

(** the counters of [run]: [sum(1 for r in results if r.status == status)] *)
Definition count_status (status : string) (results : list RuleResult.t)
  : nat :=
  List.length
    (filter (fun r => Yaml.eq_str (RuleResult.status r) status) results).

Section LoadModel.

(** The files of one project: [member ext] is [base_dir / f"{stem}.{ext}"],
    [file_exists] is [Path.exists].  The parsers read text into floats and
    are not modelled: they are parameters, and may raise. *)
Variable path : Type.
Variable member : string -> path.
Variable file_exists : path -> bool.
Variable parse_project : path -> exc ProjectFile.t.
Variable parse_geometry : path -> exc GeometryFile.t.
Variable parse_plan : path -> exc PlanFile.t.
Variable parse_flow : path -> exc FlowFile.t.

(** [for ext in exts: p = member(ext); if p.exists(): x = parse(p); break] *)
Fixpoint first_existing {A : Type} (parse : path -> exc A)
    (exts : list string) : exc (option A) :=
  match exts with
  | [] => Ok None
  | ext :: rest =>
      if file_exists (member ext)
      then x <- parse (member ext) ;; Ok (Some x)
      else first_existing parse rest
  end.

(** [_load_model] of [cli.py] ([_load_model_from_dir] of [web/app.py] does
    the same once it has found the project file); the model it returns. *)
Definition _load_model (prj_path : path) : exc ModelData.t :=
  project <- parse_project prj_path ;;
  geometry <- first_existing parse_geometry (ProjectFile.geom_files project) ;;
  let plan_exts :=
    ((match ProjectFile.current_plan project with
      | EmptyString => []
      | ext => [ext]
      end) ++ ProjectFile.plan_files project)%list in
  plan <- first_existing parse_plan plan_exts ;;
  flow <- first_existing parse_flow (ProjectFile.all_flow_files project) ;;
  Ok (ModelData.mk geometry plan flow (Some project)).

End LoadModel.

(** [_CATEGORY_ORDER] and [_PREFIX_TO_CATEGORY], the same in
    [reporting/markdown_report.py], [reporting/pdf_report.py] and
    [web/app.py] *)
Definition _CATEGORY_ORDER : list string :=
  ["Manning's n"; "Expansion / Contraction Coefficients";
   "Floodway / Surcharge"; "Required Flood Events"; "Bridge / Culvert";
   "Boundary Conditions"; "Freeboard"; "Other"].

Definition _PREFIX_TO_CATEGORY : list (string * string) :=
  [("MANN", "Manning's n");
   ("COEF", "Expansion / Contraction Coefficients");
   ("FW", "Floodway / Surcharge");
   ("EVENT", "Required Flood Events");
   ("BRG", "Bridge / Culvert");
   ("BC", "Boundary Conditions");
   ("FB", "Freeboard")].

(** the [for part in parts] loop of [_categorize] *)
Fixpoint first_category (parts : list string) : string :=
  match parts with
  | [] => "Other"
  | part :: rest =>
      match assoc part _PREFIX_TO_CATEGORY with
      | Some category => category
      | None => first_category rest
      end
  end.

Definition _categorize (rule_id : string) : string :=
  first_category (PyStr.split "-" rule_id).

(** [_categorize(r.rule_id)]: only a [str] has [split]. *)
Definition category_of (r : RuleResult.t) : exc string :=
  match RuleResult.rule_id r with
  | YStr s => Ok (_categorize s)
  | _ => Raise AttributeError
  end.

(** [grouped[category].append(r)] on a [defaultdict(list)] *)
Fixpoint group_append (category : string) (r : RuleResult.t)
    (grouped : list (string * list RuleResult.t))
  : list (string * list RuleResult.t) :=
  match grouped with
  | [] => [(category, [r])]
  | (c, rs) :: rest =>
      if String.eqb c category then (c, (rs ++ [r])%list) :: rest
      else (c, rs) :: group_append category r rest
  end.

(** the [for r in results] loop that fills [grouped] *)
Fixpoint group_loop (results : list RuleResult.t)
    (grouped : list (string * list RuleResult.t))
  : exc (list (string * list RuleResult.t)) :=
  match results with
  | [] => Ok grouped
  | r :: rest =>
      category <- category_of r ;;
      group_loop rest (group_append category r grouped)
  end.

(** [[(cat, grouped[cat]) for cat in _CATEGORY_ORDER if cat in grouped]] of
    [review] in [web/app.py] *)
Definition categories (results : list RuleResult.t)
  : exc (list (string * list RuleResult.t)) :=
  grouped <- group_loop results [] ;;
  Ok (flat_map (fun cat => match assoc cat grouped with
                           | Some rs => [(cat, rs)]
                           | None => []
                           end) _CATEGORY_ORDER).

(** [[r for r in results if r.status == "FAIL"]] *)
Definition failures (results : list RuleResult.t) : list RuleResult.t :=
  filter (fun r => Yaml.eq_str (RuleResult.status r) "FAIL") results.

(** [[r for r in results if r.status in ("FAIL", "WARNING")]] *)
Definition actionable (results : list RuleResult.t) : list RuleResult.t :=
  filter (fun r => Yaml.eq_str (RuleResult.status r) "FAIL"
                   || Yaml.eq_str (RuleResult.status r) "WARNING") results.

(** * Notions used in the statements *)

(** the rational number a finite [XFin m e] denotes *)
Definition Qval (m e : Z) : Q := (inject_Z m * 2 ^ e)%Q.

(** a rule that is a mapping *)
Definition is_mapping (y : yaml) : bool :=
  match y with YMap _ => true | _ => false end.

(** [d.get(k, default)] on a dictionary *)
Definition dict_get (d : dict) (k : string) (default : yaml) : yaml :=
  match assoc k d with
  | Some v => v
  | None => default
  end.

(** a result that names the rule it comes from: its [rule_id] is the rule's
    identifier, or "?" when the rule has none *)
Definition from_rule (rule : yaml) (r : RuleResult.t) : Prop :=
  Yaml.get rule "id" (YStr "?") = Ok (RuleResult.rule_id r).

(** what a rule contributes to the result list of [evaluate]: its results,
    or the single record of the [except] branch *)
Definition results_of (inherited : pyval -> string -> exc pyval)
    (py_str : pyval -> string) (yaml_str : yaml -> string)
    (rule : yaml) (model : ModelData.t) : list RuleResult.t :=
  match _evaluate_rule inherited py_str yaml_str rule model with
  | Ok rs => rs
  | Raise _ =>
      match internal_error rule with
      | Ok r => [r]
      | Raise _ => []
      end
  end.

(** what [flag_for_manual_review] puts in the message: the note, trimmed when
    it is a string *)
Definition trimmed_note (note : yaml) : yaml :=
  match note with
  | YStr s => YStr (PyStr.strip s)
  | _ => note
  end.

(** the pairs one cross-section contributes: none without Manning regions,
    otherwise the first region's n tagged LOB and the last region's n tagged
    ROB *)
Definition overbank_pairs (py_str : pyval -> string) (x : CrossSection.t)
  : list (pyval * string) :=
  let loc := "RS " ++ py_str (PFloat (CrossSection.river_station x)) in
  match CrossSection.manning_regions x with
  | [] => []
  | r :: rs =>
      [(PFloat (ManningRegion.n_value r), loc ++ " LOB");
       (PFloat (ManningRegion.n_value (last rs r)), loc ++ " ROB")]
  end.

(** a cross-section with at least one Manning region *)
Definition has_regions (x : CrossSection.t) : bool :=
  match CrossSection.manning_regions x with
  | [] => false
  | _ => true
  end.

(** a rule whose identifier is in the supersedes set *)
Definition superseded (supersedes : list yaml) (r : yaml) : bool :=
  match Yaml.item r "id" with
  | Ok rid => existsb (Yaml.eq_hashable rid) supersedes
  | Raise _ => false
  end.

(** a rule mapping with a hashable identifier (a string, a number, ...) *)
Definition has_id (r : yaml) : bool :=
  match Yaml.item r "id" with
  | Ok rid => Yaml.hashable rid
  | Raise _ => false
  end.

(** a result whose status is one of the four the engine knows *)
Definition known_status (r : RuleResult.t) : Prop :=
  In (RuleResult.status r) [PASS; FAIL; WARNING; SKIPPED].

(** a dictionary returned by a handler whose status entry is one of the
    four *)
Definition raw_known_status (raw : dict) : Prop :=
  exists st, assoc "status" raw = Some st
             /\ In st [PASS; FAIL; WARNING; SKIPPED].

(** an attribute lookup that finds nothing outside the dataclass
    declarations: every other name gets the default *)
Definition no_inherited (v : pyval) (name : string) : exc pyval := Ok PNone.

(** a walk that stays inside the dataclass declarations: every name it looks
    up is a field or a property of the object at hand; it may end early, at
    None or at a property that raises *)
Fixpoint declared (v : pyval) (parts : list string) : bool :=
  match parts with
  | [] => true
  | part :: rest =>
      match v with
      | PNone => true
      | PObj o =>
          match assoc part (fields o) with
          | Some x => declared x rest
          | None =>
              match assoc part (properties o) with
              | Some (Ok x) => declared x rest
              | Some (Raise _) => true
              | None => false
              end
          end
      | _ => false
      end
  end.

(** a walk that starts at a component of the model which is not loaded *)
Definition starts_at_missing (model : ModelData.t) (parts : list string)
  : bool :=
  match parts with
  | first :: _ =>
      match assoc first (fields (OModelData model)) with
      | Some PNone => true
      | _ => false
      end
  | [] => false
  end.

(** a value other than a bridge object: the only property that can raise
    belongs to [Bridge] *)
Definition no_bridge (v : pyval) : bool :=
  match v with
  | PObj (OBridge _) => false
  | _ => true
  end.

(** the label a cross-section gets: [f"RS {station}"] *)
Definition station_label (py_str : pyval -> string) (x : CrossSection.t)
  : string :=
  "RS " ++ py_str (PFloat (CrossSection.river_station x)).

(** the value of a field path of declared names on one cross-section *)
Definition section_value (field_path : string) (x : CrossSection.t) : pyval :=
  match _getattr_path no_inherited (PObj (OCrossSection x)) field_path with
  | Ok v => v
  | Raise _ => PNone
  end.

(** a rule dictionary that carries the four keys every result copies *)
Definition has_key (d : dict) (k : string) : bool :=
  match assoc k d with Some _ => true | None => false end.

Definition has_keys (d : dict) : bool :=
  has_key d "id" && has_key d "name" && has_key d "severity"
  && has_key d "citation".

(** the result a rule dictionary gets: identifier, name, severity, citation
    and URL copied from the rule, the rest as given *)
Definition result_for (d : dict) (status : yaml)
    (actual expected message location : string) : RuleResult.t :=
  RuleResult.mk (dict_get d "id" YNull) (dict_get d "name" YNull) status
    (dict_get d "severity" YNull) (YStr actual) (YStr expected)
    (dict_get d "citation" YNull) (dict_get d "citation_url" (YStr ""))
    (YStr message) (YStr location).

(** the status of a failed generic check under the rule's severity *)
Definition status_on_failure (d : dict) : yaml :=
  if Yaml.eq_str (dict_get d "severity" YNull) "warning" then WARNING
  else FAIL.

(** the dictionary a handler returns for a rule dictionary *)
Definition raw_for (d : dict) (status : yaml)
    (actual expected message : string) : dict :=
  [("rule_id", dict_get d "id" YNull); ("rule_name", dict_get d "name" YNull);
   ("status", status); ("severity", dict_get d "severity" YNull);
   ("actual_value", YStr actual); ("expected_value", YStr expected);
   ("citation", dict_get d "citation" YNull); ("message", YStr message)].

(** the boundary entries the handler counts, and what it calls them *)
Definition boundary_count (flow : FlowFile.t) : nat :=
  if FlowFile.is_steady flow
  then List.length (FlowFile.steady_boundaries flow)
  else List.length (FlowFile.unsteady_boundaries flow).

Definition boundary_kind (flow : FlowFile.t) : string :=
  if FlowFile.is_steady flow then "steady" else "unsteady".

(** what a rule mapping adds to the log of [evaluate]: one record, with the
    rule's identifier (or "?") and the exception, when evaluating it raises *)
Definition log_of (inherited : pyval -> string -> exc pyval)
    (py_str : pyval -> string) (yaml_str : yaml -> string)
    (rule : yaml) (model : ModelData.t) : list log_record :=
  match _evaluate_rule inherited py_str yaml_str rule model with
  | Ok _ => []
  | Raise e =>
      match Yaml.get rule "id" (YStr "?") with
      | Ok rid => [mk_log rid e]
      | Raise _ => []
      end
  end.

(** a float that is a number: not NaN *)
Definition not_nan (f : PyNum.float) : bool :=
  match f with S754_nan => false | _ => true end.

(** a float that is neither NaN nor an infinity *)
Definition is_finite (f : PyNum.float) : bool :=
  match f with S754_zero _ | S754_finite _ _ _ => true | _ => false end.

(** a pier table in which no two consecutive entries are at the same
    elevation: the difference the interpolation divides by is not zero *)
Fixpoint distinct_steps (pts : list PierElevWidth.t) : bool :=
  match pts with
  | lo :: ((hi :: _) as rest) =>
      negb (PyNum.is_zero (PyNum.fsub (PierElevWidth.elevation hi)
                                      (PierElevWidth.elevation lo)))
      && distinct_steps rest
  | _ => true
  end.

(** a string of ASCII characters only, on which [upper] and [lower] change
    nothing but the letters A-Z and a-z *)
Definition ascii_only (s : string) : bool :=
  forallb (fun c => (nat_of_ascii c <? 128)%nat) (list_ascii_of_string s).

(** a result whose rule identifier is a string that falls in the given
    category *)
Definition in_category (cat : string) (r : RuleResult.t) : bool :=
  match RuleResult.rule_id r with
  | YStr s => String.eqb (_categorize s) cat
  | _ => false
  end.

Definition has_str_id (r : RuleResult.t) : bool :=
  match RuleResult.rule_id r with YStr _ => true | _ => false end.

(** the results of one category, under its heading; nothing for a category
    without results *)
Definition category_block (results : list RuleResult.t) (cat : string)
  : list (string * list RuleResult.t) :=
  match filter (in_category cat) results with
  | [] => []
  | rs => [(cat, rs)]
  end.

(** the plan files [_load_model] tries, in order: the current plan first *)
Definition plan_exts (project : ProjectFile.t) : list string :=
  ((match ProjectFile.current_plan project with
    | EmptyString => []
    | ext => [ext]
    end) ++ ProjectFile.plan_files project)%list.

(** the record the [except] branch of [evaluate] builds for a rule
    dictionary: the rule's own entries where present, the defaults "?",
    "error" and "" where not *)
Definition internal_error_result (d : dict) : RuleResult.t :=
  RuleResult.mk (dict_get d "id" (YStr "?")) (dict_get d "name" (YStr "?"))
    SKIPPED (dict_get d "severity" (YStr "error")) (YStr "") (YStr "")
    (dict_get d "citation" (YStr "")) (dict_get d "citation_url" (YStr ""))
    (YStr "Internal error evaluating rule.") (YStr "").

(** * Sample data *)

(** A stand-in for [str()] where an example has to run the engine; the
    statements proved about all inputs quantify over the formatting
    functions. *)
Definition sample_float_str (f : PyNum.float) : string :=
  match f with
  | S754_zero false => "0.0"
  | S754_finite s m (Z0 as e) | S754_finite s m (Zpos _ as e) =>
      PyStr.of_Z ((if s then Zneg m else Zpos m) * 2 ^ e) ++ ".0"
  | S754_finite s m (Zneg k) =>
      if Z.eqb (Zpos m mod 2 ^ Zpos k) 0
      then PyStr.of_Z ((if s then Zneg m else Zpos m) / 2 ^ Zpos k) ++ ".0"
      else "?"
  | _ => "?"
  end.

Definition sample_py_str (v : pyval) : string :=
  match v with
  | PNone => "None"
  | PBool true => "True"
  | PBool false => "False"
  | PInt z => PyStr.of_Z z
  | PFloat f => sample_float_str f
  | PStr s => s
  | _ => "?"
  end.

Definition sample_yaml_str (y : yaml) : string :=
  match y with
  | YNull => "None"
  | YBool true => "True"
  | YBool false => "False"
  | YInt z => PyStr.of_Z z
  | YStr s => s
  | _ => "?"
  end.

(** a rule dictionary with the given severity, check type, path and
    parameters *)
Definition sample_rule (severity check_type applies_to : string)
    (parameters : dict) : yaml :=
  YMap [("id", YStr "X-001"); ("name", YStr "Sample rule");
        ("severity", YStr severity); ("citation", YStr "Guidance 1.2");
        ("check_type", YStr check_type); ("applies_to", YStr applies_to);
        ("parameters", YMap parameters)].

(** a manual-review rule whose note has white space around it *)
Definition padded_note_rule : yaml :=
  sample_rule "error" "custom" ""
    [("handler", YStr "flag_for_manual_review");
     ("review_note", YStr " Verify freeboard by hand. ")].

(** the float a decimal literal [n/d] denotes, for small [n] and [d] *)
Definition dec (n d : Z) : PyNum.float :=
  SFdiv 53 1024 (PyNum.of_Z n) (PyNum.of_Z d).

(** the Manning range of the specification: 0.020 to 0.150 *)
Definition manning_range_rule (severity : string) : yaml :=
  sample_rule severity "range" "geometry.cross_sections[].manning_n_channel"
    [("min", YFloat (dec 20 1000)); ("max", YFloat (dec 150 1000))].

(** the status of the result a check returned, if it returned one *)
Definition status_of (r : exc RuleResult.t) : option yaml :=
  match r with
  | Ok x => Some (RuleResult.status x)
  | Raise _ => None
  end.

(** a range rule with neither [min] nor [max] *)
Definition unbounded_range_rule : yaml :=
  sample_rule "error" "range" "geometry.cross_sections[].expansion" [].

(** a malformed rule: no name, severity or citation *)
Definition broken_rule : yaml :=
  YMap [("id", YStr "BAD-001"); ("check_type", YStr "exists");
        ("applies_to", YStr "geometry.title")].

(** the cross-sections of the engine tests: bank stations at 100 and 300 *)
Definition sample_xs (station : Z) (regions : list ManningRegion.t)
  : CrossSection.t :=
  CrossSection.mk (PyNum.of_Z station) "Test River" "Main" ""
    (ReachLengths.mk (S754_zero false) (S754_zero false) (S754_zero false))
    [] regions
    (Some (BankStations.mk (PyNum.of_Z 100) (PyNum.of_Z 300)))
    (dec 3 10) (dec 1 10) [] [].

(** left overbank 0.06, channel 0.035, right overbank 0.06 *)
Definition three_regions : list ManningRegion.t :=
  [ManningRegion.mk (dec 6 100) (PyNum.of_Z 0);
   ManningRegion.mk (dec 35 1000) (PyNum.of_Z 100);
   ManningRegion.mk (dec 6 100) (PyNum.of_Z 300)].

Definition sample_sections (regions : list ManningRegion.t)
  : list CrossSection.t :=
  [sample_xs 5000 regions; sample_xs 4000 regions; sample_xs 3000 regions].

Definition sample_model (regions : list ManningRegion.t) : ModelData.t :=
  ModelData.mk (Some (GeometryFile.mk "Test" (sample_sections regions) []))
    None None None.

Definition overbank_rule : yaml :=
  sample_rule "error" "range" "geometry.cross_sections[].manning_n_overbank"
    [("min", YFloat (dec 30 1000)); ("max", YFloat (dec 200 1000))].

(** a bridge at the given station, with or without a deck, and its piers *)
Definition sample_bridge (station : Z) (deck : option BridgeDeck.t)
    (piers : list Pier.t) : Bridge.t :=
  Bridge.mk (PyNum.of_Z station) "Test River" "Main" "" ""
    (ReachLengths.mk (S754_zero false) (S754_zero false) (S754_zero false))
    (S754_zero false) deck piers None None [] [] [] None [].

Definition bridge_model (b : Bridge.t) : ModelData.t :=
  ModelData.mk (Some (GeometryFile.mk "Test" [] [b])) None None None.

(** a deck whose low chord is at elevation 5 *)
Definition low_deck : BridgeDeck.t :=
  BridgeDeck.mk (PyNum.of_Z 40)
    [DeckPoint.mk (PyNum.of_Z 100) (PyNum.of_Z 9) (PyNum.of_Z 5)]
    (S754_zero false) (S754_zero false) (S754_zero false) (S754_zero false).

(** a pier table with a NaN elevation and two equal elevations *)
Definition odd_pier : Pier.t :=
  Pier.mk (S754_zero false) (S754_zero false) (S754_zero false)
    [PierElevWidth.mk (PyNum.of_Z 1) (PyNum.of_Z 2);
     PierElevWidth.mk PyNum.nan (PyNum.of_Z 2);
     PierElevWidth.mk (PyNum.of_Z 5) (PyNum.of_Z 2);
     PierElevWidth.mk (PyNum.of_Z 5) (PyNum.of_Z 3);
     PierElevWidth.mk (PyNum.of_Z 7) (PyNum.of_Z 3)].

(** the bridge rule: the lowest low chord must be present *)
Definition low_chord_rule : yaml :=
  sample_rule "error" "exists" "geometry.bridges[].min_low_chord" [].

(** the boundary-condition rule *)
Definition boundary_rule : yaml :=
  sample_rule "error" "custom" ""
    [("handler", YStr "check_boundary_conditions_defined")].

(** a steady flow file with one profile and two boundary entries *)
Definition bounded_flow : FlowFile.t :=
  FlowFile.mk "Test" "" true [FlowProfile.mk "100yr"] []
    [SteadyBoundaryCondition.mk "Test River" "Main" 1 0 3
       (S754_zero false) (S754_zero false) (S754_zero false) (S754_zero false);
     SteadyBoundaryCondition.mk "Test River" "Main" 2 0 3
       (S754_zero false) (S754_zero false) (S754_zero false) (S754_zero false)]
    [].

(** a steady flow file with the given profile names *)
Definition sample_flow (profiles : list string) : FlowFile.t :=
  FlowFile.mk "Test" "" true (map FlowProfile.mk profiles) [] [] [].

Definition flow_model (profiles : list string) : ModelData.t :=
  ModelData.mk None None (Some (sample_flow profiles)) None.

Definition profile_rule (accepted : list string) : yaml :=
  sample_rule "error" "custom" ""
    [("handler", YStr "check_100yr_profile_exists");
     ("accepted_names", YSeq (map YStr accepted))].

Definition base_flood_names : list string :=
  ["100yr"; "1% annual chance"; "base flood"].

(** status and actual value of the dictionaries a handler returned *)
Definition status_and_actual (r : exc (list dict))
  : list (option yaml * option yaml) :=
  match r with
  | Ok l => map (fun d => (assoc "status" d, assoc "actual_value" d)) l
  | Raise _ => []
  end.

(** an exists rule with the given identifier *)
Definition named_rule (id : string) : yaml :=
  YMap [("id", YStr id); ("name", YStr id); ("severity", YStr "error");
        ("citation", YStr "Guidance 1.2"); ("check_type", YStr "exists");
        ("applies_to", YStr "plan.encroachment.target_surcharge")].

Definition sample_baseline : list yaml :=
  [named_rule "FEMA-MANN-001"; named_rule "FEMA-FW-001";
   named_rule "FEMA-BC-001"].

Definition sample_state_file (name : string) : string :=
  "config/states/" ++ name ++ ".yaml".

(** a file system with the baseline file and one overlay, for Texas *)
Definition sample_fs (p : string) : option (exc yaml) :=
  if String.eqb p "config/fema_rules.yaml" then
    Some (Ok (YMap [("rules", YSeq sample_baseline)]))
  else if String.eqb p "config/states/texas.yaml" then
    Some (Ok (YMap [("supersedes", YSeq [YStr "FEMA-FW-001"]);
                    ("rules", YSeq [named_rule "TX-FW-001"])]))
  else None.

(** rules of every kind: a range check, a malformed rule, a manual-review
    flag and a profile check *)
Definition mixed_rules : list yaml :=
  [manning_range_rule "error"; broken_rule; padded_note_rule;
   profile_rule base_flood_names].

(** a plan whose encroachment block has the given switch, method and
    values *)
Definition sample_plan (enabled : bool) (method : Z)
    (values : list PyNum.float) : PlanFile.t :=
  PlanFile.mk "Test plan" "" "" "" "g01" "f01" "Subcritical" 1 []
    (ComputationalSettings.mk (dec 1 100) (dec 1 100) false 1 (dec 1 10)
       false false "" 0 false)
    (EncroachmentSettings.mk enabled method values)
    (OutputSettings.mk false false false false false false false false false
       false 0 "" "" "" "" "")
    false.

Definition plan_model (p : PlanFile.t) : ModelData.t :=
  ModelData.mk None (Some p) None None.

(** the rule dictionaries behind the sample rules *)
Definition sample_dict (severity check_type applies_to : string)
    (parameters : dict) : dict :=
  [("id", YStr "X-001"); ("name", YStr "Sample rule");
   ("severity", YStr severity); ("citation", YStr "Guidance 1.2");
   ("check_type", YStr check_type); ("applies_to", YStr applies_to);
   ("parameters", YMap parameters)].

(** a flow file holder for the boundary handler *)
Definition bounded_model : ModelData.t :=
  ModelData.mk None None (Some bounded_flow) None.

(** a rule mapping without an identifier *)
Definition anonymous_rule : yaml :=
  YMap [("name", YStr "No identifier"); ("severity", YStr "error");
        ("citation", YStr "Guidance 1.2"); ("check_type", YStr "exists");
        ("applies_to", YStr "plan.title")].

(** a file system whose baseline holds a rule without identifier, with one
    overlay that supersedes a rule and one that only adds a rule *)
Definition anonymous_fs (p : string) : option (exc yaml) :=
  if String.eqb p "config/fema_rules.yaml" then
    Some (Ok (YMap [("rules", YSeq [named_rule "FEMA-MANN-001";
                                    anonymous_rule;
                                    named_rule "FEMA-BC-001"])]))
  else if String.eqb p "config/states/texas.yaml" then
    Some (Ok (YMap [("supersedes", YSeq [YStr "FEMA-FW-001"]);
                    ("rules", YSeq [named_rule "TX-FW-001"])]))
  else if String.eqb p "config/states/maine.yaml" then
    Some (Ok (YMap [("supersedes", YNull);
                    ("rules", YSeq [named_rule "ME-FW-001"])]))
  else None.

(** a deck with low chords at 7, 5 and 6 *)
Definition uneven_deck : BridgeDeck.t :=
  BridgeDeck.mk (PyNum.of_Z 40)
    [DeckPoint.mk (PyNum.of_Z 100) (PyNum.of_Z 9) (PyNum.of_Z 7);
     DeckPoint.mk (PyNum.of_Z 110) (PyNum.of_Z 9) (PyNum.of_Z 5);
     DeckPoint.mk (PyNum.of_Z 120) (PyNum.of_Z 9) (PyNum.of_Z 6)]
    (S754_zero false) (S754_zero false) (S754_zero false) (S754_zero false).

(** a pier that widens from 2 to 3 between elevations 1 and 9 *)
Definition tapered_pier : Pier.t :=
  Pier.mk (S754_zero false) (S754_zero false) (S754_zero false)
    [PierElevWidth.mk (PyNum.of_Z 1) (PyNum.of_Z 2);
     PierElevWidth.mk (PyNum.of_Z 9) (PyNum.of_Z 3)].

(** a stand-in for [_float] on the texts the examples use *)
Definition sample_float (raw : string) : PyNum.float :=
  if String.eqb raw "1" then PyNum.of_Z 1
  else if String.eqb raw "0.5" then dec 5 10
  else S754_zero false.

(** a result with the given identifier and status *)
Definition sample_result (id status : string) : RuleResult.t :=
  RuleResult.mk (YStr id) (YStr id) (YStr status) (YStr "error") (YStr "")
    (YStr "") (YStr "") (YStr "") (YStr "") (YStr "").

Definition sample_results : list RuleResult.t :=
  [sample_result "FEMA-FW-001" "PASS"; sample_result "FEMA-MANN-001" "FAIL";
   sample_result "TX-FW-001" "WARNING"; sample_result "LOCAL-7" "SKIPPED"].

(** a project directory: the project lists two geometry files, of which
    only the second exists, a current plan p02 listed after p01, both
    present, and no flow file on disk *)
Definition sample_project : ProjectFile.t :=
  ProjectFile.mk "Test project" "" "English Units" "p02" ["g01"; "g02"]
    ["f01"] [] [] ["p01"; "p02"] (dec 3 10) (dec 1 10).

Definition sample_member (ext : string) : string := "model." ++ ext.

Definition sample_exists (p : string) : bool :=
  existsb (String.eqb p) ["model.prj"; "model.g02"; "model.p01"; "model.p02"].

Definition sample_parse_project (p : string) : exc ProjectFile.t :=
  if String.eqb p "model.prj" then Ok sample_project
  else Raise FileNotFoundError.

Definition sample_parse_geometry (p : string) : exc GeometryFile.t :=
  Ok (GeometryFile.mk p [] []).

Definition sample_parse_plan (p : string) : exc PlanFile.t :=
  Ok (if String.eqb p "model.p02" then sample_plan true 4 [dec 1 1]
      else sample_plan false 0 []).

Definition sample_parse_flow (p : string) : exc FlowFile.t :=
  Ok (sample_flow []).

(** * Properties *)

(** ** Checks of the embedding on small inputs *)

Example lower_100YR : PyStr.lower (PyStr.strip " 100YR ") = "100yr".
Proof. reflexivity. Qed.

Example partition_path :
  PyStr.partition "[]" "geometry.cross_sections[].expansion"
  = ("geometry.cross_sections", "[]", ".expansion").
Proof. reflexivity. Qed.

Example split_empty : PyStr.split "." "" = [""].
Proof. reflexivity. Qed.

Example split_path :
  PyStr.split "." "plan.encroachment..x" = ["plan"; "encroachment"; ""; "x"].
Proof. reflexivity. Qed.

Example compare_int_float :
  PyNum.leb (PyNum.of_int 3) (PyNum.of_float (S754_finite false 7 (-1))) = true.
Proof. reflexivity. Qed.

Example between_inclusive :
  between (YInt 1) (PFloat (PyNum.of_Z 1)) (YFloat (PyNum.of_Z 1)) = Ok true.
Proof. reflexivity. Qed.

Example between_nan :
  between (YFloat PyNum.neg_inf) (PFloat PyNum.nan) (YFloat PyNum.inf)
  = Ok false.
Proof. reflexivity. Qed.

Example between_str : between (YInt 0) (PStr "a") (YInt 1) = Raise TypeError.
Proof. reflexivity. Qed.

(** On finite numbers the comparison is the order of the rationals. *)
Lemma Qval_shift (m e d : Z) :
  (0 <= d)%Z -> (Qval m (d + e) == inject_Z (m * 2 ^ d) * 2 ^ e)%Q.
Proof.
  intros Hd. unfold Qval.
  rewrite Qpower_plus by discriminate.
  rewrite inject_Z_mult.
  rewrite (Zpower_Qpower 2 d Hd).
  rewrite Qmult_assoc. reflexivity.
Qed.

Lemma leb_finite_exact (m1 e1 m2 e2 : Z) :
  PyNum.leb (PyNum.XFin m1 e1) (PyNum.XFin m2 e2) = true
  <-> (Qval m1 e1 <= Qval m2 e2)%Q.
Proof.
  assert (H : PyNum.fin_compare m1 e1 m2 e2 <> Gt
              <-> (Qval m1 e1 <= Qval m2 e2)%Q).
  { unfold PyNum.fin_compare. cbv zeta.
    set (e := Z.min e1 e2).
    assert (H1 : (0 <= e1 - e)%Z) by lia.
    assert (H2 : (0 <= e2 - e)%Z) by lia.
    replace e1 with ((e1 - e) + e)%Z at 2 by lia.
    replace e2 with ((e2 - e) + e)%Z at 2 by lia.
    rewrite (Qval_shift m1 e _ H1), (Qval_shift m2 e _ H2).
    assert (Hpos : (0 < 2 ^ e)%Q) by (apply Qpower_0_lt; reflexivity).
    rewrite (Qmult_le_r _ _ _ Hpos).
    rewrite <- Zle_Qle. rewrite <- Z.compare_le_iff. tauto. }
  rewrite <- H. unfold PyNum.leb, PyNum.compare.
  destruct (PyNum.fin_compare m1 e1 m2 e2); split; congruence.
Qed.

(** A bridge without a deck has no low chord: the pair holds None and the
    rule is skipped at that bridge. *)
Example bridge_without_deck_skipped :
  match _evaluate_rule no_inherited sample_py_str sample_yaml_str low_chord_rule
          (bridge_model (sample_bridge 3000 None [])) with
  | Ok out =>
      map (fun r => (RuleResult.status r, RuleResult.message r,
                     RuleResult.location r)) out
  | Raise _ => []
  end = [(SKIPPED, YStr "Value is None", YStr "RS 3000.0")].
Proof. vm_compute. reflexivity. Qed.

(** A property can raise on data that is present: interpolating the pier
    width between two equal elevations divides by zero. *)
Example pier_width_division_error :
  _resolve_values no_inherited sample_py_str
    (bridge_model (sample_bridge 3000 (Some low_deck) [odd_pier]))
    (YStr "geometry.bridges[].total_pier_width_at_low_chord")
  = Raise ZeroDivisionError.
Proof. vm_compute. reflexivity. Qed.

(** ** Basic facts about the error monad and dictionaries *)

Lemma mapM_length {A B : Type} (f : A -> exc B) (l : list A) (out : list B) :
  mapM f l = Ok out -> List.length out = List.length l.
Proof.
  revert out. induction l as [|a l IH]; simpl; intros out H.
  - inversion H. reflexivity.
  - destruct (f a) as [b|]; simpl in H; [|discriminate].
    destruct (mapM f l) as [bs|]; simpl in H; [|discriminate].
    inversion H. simpl. f_equal. apply IH. reflexivity.
Qed.

Lemma mapM_total {A B : Type} (f : A -> exc B) (l : list A) :
  (forall a, In a l -> exists b, f a = Ok b) ->
  exists out, mapM f l = Ok out.
Proof.
  induction l as [|a l IH]; simpl; intros H.
  - exists []. reflexivity.
  - destruct (H a (or_introl eq_refl)) as [b Hb].
    destruct IH as [bs Hbs]; [intros x Hx; apply H; right; exact Hx|].
    exists (b :: bs). rewrite Hb, Hbs. reflexivity.
Qed.

Lemma mapM_nth {A B : Type} (f : A -> exc B) (l : list A) (out : list B)
    (i : nat) (a : A) :
  mapM f l = Ok out -> nth_error l i = Some a ->
  exists b, nth_error out i = Some b /\ f a = Ok b.
Proof.
  revert out i. induction l as [|x l IH]; simpl; intros out i H Hi.
  - destruct i; discriminate.
  - destruct (f x) as [b|] eqn:Hx; simpl in H; [|discriminate].
    destruct (mapM f l) as [bs|] eqn:Hl; simpl in H; [|discriminate].
    inversion H; subst out. destruct i as [|i]; simpl in *.
    + inversion Hi; subst. exists b. split; [reflexivity | exact Hx].
    + apply IH; [reflexivity | exact Hi].
Qed.

Lemma get_mapping (y : yaml) (k : string) (d0 : yaml) :
  is_mapping y = true -> exists v, Yaml.get y k d0 = Ok v.
Proof.
  destruct y; simpl; try discriminate. intros _.
  destruct (assoc k d); eauto.
Qed.

Lemma get_ok_mapping (y : yaml) (k : string) (d0 v : yaml) :
  Yaml.get y k d0 = Ok v -> is_mapping y = true.
Proof. destruct y; simpl; intros H; try discriminate; reflexivity. Qed.

Lemma item_get (y : yaml) (k : string) (d0 v : yaml) :
  Yaml.item y k = Ok v -> Yaml.get y k d0 = Ok v.
Proof.
  destruct y; simpl; try discriminate.
  destruct (assoc k d); intros H; [exact H | discriminate].
Qed.

(** ** The manual-review handler *)

(** C8 (amended): for every rule that carries id, name, citation and a
    parameters mapping, and for every model, the manual-review handler
    returns exactly one result, with status PASS and severity "info" whatever
    the rule's own severity; its message is the configured review note with
    leading and trailing white space removed when the note is a string (the
    text "Manual review required." when no note is configured). *)
Theorem flag_for_manual_review_spec
    (rule : yaml) (model : ModelData.t) (rid name cit params note : yaml) :
  Yaml.item rule "id" = Ok rid ->
  Yaml.item rule "name" = Ok name ->
  Yaml.item rule "citation" = Ok cit ->
  Yaml.item rule "parameters" = Ok params ->
  Yaml.get params "review_note" (YStr "Manual review required.") = Ok note ->
  exists r,
    flag_for_manual_review rule model = Ok [r]
    /\ assoc "status" r = Some PASS
    /\ assoc "severity" r = Some (YStr "info")
    /\ assoc "message" r = Some (trimmed_note note)
    /\ assoc "rule_id" r = Some rid.
Proof.
  intros Hid Hname Hcit Hparams Hnote.
  unfold flag_for_manual_review.
  rewrite Hparams. simpl. rewrite Hnote. simpl.
  rewrite Hid, Hname, Hcit. simpl.
  eexists. split; [reflexivity|].
  repeat split; reflexivity.
Qed.

Lemma flag_for_manual_review_spec_witness :
  exists r,
    flag_for_manual_review padded_note_rule ModelData.empty = Ok [r]
    /\ assoc "status" r = Some PASS
    /\ assoc "severity" r = Some (YStr "info")
    /\ assoc "message" r = Some (YStr "Verify freeboard by hand.")
    /\ assoc "rule_id" r = Some (YStr "X-001").
Proof.
  exact (flag_for_manual_review_spec padded_note_rule ModelData.empty
           (YStr "X-001") (YStr "Sample rule") (YStr "Guidance 1.2")
           (YMap [("handler", YStr "flag_for_manual_review");
                  ("review_note", YStr " Verify freeboard by hand. ")])
           (YStr " Verify freeboard by hand. ")
           eq_refl eq_refl eq_refl eq_refl eq_refl).
Defined.

(** C8 as stated fails: a configured note with surrounding white space is not
    the message of the result. *)
Lemma flag_for_manual_review_message_differs :
  exists r note,
    flag_for_manual_review padded_note_rule ModelData.empty = Ok [r]
    /\ Yaml.item padded_note_rule "parameters"
       = Ok (YMap [("handler", YStr "flag_for_manual_review");
                   ("review_note", note)])
    /\ note = YStr " Verify freeboard by hand. "
    /\ assoc "message" r = Some (YStr "Verify freeboard by hand.")
    /\ assoc "message" r <> Some note.
Proof.
  eexists. eexists. split; [reflexivity|].
  split; [reflexivity|]. split; [reflexivity|].
  split; [reflexivity|]. simpl. discriminate.
Qed.

(** ** The range check *)

Section RangeCheck.

Variable py_str : pyval -> string.
Variable yaml_str : yaml -> string.

(** On numbers [lo <= val <= hi] is the conjunction of two exact
    comparisons. *)
Lemma between_numbers (lo hi : yaml) (val : pyval) (a v b : PyNum.xreal) :
  Yaml.num lo = Some a -> pyval_num val = Some v -> Yaml.num hi = Some b ->
  between lo val hi = Ok (PyNum.leb a v && PyNum.leb v b).
Proof.
  intros Ha Hv Hb. unfold between.
  assert (Hlo : py_le_yv lo val = Ok (PyNum.leb a v)).
  { destruct lo; simpl in Ha; try discriminate;
      destruct val; simpl in Hv; try discriminate;
      simpl; inversion Ha; inversion Hv; reflexivity. }
  assert (Hhi : py_le_vy val hi = Ok (PyNum.leb v b)).
  { destruct hi; simpl in Hb; try discriminate;
      destruct val; simpl in Hv; try discriminate;
      simpl; inversion Hb; inversion Hv; reflexivity. }
  rewrite Hlo. simpl. rewrite Hhi.
  destruct (PyNum.leb a v); reflexivity.
Qed.

(** The result [_check_range] builds once the comparison has been made. *)
Lemma check_range_result (rule : yaml) (val : pyval) (location : string)
    (params lo hi rid name sev cit : yaml) (passed : bool) :
  Yaml.get rule "parameters" (YMap []) = Ok params ->
  Yaml.get params "min" (YFloat PyNum.neg_inf) = Ok lo ->
  Yaml.get params "max" (YFloat PyNum.inf) = Ok hi ->
  between lo val hi = Ok passed ->
  Yaml.item rule "id" = Ok rid ->
  Yaml.item rule "name" = Ok name ->
  Yaml.item rule "severity" = Ok sev ->
  Yaml.item rule "citation" = Ok cit ->
  exists r,
    _check_range py_str yaml_str rule val location = Ok r
    /\ RuleResult.status r =
       (if passed then PASS
        else if Yaml.eq_str sev "warning" then WARNING else FAIL)
    /\ RuleResult.severity r = sev
    /\ RuleResult.rule_id r = rid
    /\ RuleResult.location r = YStr location.
Proof.
  intros Hp Hlo Hhi Hb Hid Hname Hsev Hcit.
  destruct (get_mapping rule "citation_url" (YStr "")
              (get_ok_mapping _ _ _ _ Hp)) as [url Hurl].
  unfold _check_range, failed_status.
  rewrite Hp; simpl. rewrite Hlo; simpl. rewrite Hhi; simpl.
  rewrite Hb; simpl.
  destruct passed; simpl; rewrite ?Hsev; simpl;
    rewrite Hid, Hname; simpl; rewrite ?Hsev; simpl;
    rewrite Hcit, Hurl; simpl;
    eexists; (split; [reflexivity|]); repeat split; reflexivity.
Qed.

(** C1 (amended): for every range rule and every resolved value on which the
    comparison is defined, the check passes exactly when
    [min <= value <= max], both ends included (on numbers: the exact
    comparisons [min <= value] and [value <= max]); on failure the status is
    WARNING when the rule's severity is "warning" and FAIL otherwise.  So a
    warning-severity rule never gets FAIL from a range check, and every other
    severity, "info" included, gets FAIL. *)
Theorem check_range_spec (rule : yaml) (val : pyval) (location : string)
    (params lo hi rid name sev cit : yaml) (passed : bool) :
  Yaml.get rule "parameters" (YMap []) = Ok params ->
  Yaml.get params "min" (YFloat PyNum.neg_inf) = Ok lo ->
  Yaml.get params "max" (YFloat PyNum.inf) = Ok hi ->
  between lo val hi = Ok passed ->
  Yaml.item rule "id" = Ok rid ->
  Yaml.item rule "name" = Ok name ->
  Yaml.item rule "severity" = Ok sev ->
  Yaml.item rule "citation" = Ok cit ->
  exists r,
    _check_range py_str yaml_str rule val location = Ok r
    /\ (RuleResult.status r = PASS <-> passed = true)
    /\ (forall a v b,
          Yaml.num lo = Some a -> pyval_num val = Some v ->
          Yaml.num hi = Some b ->
          (passed = true <-> PyNum.leb a v = true /\ PyNum.leb v b = true))
    /\ (passed = false ->
        RuleResult.status r =
        if Yaml.eq_str sev "warning" then WARNING else FAIL)
    /\ (Yaml.eq_str sev "warning" = true -> RuleResult.status r <> FAIL)
    /\ (Yaml.eq_str sev "warning" = false -> passed = false ->
        RuleResult.status r = FAIL).
Proof.
  intros Hp Hlo Hhi Hb Hid Hname Hsev Hcit.
  destruct (check_range_result rule val location params lo hi rid name sev
              cit passed Hp Hlo Hhi Hb Hid Hname Hsev Hcit)
    as (r & Hr & Hst & _).
  exists r. split; [exact Hr|].
  split.
  { rewrite Hst. destruct passed; [tauto|].
    destruct (Yaml.eq_str sev "warning"); split; discriminate. }
  split.
  { intros a v b Ha Hv Hbn.
    rewrite (between_numbers lo hi val a v b Ha Hv Hbn) in Hb.
    inversion Hb. rewrite andb_true_iff. tauto. }
  split.
  { intros ->. exact Hst. }
  split.
  { intros Hw. rewrite Hst, Hw. destruct passed; discriminate. }
  intros Hw ->. rewrite Hst, Hw. reflexivity.
Qed.

(** C10 (amended): when the parameters mapping of a range rule omits [min]
    (or [max]), the check takes negative (or positive) infinity for it, so
    for every numeric value other than a float NaN the comparison on that
    side holds, and a rule with no bounds at all passes for every such value.
    It never raises on a number: a NaN fails the check instead. *)
Theorem check_range_missing_bounds (rule : yaml) (val : pyval)
    (location : string) (d : dict) (rid name sev cit : yaml)
    (v : PyNum.xreal) :
  Yaml.get rule "parameters" (YMap []) = Ok (YMap d) ->
  Yaml.item rule "id" = Ok rid ->
  Yaml.item rule "name" = Ok name ->
  Yaml.item rule "severity" = Ok sev ->
  Yaml.item rule "citation" = Ok cit ->
  pyval_num val = Some v ->
  (assoc "min" d = None ->
     Yaml.get (YMap d) "min" (YFloat PyNum.neg_inf) = Ok (YFloat PyNum.neg_inf)
     /\ py_le_yv (YFloat PyNum.neg_inf) val = Ok (negb (PyNum.is_nan v)))
  /\ (assoc "max" d = None ->
     Yaml.get (YMap d) "max" (YFloat PyNum.inf) = Ok (YFloat PyNum.inf)
     /\ py_le_vy val (YFloat PyNum.inf) = Ok (negb (PyNum.is_nan v)))
  /\ (assoc "min" d = None -> assoc "max" d = None ->
      exists r,
        _check_range py_str yaml_str rule val location = Ok r
        /\ (PyNum.is_nan v = false -> RuleResult.status r = PASS)
        /\ (PyNum.is_nan v = true -> RuleResult.status r <> PASS)).
Proof.
  intros Hp Hid Hname Hsev Hcit Hv.
  assert (Hlo : py_le_yv (YFloat PyNum.neg_inf) val
                = Ok (negb (PyNum.is_nan v))).
  { destruct val as [ |b|z|f|s|l|l|o|eq le ge it]; simpl in Hv;
      try discriminate;
      inversion Hv; subst v; simpl; try reflexivity.
    destruct f as [s|s| |s m e]; try reflexivity; destruct s; reflexivity. }
  assert (Hhi : py_le_vy val (YFloat PyNum.inf)
                = Ok (negb (PyNum.is_nan v))).
  { destruct val as [ |b|z|f|s|l|l|o|eq le ge it]; simpl in Hv;
      try discriminate;
      inversion Hv; subst v; simpl; try reflexivity.
    destruct f as [s|s| |s m e]; try reflexivity; destruct s; reflexivity. }
  split; [|split].
  - intros Hmin. simpl. rewrite Hmin. split; [reflexivity | exact Hlo].
  - intros Hmax. simpl. rewrite Hmax. split; [reflexivity | exact Hhi].
  - intros Hmin Hmax.
    assert (Hb : between (YFloat PyNum.neg_inf) val (YFloat PyNum.inf)
                 = Ok (negb (PyNum.is_nan v))).
    { unfold between. rewrite Hlo. simpl.
      destruct (PyNum.is_nan v); simpl; [reflexivity | exact Hhi]. }
    destruct (check_range_result rule val location (YMap d)
                (YFloat PyNum.neg_inf) (YFloat PyNum.inf) rid name sev cit
                (negb (PyNum.is_nan v)) Hp) as (r & Hr & Hst & _);
      try assumption.
    + simpl. rewrite Hmin. reflexivity.
    + simpl. rewrite Hmax. reflexivity.
    + exists r. split; [exact Hr|]. rewrite Hst. split; intros ->; simpl.
      * reflexivity.
      * destruct (Yaml.eq_str sev "warning"); discriminate.
Qed.

End RangeCheck.

(** The range of the specification: min 0.020, max 0.150. *)
Example range_lower_bound_passes :
  status_of (_check_range sample_py_str sample_yaml_str
               (manning_range_rule "error") (PFloat (dec 20 1000)) "RS 1000")
  = Some PASS.
Proof. vm_compute. reflexivity. Qed.

Example range_upper_bound_passes :
  status_of (_check_range sample_py_str sample_yaml_str
               (manning_range_rule "error") (PFloat (dec 150 1000)) "RS 1000")
  = Some PASS.
Proof. vm_compute. reflexivity. Qed.

Example range_just_below_fails :
  status_of (_check_range sample_py_str sample_yaml_str
               (manning_range_rule "error") (PFloat (dec 19999 1000000))
               "RS 1000")
  = Some FAIL.
Proof. vm_compute. reflexivity. Qed.

Example range_just_below_warns :
  status_of (_check_range sample_py_str sample_yaml_str
               (manning_range_rule "warning") (PFloat (dec 19999 1000000))
               "RS 1000")
  = Some WARNING.
Proof. vm_compute. reflexivity. Qed.

Example range_far_below_fails :
  status_of (_check_range sample_py_str sample_yaml_str
               (manning_range_rule "error") (PFloat (dec 1 1000)) "RS 1000")
  = Some FAIL.
Proof. vm_compute. reflexivity. Qed.

Example range_on_string_raises :
  _check_range sample_py_str sample_yaml_str
    (manning_range_rule "error") (PStr "n/a") "" = Raise TypeError.
Proof. vm_compute. reflexivity. Qed.

Lemma check_range_spec_witness :
  exists r,
    _check_range sample_py_str sample_yaml_str (manning_range_rule "warning")
      (PFloat (dec 19999 1000000)) "RS 1000" = Ok r
    /\ RuleResult.status r = WARNING
    /\ RuleResult.status r <> FAIL.
Proof.
  destruct (check_range_spec sample_py_str sample_yaml_str
              (manning_range_rule "warning") (PFloat (dec 19999 1000000))
              "RS 1000"
              (YMap [("min", YFloat (dec 20 1000));
                     ("max", YFloat (dec 150 1000))])
              (YFloat (dec 20 1000)) (YFloat (dec 150 1000))
              (YStr "X-001") (YStr "Sample rule") (YStr "warning")
              (YStr "Guidance 1.2") false)
    as (r & Hr & _ & _ & Hfail & Hwarn & _); try (vm_compute; reflexivity).
  exists r. split; [exact Hr|]. split.
  - exact (Hfail eq_refl).
  - exact (Hwarn eq_refl).
Defined.

(** C1 as stated fails: an info-severity rule gets FAIL from the range
    check. *)
Lemma info_severity_range_check_fails :
  exists r,
    _check_range sample_py_str sample_yaml_str
      (sample_rule "info" "range" "plan.plan_type"
         [("min", YInt 0); ("max", YInt 1)])
      (PInt 2) "" = Ok r
    /\ RuleResult.severity r = YStr "info"
    /\ RuleResult.severity r <> YStr "error"
    /\ RuleResult.status r = FAIL.
Proof.
  eexists. split; [vm_compute; reflexivity|].
  split; [reflexivity|]. split; [discriminate | reflexivity].
Qed.

Lemma check_range_missing_bounds_witness :
  py_le_yv (YFloat PyNum.neg_inf) (PFloat (dec 3 10)) = Ok true
  /\ py_le_vy (PFloat (dec 3 10)) (YFloat PyNum.inf) = Ok true
  /\ exists r,
       _check_range sample_py_str sample_yaml_str unbounded_range_rule
         (PFloat (dec 3 10)) "RS 1000" = Ok r
       /\ RuleResult.status r = PASS.
Proof.
  destruct (check_range_missing_bounds sample_py_str sample_yaml_str
              unbounded_range_rule (PFloat (dec 3 10)) "RS 1000" []
              (YStr "X-001") (YStr "Sample rule") (YStr "error")
              (YStr "Guidance 1.2") (PyNum.of_float (dec 3 10)))
    as (Hmin & Hmax & Hboth); try (vm_compute; reflexivity).
  split; [exact (proj2 (Hmin eq_refl))|].
  split; [exact (proj2 (Hmax eq_refl))|].
  destruct (Hboth eq_refl eq_refl) as (r & Hr & Hpass & _).
  exists r. split; [exact Hr | exact (Hpass eq_refl)].
Defined.

(** C10 as stated fails: a NaN is a numeric value, and a range rule with no
    bounds does not pass it. *)
Lemma unbounded_range_check_fails_nan :
  exists r,
    _check_range sample_py_str sample_yaml_str unbounded_range_rule
      (PFloat PyNum.nan) "RS 1000" = Ok r
    /\ RuleResult.status r = FAIL
    /\ py_le_yv (YFloat PyNum.neg_inf) (PFloat PyNum.nan) = Ok false
    /\ pyval_num (PFloat PyNum.nan) = Some PyNum.XNan.
Proof.
  eexists. split; [vm_compute; reflexivity|].
  repeat split; reflexivity.
Qed.

(** ** Path resolution on missing data *)

Section Resolution.

Variable inherited : pyval -> string -> exc pyval.
Variable py_str : pyval -> string.

Lemma walk_None (parts : list string) : walk inherited PNone parts = Ok PNone.
Proof. destruct parts; reflexivity. Qed.

(** The only exception a property lets through is the division error of the
    pier-width interpolation. *)
Lemma sum_pier_widths_raises (lc total : PyNum.float) (ps : list Pier.t)
    (e : exn) :
  Bridge.sum_pier_widths lc total ps = Raise e -> e = ZeroDivisionError.
Proof.
  revert total. induction ps as [|p ps IH]; simpl; intros total H.
  - discriminate.
  - destruct (_interpolate_pier_width p lc) as [w|e'] eqn:Hw; simpl in H.
    + eapply IH. exact H.
    + inversion H; subst e'. clear H IH.
      unfold _interpolate_pier_width in Hw.
      destruct (Pier.elevations p) as [|p0 pts]; [discriminate|].
      destruct (PyNum.fle lc (PierElevWidth.elevation p0)); [discriminate|].
      destruct (PyNum.fle _ lc); [discriminate|].
      remember (p0 :: pts) as l eqn:Hl. clear Hl.
      destruct (interpolate_between lc l) as [r|] eqn:Hr; [|discriminate].
      subst r. revert Hr.
      induction l as [|lo l IHl]; simpl; [discriminate|].
      destruct l as [|hi l']; [discriminate|].
      destruct (PyNum.fle (PierElevWidth.elevation lo) lc
                && PyNum.fle lc (PierElevWidth.elevation hi)).
      * intros Hr. inversion Hr as [Hq]. clear Hr.
        unfold PyNum.fdiv in Hq.
        destruct (PyNum.is_zero _); simpl in Hq; [|discriminate].
        inversion Hq. reflexivity.
      * exact IHl.
Qed.

Lemma total_pier_width_raises (x : Bridge.t) (e : exn) :
  Bridge.total_pier_width_at_low_chord x = Raise e -> e = ZeroDivisionError.
Proof.
  unfold Bridge.total_pier_width_at_low_chord.
  destruct (Bridge.min_low_chord x); [|discriminate].
  apply sum_pier_widths_raises.
Qed.

Lemma properties_raise (o : obj) (name : string) (e : exn) :
  assoc name (properties o) = Some (Raise e) -> e = ZeroDivisionError.
Proof.
  destruct o; simpl; intros H;
    repeat match type of H with
           | (if ?c then _ else _) = _ => destruct c
           end;
    try discriminate.
  inversion H as [H1]. clear H.
  destruct (Bridge.total_pier_width_at_low_chord x) eqn:Ht; simpl in H1;
    [discriminate|].
  inversion H1; subst. eapply total_pier_width_raises. exact Ht.
Qed.

(** Once the walk has met None it ends with None, whatever names follow. *)
Lemma walk_ends_at_None (v : pyval) (before rest : list string) :
  walk inherited v before = Ok PNone ->
  walk inherited v (before ++ rest)%list = Ok PNone.
Proof.
  revert v. induction before as [|part before IH]; intros v H.
  - cbn [walk] in H. inversion H. apply walk_None.
  - cbn [app walk] in *.
    destruct v; try reflexivity;
      (destruct (getattr_or_None inherited _ part) as [next|e];
       [cbn [bind] in *; apply IH; exact H | discriminate H]).
Qed.

Lemma walk_missing (model : ModelData.t) (parts : list string) :
  starts_at_missing model parts = true ->
  walk inherited (PObj (OModelData model)) parts = Ok PNone.
Proof.
  destruct parts as [|first rest]; [discriminate|].
  unfold starts_at_missing. cbn [walk]. unfold getattr_or_None.
  destruct (assoc first (fields (OModelData model)))
    as [[ | | | | | | | | ]|]; try discriminate.
  intros _. cbn [bind]. apply walk_None.
Qed.

(** A scalar path that starts at a component which is not loaded resolves to
    the single pair [(None, "")]. *)
Lemma resolve_values_missing_scalar (model : ModelData.t) (path : string) :
  PyStr.contains "[]" path = false ->
  starts_at_missing model (PyStr.split "." path) = true ->
  _resolve_values inherited py_str model (YStr path) = Ok [(PNone, "")].
Proof.
  intros Hc Hm. unfold _resolve_values, _getattr_path.
  rewrite Hc, (walk_missing model _ Hm). reflexivity.
Qed.

(** A collection path whose container path starts at a component which is
    not loaded resolves to no pair. *)
Lemma resolve_values_missing_collection (model : ModelData.t)
    (path cpath sep fpath : string) :
  PyStr.contains "[]" path = true ->
  PyStr.partition "[]" path = (cpath, sep, fpath) ->
  starts_at_missing model
    (PyStr.split "." (PyStr.rstrip_by PyStr.is_dot cpath)) = true ->
  _resolve_values inherited py_str model (YStr path) = Ok [].
Proof.
  intros Hc Hp Hm. unfold _resolve_values, _getattr_path.
  rewrite Hc, Hp, (walk_missing model _ Hm). reflexivity.
Qed.

End Resolution.

(** With no file loaded the surcharge path holds None and the cross-section
    path holds nothing, whatever lookup answers outside the declarations. *)
Example resolve_values_nothing_loaded
    (inherited : pyval -> string -> exc pyval) (py_str : pyval -> string) :
  _resolve_values inherited py_str ModelData.empty
    (YStr "plan.encroachment.target_surcharge") = Ok [(PNone, "")]
  /\ _resolve_values inherited py_str ModelData.empty
       (YStr "geometry.cross_sections[].manning_n_channel") = Ok [].
Proof.
  split.
  - apply resolve_values_missing_scalar; reflexivity.
  - apply (resolve_values_missing_collection inherited py_str ModelData.empty
             "geometry.cross_sections[].manning_n_channel"
             "geometry.cross_sections" "[]" ".manning_n_channel");
      reflexivity.
Qed.

(** ** Results of one rule *)

Ltac inv_bind H :=
  repeat match type of H with
         | bind ?m _ = Ok _ =>
             let a := fresh "a" in
             let Ha := fresh "Ha" in
             destruct m as [a|] eqn:Ha; [cbn [bind] in H | discriminate H]
         end.

Lemma item_ok_mapping (y : yaml) (k : string) (v : yaml) :
  Yaml.item y k = Ok v -> is_mapping y = true.
Proof. destruct y; simpl; intros H; try discriminate; reflexivity. Qed.

Lemma make_result_rule_id (rule status : yaml) (a e m : string) (r : dict) :
  _make_result rule status a e m = Ok r ->
  exists rid, assoc "rule_id" r = Some rid /\ Yaml.item rule "id" = Ok rid
              /\ assoc "status" r = Some status.
Proof.
  unfold _make_result. intros H. inv_bind H. inversion H; subst r.
  exists a0. repeat split; reflexivity.
Qed.

Ltac use_make_result :=
  match goal with
  | Hm : _make_result _ _ _ _ _ = Ok _ |- _ =>
      let rid := fresh "rid" in
      let H1 := fresh "H" in
      let H2 := fresh "H" in
      destruct (make_result_rule_id _ _ _ _ _ _ Hm) as (rid & H1 & H2 & _);
      eauto
  end.

Lemma check_profile_exists_single (rule : yaml) (model : ModelData.t)
    (raws : list dict) :
  check_profile_exists rule model = Ok raws ->
  exists raw rid, raws = [raw] /\ assoc "rule_id" raw = Some rid
                  /\ Yaml.item rule "id" = Ok rid.
Proof.
  unfold check_profile_exists. intros H.
  destruct (ModelData.flow model) as [flow|].
  - inv_bind H. destruct (FlowFile.profile_names flow).
    + inv_bind H. inversion H; subst. use_make_result.
    + inv_bind H. destruct (any_matches _ _); inv_bind H; inversion H; subst;
        use_make_result.
  - inv_bind H. inversion H; subst. use_make_result.
Qed.

Lemma check_boundary_conditions_single (rule : yaml) (model : ModelData.t)
    (raws : list dict) :
  check_boundary_conditions_defined rule model = Ok raws ->
  exists raw rid, raws = [raw] /\ assoc "rule_id" raw = Some rid
                  /\ Yaml.item rule "id" = Ok rid.
Proof.
  unfold check_boundary_conditions_defined. intros H.
  destruct (ModelData.flow model) as [flow|].
  - destruct (if FlowFile.is_steady flow then _ else _) as [count bc].
    inv_bind H. destruct (0 <? count)%nat; inv_bind H; inversion H; subst;
      eexists; eexists; (split; [reflexivity|]); split;
        first [reflexivity | assumption].
  - inv_bind H. inversion H; subst.
    eexists; eexists; (split; [reflexivity|]); split;
      first [reflexivity | assumption].
Qed.

Lemma flag_for_manual_review_single (rule : yaml) (model : ModelData.t)
    (raws : list dict) :
  flag_for_manual_review rule model = Ok raws ->
  exists raw rid, raws = [raw] /\ assoc "rule_id" raw = Some rid
                  /\ Yaml.item rule "id" = Ok rid.
Proof.
  unfold flag_for_manual_review. intros H. inv_bind H. inversion H; subst.
  eexists; eexists; (split; [reflexivity|]); split;
    first [reflexivity | assumption].
Qed.

(** Every registered handler returns exactly one dictionary, carrying the
    rule's identifier. *)
Lemma handler_single (name : string) (h : handler) (rule : yaml)
    (model : ModelData.t) (raws : list dict) :
  assoc name HANDLER_REGISTRY = Some h ->
  h rule model = Ok raws ->
  exists raw rid, raws = [raw] /\ assoc "rule_id" raw = Some rid
                  /\ Yaml.item rule "id" = Ok rid.
Proof.
  unfold HANDLER_REGISTRY. cbn [assoc].
  destruct (String.eqb "check_profile_exists" name);
    [intros Hh; inversion Hh; subst; apply check_profile_exists_single|].
  destruct (String.eqb "check_100yr_profile_exists" name);
    [intros Hh; inversion Hh; subst; apply check_profile_exists_single|].
  destruct (String.eqb "check_boundary_conditions_defined" name);
    [intros Hh; inversion Hh; subst; apply check_boundary_conditions_single|].
  destruct (String.eqb "flag_for_manual_review" name);
    [intros Hh; inversion Hh; subst; apply flag_for_manual_review_single|].
  discriminate.
Qed.

Section RuleResults.

Variable inherited : pyval -> string -> exc pyval.
Variable py_str : pyval -> string.
Variable yaml_str : yaml -> string.

Lemma skipped_result (rule : yaml) (reason location : string)
    (rid name sev cit : yaml) :
  Yaml.item rule "id" = Ok rid ->
  Yaml.item rule "name" = Ok name ->
  Yaml.item rule "severity" = Ok sev ->
  Yaml.item rule "citation" = Ok cit ->
  exists url,
    Yaml.get rule "citation_url" (YStr "") = Ok url
    /\ _skipped rule reason location
       = Ok (RuleResult.mk rid name SKIPPED sev (YStr "") (YStr "") cit url
               (YStr reason) (YStr location)).
Proof.
  intros Hid Hname Hsev Hcit.
  destruct (get_mapping rule "citation_url" (YStr "")
              (item_ok_mapping _ _ _ Hid)) as [url Hurl].
  exists url. split; [exact Hurl|].
  unfold _skipped. rewrite Hid, Hname, Hsev, Hcit, Hurl. reflexivity.
Qed.

Lemma skipped_from_rule (rule : yaml) (reason location : string)
    (r : RuleResult.t) :
  _skipped rule reason location = Ok r -> from_rule rule r.
Proof.
  unfold _skipped, from_rule. intros H. inv_bind H. inversion H; subst.
  simpl. apply item_get. assumption.
Qed.

Lemma check_value_from_rule (rule check_type : yaml) (vl : pyval * string)
    (r : RuleResult.t) :
  check_value py_str yaml_str rule check_type vl = Ok r -> from_rule rule r.
Proof.
  destruct vl as [val location]. unfold check_value.
  assert (Hgen :
    (if Yaml.eq_str check_type "range"
     then _check_range py_str yaml_str rule val location
     else if Yaml.eq_str check_type "exact"
     then _check_exact py_str yaml_str rule val location
     else if Yaml.eq_str check_type "exists"
     then _check_exists py_str rule val location
     else _skipped rule ("Unknown check_type: " ++ yaml_str check_type)
            location) = Ok r -> from_rule rule r).
  { destruct (Yaml.eq_str check_type "range").
    { unfold _check_range, from_rule. intros H. inv_bind H.
      inversion H; subst. simpl. apply item_get. assumption. }
    destruct (Yaml.eq_str check_type "exact").
    { unfold _check_exact, from_rule. intros H. inv_bind H.
      inversion H; subst. simpl. apply item_get. assumption. }
    destruct (Yaml.eq_str check_type "exists").
    { unfold _check_exists, from_rule. intros H. inv_bind H.
      inversion H; subst. simpl. apply item_get. assumption. }
    apply skipped_from_rule. }
  destruct val; try exact Hgen. apply skipped_from_rule.
Qed.

Lemma of_raw_rule_id (rule : yaml) (raw : dict) (rid : yaml)
    (r : RuleResult.t) :
  assoc "rule_id" raw = Some rid ->
  of_raw rule raw = Ok r -> RuleResult.rule_id r = rid.
Proof.
  unfold of_raw. intros Hid H. cbn [Yaml.item] in H. rewrite Hid in H.
  cbn [bind] in H. inv_bind H. inversion H; subst. reflexivity.
Qed.

Lemma run_custom_results (rule : yaml) (model : ModelData.t)
    (rs : list RuleResult.t) :
  _run_custom yaml_str rule model = Ok rs ->
  exists r, rs = [r] /\ from_rule rule r.
Proof.
  unfold _run_custom. intros H. inv_bind H.
  destruct a1 as [h|].
  - inv_bind H.
    assert (Hreg : exists name, assoc name HANDLER_REGISTRY = Some h).
    { unfold registry_get in Ha1. destruct a0; try discriminate.
      exists s. congruence. }
    destruct Hreg as [name Hreg].
    destruct (handler_single name h rule model a1 Hreg Ha2)
      as (raw & rid & -> & Hrid & Hitem).
    cbn [mapM] in H. inv_bind H. inversion H; subst.
    exists a1. split; [reflexivity|].
    unfold from_rule. rewrite (of_raw_rule_id rule raw rid a1 Hrid Ha3).
    apply item_get. exact Hitem.
  - inv_bind H. inversion H; subst. exists a1. split; [reflexivity|].
    eapply skipped_from_rule. exact Ha2.
Qed.

(** What [_evaluate_rule] returns is never empty, and every result in it
    names the rule. *)
Lemma evaluate_rule_results (rule : yaml) (model : ModelData.t)
    (rs : list RuleResult.t) :
  _evaluate_rule inherited py_str yaml_str rule model = Ok rs ->
  rs <> [] /\ Forall (from_rule rule) rs.
Proof.
  unfold _evaluate_rule. intros H. inv_bind H.
  destruct (Yaml.eq_str a "custom").
  - destruct (run_custom_results rule model rs H) as (r & -> & Hr).
    split; [discriminate | repeat constructor; exact Hr].
  - inv_bind H. destruct a1 as [|vl values].
    + inv_bind H. inversion H; subst.
      split; [discriminate|]. repeat constructor.
      eapply skipped_from_rule. exact Ha2.
    + split.
      * apply mapM_length in H. destruct rs; [discriminate H | discriminate].
      * apply Forall_forall. intros r Hin.
        destruct (In_nth_error _ _ Hin) as [i Hi].
        assert (Hlen : (i < List.length (vl :: values))%nat).
        { rewrite <- (mapM_length _ _ _ H). apply nth_error_Some.
          rewrite Hi. discriminate. }
        destruct (nth_error (vl :: values) i) as [x|] eqn:Hx;
          [|apply nth_error_None in Hx; lia].
        destruct (mapM_nth _ _ _ i x H Hx) as (b & Hb & Hc).
        rewrite Hi in Hb. inversion Hb; subst b.
        eapply check_value_from_rule. exact Hc.
Qed.

End RuleResults.

(** ** The evaluation loop *)

Lemma get_YMap (d : dict) (k : string) (default : yaml) :
  Yaml.get (YMap d) k default = Ok (dict_get d k default).
Proof. unfold dict_get. simpl. destruct (assoc k d); reflexivity. Qed.

Lemma internal_error_mapping (rule : yaml) :
  is_mapping rule = true ->
  exists r,
    internal_error rule = Ok r
    /\ RuleResult.status r = SKIPPED
    /\ RuleResult.message r = YStr "Internal error evaluating rule."
    /\ from_rule rule r.
Proof.
  destruct rule as [ | | | | | |d]; try discriminate. intros _.
  unfold internal_error, from_rule. rewrite !get_YMap. cbn [bind].
  eexists. split; [reflexivity|]. repeat split; reflexivity.
Qed.

Section Evaluate.

Variable inherited : pyval -> string -> exc pyval.
Variable py_str : pyval -> string.
Variable yaml_str : yaml -> string.

Lemma evaluate_loop_results (rules : list yaml) (model : ModelData.t)
    (results : list RuleResult.t) (log : list log_record) :
  forallb is_mapping rules = true ->
  fst (evaluate_loop inherited py_str yaml_str rules model results log)
  = Ok (results
        ++ flat_map (fun rule => results_of inherited py_str yaml_str
                                   rule model)
             rules)%list.
Proof.
  revert results log.
  induction rules as [|rule rest IH]; simpl; intros results log Hm.
  - rewrite app_nil_r. reflexivity.
  - apply andb_true_iff in Hm. destruct Hm as [Hrule Hrest].
    unfold results_of at 1.
    destruct (_evaluate_rule inherited py_str yaml_str rule model) as [rs|e].
    + rewrite IH by exact Hrest. rewrite <- app_assoc. reflexivity.
    + destruct (get_mapping rule "id" (YStr "?") Hrule) as [rid ->].
      destruct (internal_error_mapping rule Hrule) as (r & -> & _).
      rewrite IH by exact Hrest. rewrite <- app_assoc. reflexivity.
Qed.

Lemma results_of_nonempty (rule : yaml) (model : ModelData.t) :
  is_mapping rule = true ->
  results_of inherited py_str yaml_str rule model <> []
  /\ Forall (from_rule rule) (results_of inherited py_str yaml_str rule model).
Proof.
  intros Hm. unfold results_of.
  destruct (_evaluate_rule inherited py_str yaml_str
              rule model) as [rs|e] eqn:He.
  - eapply evaluate_rule_results. exact He.
  - destruct (internal_error_mapping rule Hm) as (r & -> & _ & _ & Hr).
    split; [discriminate | repeat constructor; exact Hr].
Qed.

Lemma evaluate_mk_engine (l : list yaml) (model : ModelData.t)
    (log : list log_record) :
  evaluate inherited py_str yaml_str (mk_engine l) model log
  = evaluate_loop inherited py_str yaml_str l model [] log.
Proof. reflexivity. Qed.



End Evaluate.

Example broken_rule_raises :
  _evaluate_rule no_inherited sample_py_str sample_yaml_str
    broken_rule ModelData.empty
  = Raise KeyError.
Proof. vm_compute. reflexivity. Qed.

(** An entry of the rule list that is not a mapping is outside what the
    [except] branch can report: [rule.get] raises there again. *)
Example evaluate_raises_on_non_mapping :
  fst (evaluate no_inherited sample_py_str sample_yaml_str
         (mk_engine [YStr "not a rule"]) ModelData.empty [])
  = Raise AttributeError.
Proof. vm_compute. reflexivity. Qed.



(** ** Missing data in the generic path *)

Section MissingData.

Variable inherited : pyval -> string -> exc pyval.
Variable py_str : pyval -> string.
Variable yaml_str : yaml -> string.

(** C6: for every non-custom rule (carrying id, name, severity and
    citation): when path resolution yields no pair, the rule gets exactly one
    SKIPPED result with message "Data not available"; otherwise each pair is
    checked on its own, and a pair whose value is None gets the SKIPPED
    result with message "Value is None" at its location, built without any
    generic check; path resolution raises nothing for missing data: a walk
    that meets None ends there with None, whatever names follow, so a path
    that starts at a component which is not loaded resolves to the single
    pair holding None, and to no pair when it is a collection path. *)
Theorem evaluate_rule_missing_data (rule check_type applies_to : yaml)
    (model : ModelData.t) (rid name sev cit : yaml) :
  Yaml.get rule "check_type" (YStr "") = Ok check_type ->
  Yaml.eq_str check_type "custom" = false ->
  Yaml.get rule "applies_to" (YStr "") = Ok applies_to ->
  Yaml.item rule "id" = Ok rid ->
  Yaml.item rule "name" = Ok name ->
  Yaml.item rule "severity" = Ok sev ->
  Yaml.item rule "citation" = Ok cit ->
  exists url,
    Yaml.get rule "citation_url" (YStr "") = Ok url
    /\ (_resolve_values inherited py_str model applies_to = Ok [] ->
        _evaluate_rule inherited py_str yaml_str rule model
        = Ok [RuleResult.mk rid name SKIPPED sev (YStr "") (YStr "") cit url
                (YStr "Data not available") (YStr "")])
    /\ (forall values,
          _resolve_values inherited py_str model applies_to = Ok values ->
          values <> [] ->
          _evaluate_rule inherited py_str yaml_str rule model
          = mapM (check_value py_str yaml_str rule check_type) values)
    /\ (forall location,
          check_value py_str yaml_str rule check_type (PNone, location)
          = Ok (RuleResult.mk rid name SKIPPED sev (YStr "") (YStr "") cit url
                  (YStr "Value is None") (YStr location)))
    /\ (forall values out i location,
          _resolve_values inherited py_str model applies_to = Ok values ->
          _evaluate_rule inherited py_str yaml_str rule model = Ok out ->
          nth_error values i = Some (PNone, location) ->
          nth_error out i
          = Some (RuleResult.mk rid name SKIPPED sev (YStr "") (YStr "") cit
                    url (YStr "Value is None") (YStr location)))
    /\ (forall v before rest,
          walk inherited v before = Ok PNone ->
          walk inherited v (before ++ rest)%list = Ok PNone)
    /\ (forall path,
          PyStr.contains "[]" path = false ->
          starts_at_missing model (PyStr.split "." path) = true ->
          _resolve_values inherited py_str model (YStr path)
          = Ok [(PNone, "")])
    /\ (forall path cpath sep fpath,
          PyStr.contains "[]" path = true ->
          PyStr.partition "[]" path = (cpath, sep, fpath) ->
          starts_at_missing model
            (PyStr.split "." (PyStr.rstrip_by PyStr.is_dot cpath)) = true ->
          _resolve_values inherited py_str model (YStr path) = Ok []).
Proof.
  intros Hct Hcustom Hap Hid Hname Hsev Hcit.
  destruct (skipped_result rule "" "" rid name sev cit Hid Hname Hsev Hcit)
    as (url & Hurl & _).
  assert (Hskip : forall reason location,
             _skipped rule reason location
             = Ok (RuleResult.mk rid name SKIPPED sev (YStr "") (YStr "") cit
                     url (YStr reason) (YStr location))).
  { intros reason location.
    destruct (skipped_result rule reason location rid name sev cit
                Hid Hname Hsev Hcit) as (url' & Hurl' & Hs).
    rewrite Hurl in Hurl'. inversion Hurl'; subst url'. exact Hs. }
  assert (Hnone : forall location,
             check_value py_str yaml_str rule check_type (PNone, location)
             = Ok (RuleResult.mk rid name SKIPPED sev (YStr "") (YStr "") cit
                     url (YStr "Value is None") (YStr location))).
  { intros location. unfold check_value. apply Hskip. }
  assert (Hmap : forall values,
             _resolve_values inherited py_str model applies_to = Ok values ->
             values <> [] ->
             _evaluate_rule inherited py_str yaml_str rule model
             = mapM (check_value py_str yaml_str rule check_type) values).
  { intros values Hv Hne. unfold _evaluate_rule.
    rewrite Hct. cbn [bind]. rewrite Hcustom, Hap. cbn [bind].
    rewrite Hv. cbn [bind]. destruct values; [congruence | reflexivity]. }
  exists url. split; [exact Hurl|].
  split.
  { intros Hv. unfold _evaluate_rule.
    rewrite Hct. cbn [bind]. rewrite Hcustom, Hap. cbn [bind].
    rewrite Hv. cbn [bind]. rewrite Hskip. reflexivity. }
  split; [exact Hmap|].
  split; [exact Hnone|].
  split.
  { intros values out i location Hv Hout Hi.
    assert (Hne : values <> []) by (destruct values, i; discriminate).
    rewrite (Hmap values Hv Hne) in Hout.
    destruct (mapM_nth _ _ _ i _ Hout Hi) as (b & Hb & Hc).
    rewrite Hnone in Hc. inversion Hc; subst b. exact Hb. }
  split; [apply walk_ends_at_None|].
  split; [apply resolve_values_missing_scalar|].
  apply resolve_values_missing_collection.
Qed.

End MissingData.

Lemma evaluate_rule_missing_data_witness :
  _evaluate_rule no_inherited sample_py_str sample_yaml_str
    (manning_range_rule "error")
    ModelData.empty
  = Ok [RuleResult.mk (YStr "X-001") (YStr "Sample rule") SKIPPED
          (YStr "error") (YStr "") (YStr "") (YStr "Guidance 1.2") (YStr "")
          (YStr "Data not available") (YStr "")].
Proof.
  destruct (evaluate_rule_missing_data no_inherited sample_py_str
              sample_yaml_str
              (manning_range_rule "error") (YStr "range")
              (YStr "geometry.cross_sections[].manning_n_channel")
              ModelData.empty
              (YStr "X-001") (YStr "Sample rule") (YStr "error")
              (YStr "Guidance 1.2")
              eq_refl eq_refl eq_refl eq_refl eq_refl eq_refl eq_refl)
    as (url & Hurl & Hempty & _).
  vm_compute in Hurl. inversion Hurl; subst url.
  apply Hempty. vm_compute. reflexivity.
Defined.

(** ** The virtual field [manning_n_overbank] *)

Section Overbank.

Variable inherited : pyval -> string -> exc pyval.
Variable py_str : pyval -> string.
Variable yaml_str : yaml -> string.

Lemma resolve_item_overbank (x : CrossSection.t) :
  resolve_item inherited py_str "manning_n_overbank" (PObj (OCrossSection x))
  = Ok (overbank_pairs py_str x).
Proof.
  unfold resolve_item, overbank_pairs.
  change (getattr_or_None inherited (PObj (OCrossSection x)) "river_station")
    with (Ok (PFloat (CrossSection.river_station x))).
  change (getattr_or_None inherited (PObj (OCrossSection x)) "manning_n_left")
    with (Ok (p_opt PFloat (CrossSection.manning_n_left x))).
  change (getattr_or_None inherited (PObj (OCrossSection x)) "manning_n_right")
    with (Ok (p_opt PFloat (CrossSection.manning_n_right x))).
  cbn [bind]. rewrite String.eqb_refl.
  unfold CrossSection.manning_n_left, CrossSection.manning_n_right.
  destruct (CrossSection.manning_regions x) as [|r rs]; reflexivity.
Qed.

Lemma resolve_items_overbank (xs : list CrossSection.t) :
  resolve_items inherited py_str "manning_n_overbank"
    (map (fun c => P (OCrossSection c)) xs)
  = Ok (flat_map (overbank_pairs py_str) xs).
Proof.
  induction xs as [|x xs IH]; [reflexivity|].
  cbn [map resolve_items flat_map]. unfold P at 1.
  rewrite resolve_item_overbank. cbn [bind]. rewrite IH. reflexivity.
Qed.

Lemma overbank_pairs_length (xs : list CrossSection.t) :
  forallb has_regions xs = true ->
  List.length (flat_map (overbank_pairs py_str) xs) = (2 * List.length xs)%nat.
Proof.
  induction xs as [|x xs IH]; simpl; intros H; [reflexivity|].
  apply andb_true_iff in H. destruct H as [Hx Hxs].
  rewrite length_app, (IH Hxs).
  unfold overbank_pairs, has_regions in *.
  destruct (CrossSection.manning_regions x); [discriminate | simpl; lia].
Qed.

Lemma overbank_pairs_are_floats (xs : list CrossSection.t)
    (vl : pyval * string) :
  In vl (flat_map (overbank_pairs py_str) xs) -> exists f, fst vl = PFloat f.
Proof.
  intros H. apply in_flat_map in H. destruct H as (x & _ & H).
  unfold overbank_pairs in H.
  destruct (CrossSection.manning_regions x); simpl in H; [contradiction|].
  destruct H as [<- | [<- | []]]; simpl; eauto.
Qed.

(** C4 (amended): for every collection path whose field segment is the
    virtual name "manning_n_overbank" and whose container holds
    cross-sections, the resolver produces, for every element that has Manning
    regions, two pairs in this order: the left-overbank value with the
    element's location label followed by " LOB", and the right-overbank value
    with the label followed by " ROB"; an element without Manning regions
    (both values None) contributes no pair.  So a range rule on such a path
    gets exactly two results per cross-section, 6 for 3 cross-sections, when
    every cross-section has Manning regions. *)
Theorem resolve_values_overbank (model : ModelData.t)
    (path cpath sep fpath : string) (xs : list CrossSection.t)
    (rule params lo hi rid name sev cit : yaml) (a b : PyNum.xreal) :
  PyStr.contains "[]" path = true ->
  PyStr.partition "[]" path = (cpath, sep, fpath) ->
  PyStr.lstrip_by PyStr.is_dot fpath = "manning_n_overbank" ->
  _getattr_path inherited
    (PObj (OModelData model)) (PyStr.rstrip_by PyStr.is_dot cpath)
  = Ok (PList (map (fun c => P (OCrossSection c)) xs)) ->
  Yaml.get rule "check_type" (YStr "") = Ok (YStr "range") ->
  Yaml.get rule "applies_to" (YStr "") = Ok (YStr path) ->
  Yaml.get rule "parameters" (YMap []) = Ok params ->
  Yaml.get params "min" (YFloat PyNum.neg_inf) = Ok lo ->
  Yaml.get params "max" (YFloat PyNum.inf) = Ok hi ->
  Yaml.num lo = Some a ->
  Yaml.num hi = Some b ->
  Yaml.item rule "id" = Ok rid ->
  Yaml.item rule "name" = Ok name ->
  Yaml.item rule "severity" = Ok sev ->
  Yaml.item rule "citation" = Ok cit ->
  _resolve_values inherited py_str model (YStr path)
  = Ok (flat_map (overbank_pairs py_str) xs)
  /\ (forall x r rs,
        CrossSection.manning_regions x = r :: rs ->
        overbank_pairs py_str x
        = [(PFloat (ManningRegion.n_value r),
            "RS " ++ py_str (PFloat (CrossSection.river_station x)) ++ " LOB");
           (PFloat (ManningRegion.n_value (last rs r)),
            "RS " ++ py_str (PFloat (CrossSection.river_station x)) ++ " ROB")])
  /\ (forall x, CrossSection.manning_regions x = [] ->
                overbank_pairs py_str x = [])
  /\ (forallb has_regions xs = true -> xs <> [] ->
      exists out,
        _evaluate_rule inherited py_str yaml_str rule model = Ok out
        /\ List.length out = (2 * List.length xs)%nat
        /\ (List.length xs = 3%nat -> List.length out = 6%nat)).
Proof.
  intros Hc Hpart Hf Hcont Hct Hap Hp Hlo Hhi Ha Hb Hid Hname Hsev Hcit.
  assert (Hres : _resolve_values inherited py_str model (YStr path)
                 = Ok (flat_map (overbank_pairs py_str) xs)).
  { unfold _resolve_values. rewrite Hc, Hpart, Hcont. cbn [bind iter_items].
    rewrite Hf. apply resolve_items_overbank. }
  split; [exact Hres|].
  split.
  { intros x r rs Hx. unfold overbank_pairs. rewrite Hx. reflexivity. }
  split.
  { intros x Hx. unfold overbank_pairs. rewrite Hx. reflexivity. }
  intros Hall Hne.
  assert (Hlen := overbank_pairs_length xs Hall).
  assert (Hvals : flat_map (overbank_pairs py_str) xs <> []).
  { intros H0. rewrite H0 in Hlen.
    destruct xs; [congruence | simpl in Hlen; lia]. }
  assert (Hev : _evaluate_rule inherited py_str yaml_str rule model
                = mapM (check_value py_str yaml_str rule (YStr "range"))
                    (flat_map (overbank_pairs py_str) xs)).
  { unfold _evaluate_rule. rewrite Hct. cbn [bind].
    change (Yaml.eq_str (YStr "range") "custom") with false. cbv iota.
    rewrite Hap. cbn [bind]. rewrite Hres. cbn [bind].
    destruct (flat_map (overbank_pairs py_str) xs);
      [congruence | reflexivity]. }
  destruct (mapM_total (check_value py_str yaml_str rule (YStr "range"))
              (flat_map (overbank_pairs py_str) xs)) as [out Hout].
  { intros [val location] Hin.
    destruct (overbank_pairs_are_floats xs _ Hin) as [f Hfl].
    simpl in Hfl. subst val. unfold check_value.
    change (Yaml.eq_str (YStr "range") "range") with true. cbv iota.
    destruct (check_range_result py_str yaml_str rule (PFloat f) location
                params lo hi rid name sev cit _ Hp Hlo Hhi
                (between_numbers lo hi (PFloat f) a (PyNum.of_float f) b
                   Ha eq_refl Hb) Hid Hname Hsev Hcit) as (r & Hr & _).
    exists r. exact Hr. }
  exists out. rewrite Hev. split; [exact Hout|].
  apply mapM_length in Hout. rewrite Hout, Hlen.
  split; [reflexivity | intros ->; reflexivity].
Qed.

End Overbank.

Lemma resolve_values_overbank_witness :
  exists out,
    _evaluate_rule no_inherited sample_py_str sample_yaml_str overbank_rule
      (sample_model three_regions) = Ok out
    /\ List.length out = 6%nat
    /\ map snd (flat_map (overbank_pairs sample_py_str)
                  (sample_sections three_regions))
       = ["RS 5000.0 LOB"; "RS 5000.0 ROB"; "RS 4000.0 LOB"; "RS 4000.0 ROB";
          "RS 3000.0 LOB"; "RS 3000.0 ROB"].
Proof.
  destruct (resolve_values_overbank no_inherited sample_py_str sample_yaml_str
              (sample_model three_regions)
              "geometry.cross_sections[].manning_n_overbank"
              "geometry.cross_sections" "[]" ".manning_n_overbank"
              (sample_sections three_regions) overbank_rule
              (YMap [("min", YFloat (dec 30 1000));
                     ("max", YFloat (dec 200 1000))])
              (YFloat (dec 30 1000)) (YFloat (dec 200 1000))
              (YStr "X-001") (YStr "Sample rule") (YStr "error")
              (YStr "Guidance 1.2")
              (PyNum.of_float (dec 30 1000)) (PyNum.of_float (dec 200 1000)))
    as (_ & _ & _ & Hcount); try (vm_compute; reflexivity).
  destruct Hcount as (out & Hout & _ & H6);
    [vm_compute; reflexivity | discriminate |].
  exists out. split; [exact Hout|]. split; [apply H6; reflexivity|].
  vm_compute. reflexivity.
Defined.

(** C4 as stated fails: three cross-sections without Manning regions give no
    pair at all, and the rule a single result instead of six. *)
Lemma overbank_without_regions_no_pairs :
  List.length (sample_sections []) = 3%nat
  /\ _resolve_values no_inherited sample_py_str (sample_model [])
       (YStr "geometry.cross_sections[].manning_n_overbank") = Ok []
  /\ exists r,
       _evaluate_rule no_inherited sample_py_str sample_yaml_str overbank_rule
         (sample_model []) = Ok [r]
       /\ RuleResult.status r = SKIPPED
       /\ RuleResult.message r = YStr "Data not available".
Proof.
  split; [reflexivity|]. split; [vm_compute; reflexivity|].
  eexists. split; [vm_compute; reflexivity|]. split; reflexivity.
Qed.

(** The engine tests on collection paths: three results on
    [manning_n_channel], six on the virtual field. *)
Example three_channel_results :
  match _evaluate_rule no_inherited sample_py_str sample_yaml_str
          (manning_range_rule "error") (sample_model three_regions) with
  | Ok out => map RuleResult.status out
  | Raise _ => []
  end = [PASS; PASS; PASS].
Proof. vm_compute. reflexivity. Qed.

Example six_overbank_results :
  match _evaluate_rule no_inherited sample_py_str sample_yaml_str overbank_rule
          (sample_model three_regions) with
  | Ok out => map (fun r => (RuleResult.status r, RuleResult.location r)) out
  | Raise _ => []
  end = [(PASS, YStr "RS 5000.0 LOB"); (PASS, YStr "RS 5000.0 ROB");
         (PASS, YStr "RS 4000.0 LOB"); (PASS, YStr "RS 4000.0 ROB");
         (PASS, YStr "RS 3000.0 LOB"); (PASS, YStr "RS 3000.0 ROB")].
Proof. vm_compute. reflexivity. Qed.

(** ** The profile-existence handler *)

Lemma lower_all_strings (names : list string) :
  lower_all (YSeq (map YStr names)) = Ok (map PyStr.lower names).
Proof.
  unfold lower_all. cbn [Yaml.iter bind].
  induction names as [|n names IH]; [reflexivity|].
  cbn [map mapM bind]. rewrite IH. reflexivity.
Qed.

Lemma join_strings (sep : string) (names : list string) :
  Yaml.join sep (YSeq (map YStr names)) = Ok (PyStr.join sep names).
Proof.
  unfold Yaml.join. cbn [Yaml.iter bind].
  assert (H : mapM (fun e => match e with
                             | YStr s => Ok s
                             | _ => Raise TypeError
                             end) (map YStr names) = Ok names).
  { induction names as [|n names IH]; [reflexivity|].
    cbn [map mapM bind]. rewrite IH. reflexivity. }
  rewrite H. reflexivity.
Qed.

Lemma any_matches_iff (accepted profile_names : list string) :
  any_matches accepted profile_names = true
  <-> exists pn a, In pn profile_names /\ In a accepted
                   /\ PyStr.lower (PyStr.strip pn) = a.
Proof.
  unfold any_matches. rewrite existsb_exists. split.
  - intros (pn & Hpn & H). apply existsb_exists in H.
    destruct H as (a & Ha & He). apply String.eqb_eq in He.
    exists pn, a. auto.
  - intros (pn & a & Hpn & Ha & He). exists pn. split; [exact Hpn|].
    apply existsb_exists. exists a. split; [exact Ha|].
    apply String.eqb_eq. exact He.
Qed.

(** C5 (amended): for every rule with the profile-existence handler (carrying
    id, name, severity, citation and a list of accepted names): with no flow
    sub-model the handler returns one SKIPPED result, and so it does with a
    flow that has no profile; with at least one profile it returns PASS
    exactly when some profile name, trimmed of white space and lower-cased,
    equals some accepted name lower-cased (the accepted names are not
    trimmed), and otherwise FAIL with an actual-value string that lists all
    profile names present. *)
Theorem check_profile_exists_spec (rule : yaml) (model : ModelData.t)
    (rid name sev cit params : yaml) (names : list string) :
  Yaml.item rule "id" = Ok rid ->
  Yaml.item rule "name" = Ok name ->
  Yaml.item rule "severity" = Ok sev ->
  Yaml.item rule "citation" = Ok cit ->
  Yaml.item rule "parameters" = Ok params ->
  Yaml.item params "accepted_names" = Ok (YSeq (map YStr names)) ->
  exists r,
    check_profile_exists rule model = Ok [r]
    /\ (ModelData.flow model = None -> assoc "status" r = Some SKIPPED)
    /\ (forall flow,
          ModelData.flow model = Some flow ->
          FlowFile.profile_names flow = [] ->
          assoc "status" r = Some SKIPPED)
    /\ (forall flow,
          ModelData.flow model = Some flow ->
          FlowFile.profile_names flow <> [] ->
          (assoc "status" r = Some PASS
           <-> exists pn a,
                 In pn (FlowFile.profile_names flow) /\ In a names
                 /\ PyStr.lower (PyStr.strip pn) = PyStr.lower a)
          /\ (assoc "status" r <> Some PASS ->
              assoc "status" r = Some FAIL
              /\ assoc "actual_value" r
                 = Some (YStr (PyStr.join ", " (FlowFile.profile_names flow))))).
Proof.
  intros Hid Hname Hsev Hcit Hp Hn.
  assert (Hmk : forall status a e m,
             _make_result rule status a e m
             = Ok [("rule_id", rid); ("rule_name", name); ("status", status);
                   ("severity", sev); ("actual_value", YStr a);
                   ("expected_value", YStr e); ("citation", cit);
                   ("message", YStr m)]).
  { intros. unfold _make_result. rewrite Hid, Hname, Hsev, Hcit. reflexivity. }
  unfold check_profile_exists.
  destruct (ModelData.flow model) as [flow|].
  - rewrite Hp. cbn [bind]. rewrite (item_get _ _ (YSeq []) _ Hn). cbn [bind].
    rewrite lower_all_strings. cbn [bind].
    destruct (FlowFile.profile_names flow) as [|pn pns] eqn:Hpn.
    + rewrite join_strings. cbn [bind]. rewrite Hmk. cbn [bind].
      eexists. split; [reflexivity|].
      split; [discriminate|]. split; [intros; reflexivity|].
      intros flow' Hf He. inversion Hf; subst flow'. congruence.
    + rewrite Hn. cbn [bind]. rewrite join_strings. cbn [bind].
      destruct (any_matches (map PyStr.lower names) (pn :: pns)) eqn:Hm;
        rewrite Hmk; cbn [bind]; eexists; (split; [reflexivity|]);
        (split; [discriminate|]); (split; [intros f Hf He;
           inversion Hf; subst f; congruence|]);
        intros flow' Hf _; inversion Hf; subst flow'; rewrite Hpn.
      * split.
        { split; [intros _ | reflexivity].
          apply any_matches_iff in Hm.
          destruct Hm as (p & a & Hin & Ha & He).
          apply in_map_iff in Ha. destruct Ha as (a0 & <- & Ha0).
          exists p, a0. auto. }
        intros Hne. exfalso. apply Hne. reflexivity.
      * split.
        { split; [discriminate|].
          intros (p & a & Hin & Ha & He). exfalso.
          assert (Ht : any_matches (map PyStr.lower names) (pn :: pns) = true).
          { apply any_matches_iff. exists p, (PyStr.lower a).
            split; [exact Hin|]. split; [|exact He].
            apply in_map. exact Ha. }
          congruence. }
        intros _. split; reflexivity.
  - rewrite Hmk. cbn [bind]. eexists. split; [reflexivity|].
    split; [intros; reflexivity|]. split; intros; discriminate.
Qed.

(** The scenarios of the specification. *)
Example profile_missing_fails :
  status_and_actual (check_profile_exists (profile_rule base_flood_names)
                       (flow_model ["10yr"; "50yr"]))
  = [(Some FAIL, Some (YStr "10yr, 50yr"))].
Proof. vm_compute. reflexivity. Qed.

Example profile_present_passes :
  status_and_actual (check_profile_exists (profile_rule base_flood_names)
                       (flow_model ["100yr"]))
  = [(Some PASS, Some (YStr "100yr"))].
Proof. vm_compute. reflexivity. Qed.

Example profile_upper_case_passes :
  status_and_actual (check_profile_exists (profile_rule base_flood_names)
                       (flow_model ["100YR"]))
  = [(Some PASS, Some (YStr "100YR"))].
Proof. vm_compute. reflexivity. Qed.

Example profile_padded_passes :
  status_and_actual (check_profile_exists (profile_rule base_flood_names)
                       (flow_model [" Base Flood "]))
  = [(Some PASS, Some (YStr " Base Flood "))].
Proof. vm_compute. reflexivity. Qed.

Example profile_no_flow_skipped :
  status_and_actual (check_profile_exists (profile_rule base_flood_names)
                       ModelData.empty)
  = [(Some SKIPPED, Some (YStr "no flow data"))].
Proof. vm_compute. reflexivity. Qed.

Example profile_none_skipped :
  status_and_actual (check_profile_exists (profile_rule base_flood_names)
                       (flow_model []))
  = [(Some SKIPPED, Some (YStr "no profiles"))].
Proof. vm_compute. reflexivity. Qed.

(** The boundary-condition scenarios: no steady boundary entry fails, two
    pass with the count in the actual value. *)
Example boundary_none_fails :
  status_and_actual (check_boundary_conditions_defined boundary_rule
                       (flow_model ["100yr"]))
  = [(Some FAIL, Some (YStr "0 steady boundary conditions"))].
Proof. vm_compute. reflexivity. Qed.

Example boundary_two_pass :
  status_and_actual
    (check_boundary_conditions_defined boundary_rule
       (ModelData.mk None None (Some bounded_flow) None))
  = [(Some PASS, Some (YStr "2 steady boundary conditions"))].
Proof. vm_compute. reflexivity. Qed.

(** With nothing loaded the generic rules and the data-dependent handlers
    are skipped; the manual-review rule still passes. *)
Example empty_model_statuses :
  match fst (evaluate no_inherited sample_py_str sample_yaml_str
               (mk_engine [manning_range_rule "error"; overbank_rule;
                           low_chord_rule; profile_rule base_flood_names;
                           boundary_rule; padded_note_rule])
               ModelData.empty []) with
  | Ok out => map RuleResult.status out
  | Raise _ => []
  end = [SKIPPED; SKIPPED; SKIPPED; SKIPPED; SKIPPED; PASS].
Proof. vm_compute. reflexivity. Qed.

Lemma check_profile_exists_spec_witness :
  exists r,
    check_profile_exists (profile_rule base_flood_names)
      (flow_model ["10yr"; "100YR "]) = Ok [r]
    /\ assoc "status" r = Some PASS.
Proof.
  destruct (check_profile_exists_spec (profile_rule base_flood_names)
              (flow_model ["10yr"; "100YR "])
              (YStr "X-001") (YStr "Sample rule") (YStr "error")
              (YStr "Guidance 1.2")
              (YMap [("handler", YStr "check_100yr_profile_exists");
                     ("accepted_names", YSeq (map YStr base_flood_names))])
              base_flood_names
              eq_refl eq_refl eq_refl eq_refl eq_refl eq_refl)
    as (r & Hr & _ & _ & Hflow).
  exists r. split; [exact Hr|].
  destruct (Hflow (sample_flow ["10yr"; "100YR "]) eq_refl) as [Hpass _];
    [discriminate|].
  apply Hpass. exists "100YR ", "100yr".
  split; [right; left; reflexivity|].
  split; [left; reflexivity | reflexivity].
Defined.

(** C5 as stated fails: the accepted names are lower-cased but not trimmed,
    so a padded accepted name matches nothing although both sides agree once
    trimmed and case-folded. *)
Lemma profile_match_keeps_accepted_padding :
  exists r,
    check_profile_exists (profile_rule ["100yr "]) (flow_model ["100yr"])
    = Ok [r]
    /\ assoc "status" r = Some FAIL
    /\ PyStr.lower (PyStr.strip "100yr") = PyStr.lower (PyStr.strip "100yr ").
Proof.
  eexists. split; [vm_compute; reflexivity|]. split; reflexivity.
Qed.

(** ** Rule loading *)

Section LoaderProps.

Variable path : Type.
Variable _FEMA_RULES : path.
Variable state_file : string -> path.
Variable fs : path -> option (exc yaml).

Lemma drop_superseded_filter (supersedes rules : list yaml) :
  forallb has_id rules = true ->
  drop_superseded supersedes rules
  = Ok (filter (fun r => negb (superseded supersedes r)) rules).
Proof.
  induction rules as [|r rules IH]; simpl; intros H; [reflexivity|].
  apply andb_true_iff in H. destruct H as [Hr Hrules].
  unfold has_id in Hr. unfold superseded at 1.
  destruct (Yaml.item r "id") as [rid|]; [|discriminate].
  cbn [bind]. unfold set_mem. rewrite Hr. cbn [bind].
  rewrite (IH Hrules). cbn [bind].
  destruct (existsb (Yaml.eq_hashable rid) supersedes); reflexivity.
Qed.

Lemma filter_nothing_superseded (rules : list yaml) :
  filter (fun r => negb (superseded [] r)) rules = rules.
Proof.
  induction rules as [|r rules IH]; simpl; [reflexivity|].
  unfold superseded at 1. destruct (Yaml.item r "id"); simpl; rewrite IH;
    reflexivity.
Qed.

(** C3: for every baseline rule list (rule mappings with identifiers) and
    overlay, [load_rules] returns the baseline rules whose identifier is not
    in the overlay's supersedes set, in their original order, followed by all
    the overlay rules; and when an overlay is asked for but no file exists
    for it, it returns the baseline list unchanged. *)
Theorem load_rules_merge (state : option string)
    (fema_path state_path : option path) (st_file : path)
    (fd : dict) (baseline : list yaml) :
  fs (baseline_file path _FEMA_RULES fema_path) = Some (Ok (YMap fd)) ->
  assoc "rules" fd = Some (YSeq baseline) ->
  forallb has_id baseline = true ->
  overlay_file path state_file state state_path = Some st_file ->
  (forall sd supersedes overlay,
      fs st_file = Some (Ok (YMap sd)) ->
      assoc "supersedes" sd = Some (YSeq supersedes) ->
      forallb Yaml.hashable supersedes = true ->
      assoc "rules" sd = Some (YSeq overlay) ->
      load_rules path _FEMA_RULES state_file fs state fema_path state_path
      = Ok (filter (fun r => negb (superseded supersedes r)) baseline
            ++ overlay)%list)
  /\ (fs st_file = None ->
      load_rules path _FEMA_RULES state_file fs state fema_path state_path
      = Ok baseline).
Proof.
  intros Hf Hrules Hids Hov.
  unfold load_rules, read_yaml. rewrite Hf. cbn [bind Yaml.get].
  rewrite Hrules. cbn [bind Yaml.iter]. rewrite Hov.
  split.
  - intros sd supersedes overlay Hs Hsup Hhash Hrs.
    unfold exists_. rewrite Hs. cbn [bind Yaml.get]. rewrite Hsup, Hrs.
    cbn [bind].
    assert (Hset : py_set (or_empty (YSeq supersedes)) = Ok supersedes).
    { unfold or_empty, py_set. destruct supersedes; [reflexivity|].
      cbn [Yaml.truthy Yaml.iter bind]. rewrite Hhash. reflexivity. }
    assert (Hit : Yaml.iter (or_empty (YSeq overlay)) = Ok overlay).
    { unfold or_empty. destruct overlay; reflexivity. }
    rewrite Hset. cbn [bind].
    destruct supersedes as [|s0 sup].
    + cbn [bind]. rewrite Hit. cbn [bind].
      rewrite filter_nothing_superseded. reflexivity.
    + rewrite (drop_superseded_filter _ _ Hids). cbn [bind].
      rewrite Hit. reflexivity.
  - intros Hnone. unfold exists_. rewrite Hnone. reflexivity.
Qed.

End LoaderProps.

Lemma load_rules_merge_witness :
  load_rules string "config/fema_rules.yaml" sample_state_file sample_fs
    (Some "Texas") None None
  = Ok [named_rule "FEMA-MANN-001"; named_rule "FEMA-BC-001";
        named_rule "TX-FW-001"]
  /\ load_rules string "config/fema_rules.yaml" sample_state_file sample_fs
       (Some "narnia") None None
     = Ok sample_baseline.
Proof.
  split.
  - destruct (load_rules_merge string "config/fema_rules.yaml"
                sample_state_file sample_fs (Some "Texas") None None
                "config/states/texas.yaml"
                [("rules", YSeq sample_baseline)] sample_baseline
                eq_refl eq_refl eq_refl eq_refl) as [Hmerge _].
    apply (Hmerge [("supersedes", YSeq [YStr "FEMA-FW-001"]);
                   ("rules", YSeq [named_rule "TX-FW-001"])]
             [YStr "FEMA-FW-001"] [named_rule "TX-FW-001"]);
      reflexivity.
  - destruct (load_rules_merge string "config/fema_rules.yaml"
                sample_state_file sample_fs (Some "narnia") None None
                "config/states/narnia.yaml"
                [("rules", YSeq sample_baseline)] sample_baseline
                eq_refl eq_refl eq_refl eq_refl) as [_ Hmissing].
    apply Hmissing. reflexivity.
Defined.

(** * Further properties of the engine, the handlers and the callers *)

(** ** Statuses *)

Lemma make_result_known_status (rule status : yaml) (a e m : string)
    (r : dict) :
  In status [PASS; FAIL; WARNING; SKIPPED] ->
  _make_result rule status a e m = Ok r -> raw_known_status r.
Proof.
  intros Hst H. destruct (make_result_rule_id _ _ _ _ _ _ H) as (_ & _ & _ & Hs).
  exists status. split; assumption.
Qed.

Ltac known_status_literal :=
  eexists; split; [reflexivity|]; simpl; tauto.

Lemma handler_known_status (name : string) (h : handler) (rule : yaml)
    (model : ModelData.t) (raws : list dict) :
  assoc name HANDLER_REGISTRY = Some h ->
  h rule model = Ok raws -> Forall raw_known_status raws.
Proof.
  assert (Hprofile : forall raws',
             check_profile_exists rule model = Ok raws' ->
             Forall raw_known_status raws').
  { unfold check_profile_exists. intros raws' H.
    destruct (ModelData.flow model) as [flow|].
    - inv_bind H. destruct (FlowFile.profile_names flow).
      + inv_bind H. inversion H; subst. apply Forall_cons; [|apply Forall_nil].
        eapply make_result_known_status; [|eassumption]. simpl; tauto.
      + inv_bind H. destruct (any_matches _ _); inv_bind H; inversion H;
          subst; (apply Forall_cons; [|apply Forall_nil]);
          (eapply make_result_known_status; [|eassumption]); simpl; tauto.
    - inv_bind H. inversion H; subst. apply Forall_cons; [|apply Forall_nil].
      eapply make_result_known_status; [|eassumption]. simpl; tauto. }
  unfold HANDLER_REGISTRY. cbn [assoc].
  destruct (String.eqb "check_profile_exists" name);
    [intros Hh; inversion Hh; subst; apply Hprofile|].
  destruct (String.eqb "check_100yr_profile_exists" name);
    [intros Hh; inversion Hh; subst; apply Hprofile|].
  destruct (String.eqb "check_boundary_conditions_defined" name).
  { intros Hh; inversion Hh; subst. clear Hh Hprofile.
    unfold check_boundary_conditions_defined. intros H.
    destruct (ModelData.flow model) as [flow|].
    - destruct (if FlowFile.is_steady flow then _ else _) as [count bc].
      inv_bind H. destruct (0 <? count)%nat; inv_bind H; inversion H; subst;
        (apply Forall_cons; [|apply Forall_nil]); known_status_literal.
    - inv_bind H. inversion H; subst. apply Forall_cons; [|apply Forall_nil].
      known_status_literal. }
  destruct (String.eqb "flag_for_manual_review" name); [|discriminate].
  intros Hh; inversion Hh; subst. clear Hh Hprofile.
  unfold flag_for_manual_review. intros H. inv_bind H. inversion H; subst.
  apply Forall_cons; [|apply Forall_nil]. known_status_literal.
Qed.

Lemma of_raw_status (rule : yaml) (raw : dict) (r : RuleResult.t) :
  raw_known_status raw -> of_raw rule raw = Ok r -> known_status r.
Proof.
  intros (st & Hst & Hin) H. unfold of_raw in H. cbn [Yaml.item] in H.
  destruct (assoc "rule_id" raw); [|discriminate]. cbn [bind] in H.
  destruct (assoc "rule_name" raw); [|discriminate]. cbn [bind] in H.
  rewrite Hst in H. cbn [bind] in H. inv_bind H. inversion H; subst.
  exact Hin.
Qed.

Lemma skipped_status (rule : yaml) (reason location : string)
    (r : RuleResult.t) :
  _skipped rule reason location = Ok r -> RuleResult.status r = SKIPPED.
Proof.
  unfold _skipped. intros H. inv_bind H. inversion H; subst. reflexivity.
Qed.

Lemma failed_status_cases (rule st : yaml) :
  failed_status rule = Ok st -> st = WARNING \/ st = FAIL.
Proof.
  unfold failed_status. intros H. inv_bind H. inversion H.
  destruct (Yaml.eq_str a "warning"); auto.
Qed.

Lemma mapM_Forall {A B : Type} (f : A -> exc B) (P : B -> Prop)
    (l : list A) (out : list B) :
  (forall a b, In a l -> f a = Ok b -> P b) ->
  mapM f l = Ok out -> Forall P out.
Proof.
  revert out. induction l as [|a l IH]; simpl; intros out Hf H.
  - inversion H. constructor.
  - destruct (f a) as [b|] eqn:Hb; simpl in H; [|discriminate].
    destruct (mapM f l) as [bs|] eqn:Hl; simpl in H; [|discriminate].
    inversion H; subst. constructor.
    + eapply Hf; [left; reflexivity | exact Hb].
    + apply IH; [|reflexivity]. intros x y Hx. apply Hf. right. exact Hx.
Qed.

Section Statuses.

Variable inherited : pyval -> string -> exc pyval.
Variable py_str : pyval -> string.
Variable yaml_str : yaml -> string.

Lemma check_value_known_status (rule check_type : yaml)
    (vl : pyval * string) (r : RuleResult.t) :
  check_value py_str yaml_str rule check_type vl = Ok r -> known_status r.
Proof.
  destruct vl as [val location]. unfold check_value, known_status.
  assert (Hskip : forall reason,
             _skipped rule reason location = Ok r ->
             In (RuleResult.status r) [PASS; FAIL; WARNING; SKIPPED]).
  { intros reason H. rewrite (skipped_status _ _ _ _ H). simpl; tauto. }
  assert (Hgen :
    (if Yaml.eq_str check_type "range"
     then _check_range py_str yaml_str rule val location
     else if Yaml.eq_str check_type "exact"
     then _check_exact py_str yaml_str rule val location
     else if Yaml.eq_str check_type "exists"
     then _check_exists py_str rule val location
     else _skipped rule ("Unknown check_type: " ++ yaml_str check_type)
            location) = Ok r ->
    In (RuleResult.status r) [PASS; FAIL; WARNING; SKIPPED]).
  { destruct (Yaml.eq_str check_type "range").
    { unfold _check_range. intros H. inv_bind H. inversion H; subst. simpl.
      destruct a2; [inversion Ha3; tauto|].
      destruct (failed_status_cases _ _ Ha3) as [-> | ->]; tauto. }
    destruct (Yaml.eq_str check_type "exact").
    { unfold _check_exact. intros H. inv_bind H. inversion H; subst. simpl.
      destruct (py_eq val a0); [inversion Ha1; tauto|].
      destruct (failed_status_cases _ _ Ha1) as [-> | ->]; tauto. }
    destruct (Yaml.eq_str check_type "exists").
    { unfold _check_exists. intros H. inv_bind H. inversion H; subst.
      simpl; tauto. }
    apply Hskip. }
  destruct val; try exact Hgen. apply Hskip.
Qed.

Lemma evaluate_rule_known_status (rule : yaml) (model : ModelData.t)
    (rs : list RuleResult.t) :
  _evaluate_rule inherited py_str yaml_str
    rule model = Ok rs -> Forall known_status rs.
Proof.
  unfold _evaluate_rule. intros H. inv_bind H.
  destruct (Yaml.eq_str a "custom").
  - unfold _run_custom in H. inv_bind H. destruct a2 as [h|].
    + inv_bind H.
      assert (Hreg : exists name, assoc name HANDLER_REGISTRY = Some h).
      { unfold registry_get in Ha2. destruct a1; try discriminate.
        exists s. congruence. }
      destruct Hreg as [name Hreg].
      pose proof (handler_known_status name h rule model _ Hreg Ha3) as Hraw.
      eapply mapM_Forall; [|exact H]. intros raw r Hin Hr.
      eapply of_raw_status; [|exact Hr].
      eapply Forall_forall in Hraw; eassumption.
    + inv_bind H. inversion H; subst. apply Forall_cons; [|apply Forall_nil].
      unfold known_status. rewrite (skipped_status _ _ _ _ Ha3).
      simpl; tauto.
  - inv_bind H. destruct a1 as [|vl values].
    + inv_bind H. inversion H; subst. apply Forall_cons; [|apply Forall_nil].
      unfold known_status. rewrite (skipped_status _ _ _ _ Ha2).
      simpl; tauto.
    + eapply mapM_Forall; [|exact H]. intros x r _ Hr.
      eapply check_value_known_status. exact Hr.
Qed.

Lemma results_of_known_status (rule : yaml) (model : ModelData.t) :
  Forall known_status (results_of inherited py_str yaml_str rule model).
Proof.
  unfold results_of.
  destruct (_evaluate_rule inherited py_str yaml_str
              rule model) as [rs|e] eqn:He.
  - eapply evaluate_rule_known_status. exact He.
  - destruct (internal_error rule) as [r|] eqn:Hr; [|constructor].
    unfold internal_error in Hr. inv_bind Hr. inversion Hr; subst.
    apply Forall_cons; [|apply Forall_nil]. unfold known_status. simpl; tauto.
Qed.

Lemma flat_map_Forall {A B : Type} (f : A -> list B) (P : B -> Prop)
    (l : list A) :
  (forall a, Forall P (f a)) -> Forall P (flat_map f l).
Proof.
  intros Hf. induction l as [|a l IH]; simpl; [constructor|].
  apply Forall_app. split; [apply Hf | exact IH].
Qed.

Lemma evaluate_results_known_status (rules : list yaml) (model : ModelData.t)
    (log : list log_record) :
  forallb is_mapping rules = true ->
  exists out,
    fst (evaluate inherited py_str yaml_str
           (mk_engine rules) model log) = Ok out
    /\ Forall known_status out.
Proof.
  intros Hm. eexists. split.
  - rewrite evaluate_mk_engine. apply evaluate_loop_results. exact Hm.
  - simpl. apply flat_map_Forall. intros rule.
    apply results_of_known_status.
Qed.

(** X1: for every list of rule mappings and every model, [evaluate] returns
    a result list in which every status is one of PASS, FAIL, WARNING and
    SKIPPED: the generic checks, the four registered handlers and the
    [except] branch produce no other status. *)
Theorem evaluate_status_is_known (rules : list yaml) (model : ModelData.t)
    (log : list log_record) :
  forallb is_mapping rules = true ->
  exists out,
    fst (evaluate inherited py_str yaml_str
           (mk_engine rules) model log) = Ok out
    /\ forall r, In r out ->
         RuleResult.status r = PASS \/ RuleResult.status r = FAIL
         \/ RuleResult.status r = WARNING \/ RuleResult.status r = SKIPPED.
Proof.
  intros Hm.
  destruct (evaluate_results_known_status rules model log Hm)
    as (out & Hout & Hall).
  exists out. split; [exact Hout|]. intros r Hr.
  eapply Forall_forall in Hall; [|exact Hr].
  unfold known_status in Hall. simpl in Hall.
  destruct Hall as [H|[H|[H|[H|[]]]]]; rewrite <- H; tauto.
Qed.

Lemma count_status_known (results : list RuleResult.t) :
  Forall known_status results ->
  (count_status "PASS" results + count_status "FAIL" results
   + count_status "WARNING" results + count_status "SKIPPED" results
   = List.length results)%nat.
Proof.
  unfold count_status.
  induction 1 as [|r rs Hr _ IH]; [reflexivity|].
  cbn [filter List.length].
  unfold known_status in Hr. simpl in Hr.
  destruct Hr as [H|[H|[H|[H|[]]]]]; rewrite <- H; simpl; lia.
Qed.

(** X2: the four counters the command line prints ([n_pass], [n_fail],
    [n_warn], [n_skip]) add up to the number of results [evaluate] returned,
    for every list of rule mappings and every model: no result is left out
    of the summary line and none is counted twice. *)
Theorem run_counters_add_up (rules : list yaml) (model : ModelData.t)
    (log : list log_record) :
  forallb is_mapping rules = true ->
  exists out,
    fst (evaluate inherited py_str yaml_str
           (mk_engine rules) model log) = Ok out
    /\ (count_status "PASS" out + count_status "FAIL" out
        + count_status "WARNING" out + count_status "SKIPPED" out
        = List.length out)%nat.
Proof.
  intros Hm.
  destruct (evaluate_results_known_status rules model log Hm)
    as (out & Hout & Hall).
  exists out. split; [exact Hout|]. apply count_status_known. exact Hall.
Qed.

End Statuses.

Lemma evaluate_status_is_known_witness :
  exists out,
    fst (evaluate no_inherited sample_py_str sample_yaml_str
           (mk_engine mixed_rules)
           (sample_model three_regions) []) = Ok out
    /\ forall r, In r out ->
         RuleResult.status r = PASS \/ RuleResult.status r = FAIL
         \/ RuleResult.status r = WARNING \/ RuleResult.status r = SKIPPED.
Proof.
  apply (evaluate_status_is_known no_inherited sample_py_str sample_yaml_str
           mixed_rules
           (sample_model three_regions) []).
  vm_compute. reflexivity.
Defined.

Lemma run_counters_add_up_witness :
  exists out,
    fst (evaluate no_inherited sample_py_str sample_yaml_str
           (mk_engine mixed_rules)
           (sample_model three_regions) []) = Ok out
    /\ (count_status "PASS" out + count_status "FAIL" out
        + count_status "WARNING" out + count_status "SKIPPED" out
        = List.length out)%nat.
Proof.
  apply (run_counters_add_up no_inherited sample_py_str sample_yaml_str
           mixed_rules
           (sample_model three_regions) []).
  vm_compute. reflexivity.
Defined.

(** ** Paths that resolve without an exception *)

Lemma assoc_Forall {A : Type} (Q : A -> Prop) (k : string)
    (l : list (string * A)) (v : A) :
  Forall (fun kv => Q (snd kv)) l -> assoc k l = Some v -> Q v.
Proof.
  induction 1 as [|[k' v'] l Hv _ IH]; simpl; [discriminate|].
  destruct (String.eqb k' k); [|exact IH].
  intros H. inversion H; subst. exact Hv.
Qed.

Ltac no_bridge_entry :=
  match goal with
  | |- no_bridge (p_opt _ ?o) = true => destruct o; reflexivity
  | |- exists v, snd (_, Ok ?x) = Ok v /\ _ =>
      exists x; split; [reflexivity|]; no_bridge_entry
  | |- _ => reflexivity
  end.

Ltac forall_entries :=
  repeat (apply Forall_cons; [cbn [snd]; no_bridge_entry|]); apply Forall_nil.

Lemma fields_no_bridge (o : obj) :
  Forall (fun kv => no_bridge (snd kv) = true) (fields o).
Proof. destruct o; cbn [fields]; forall_entries. Qed.

Lemma properties_no_bridge (o : obj) :
  no_bridge (PObj o) = true ->
  Forall (fun kv => exists v, kv = Ok v /\ no_bridge v = true)
         (map snd (properties o)).
Proof.
  destruct o; cbn [properties map snd]; intros Hb; try discriminate Hb;
    repeat (apply Forall_cons;
            [eexists; split; [reflexivity|]; no_bridge_entry|]);
    apply Forall_nil.
Qed.

Lemma assoc_map_snd {A : Type} (k : string) (l : list (string * A)) (v : A) :
  assoc k l = Some v -> In v (map snd l).
Proof.
  induction l as [|[k' v'] l IH]; simpl; [discriminate|].
  destruct (String.eqb k' k); [|auto].
  intros H. inversion H; subst. left. reflexivity.
Qed.

Lemma contains_cross_sections (suffix : string) :
  PyStr.contains "[]" ("geometry.cross_sections[]" ++ suffix) = true.
Proof. destruct suffix; reflexivity. Qed.

Lemma partition_cross_sections (suffix : string) :
  PyStr.partition "[]" ("geometry.cross_sections[]" ++ suffix)
  = ("geometry.cross_sections", "[]", suffix).
Proof. destruct suffix; reflexivity. Qed.

Section Paths.

Variable inherited : pyval -> string -> exc pyval.
Variable py_str : pyval -> string.

(** A walk over declared names that starts outside the bridges returns a
    value, the same whatever lookup answers outside the declarations. *)
Lemma walk_declared (parts : list string) (v : pyval) :
  no_bridge v = true ->
  declared v parts = true ->
  exists v',
    walk inherited v parts = Ok v' /\ walk no_inherited v parts = Ok v'.
Proof.
  revert v. induction parts as [|part rest IH]; intros v Hb Hd.
  - exists v. split; reflexivity.
  - destruct v as [ |b|z|f|s|l|l|o|eq le ge it]; try discriminate Hd.
    + exists PNone. split; reflexivity.
    + cbn [declared] in Hd. cbn [walk]. unfold getattr_or_None.
      destruct (assoc part (fields o)) as [x|] eqn:Hf.
      * cbn [bind]. apply IH; [|exact Hd].
        exact (assoc_Forall (fun x => no_bridge x = true) part _ x
                 (fields_no_bridge o) Hf).
      * destruct (assoc part (properties o)) as [r|] eqn:Hp;
          [|discriminate Hd].
        apply assoc_map_snd in Hp.
        pose proof (properties_no_bridge o Hb) as Hall.
        eapply Forall_forall in Hall; [|exact Hp].
        destruct Hall as (x & -> & Hx). cbn [bind]. apply IH; assumption.
Qed.

(** X3: a path without the marker "[]" whose names are all declared (each
    one a field or a property of the dataclass object the walk has reached)
    resolves, on every model, to exactly one pair with the empty location,
    and never raises: such a walk reaches no bridge object, the only one
    whose property can raise.  The value is the same whatever attribute
    lookup answers outside the declarations. *)
Theorem resolve_values_scalar_path (model : ModelData.t) (path : string) :
  PyStr.contains "[]" path = false ->
  declared (PObj (OModelData model)) (PyStr.split "." path) = true ->
  exists v,
    _getattr_path inherited (PObj (OModelData model)) path = Ok v
    /\ _getattr_path no_inherited (PObj (OModelData model)) path = Ok v
    /\ _resolve_values inherited py_str model (YStr path) = Ok [(v, "")].
Proof.
  intros Hc Hd.
  destruct (walk_declared (PyStr.split "." path) (PObj (OModelData model))
              eq_refl Hd) as (v & Hv & Hv').
  exists v. split; [exact Hv|]. split; [exact Hv'|].
  unfold _resolve_values. rewrite Hc. unfold _getattr_path. rewrite Hv.
  reflexivity.
Qed.

Lemma resolve_item_section (field_path : string) (x : CrossSection.t) :
  String.eqb field_path "manning_n_overbank" = false ->
  declared (PObj (OCrossSection x)) (PyStr.split "." field_path) = true ->
  _getattr_path inherited (PObj (OCrossSection x)) field_path
  = Ok (section_value field_path x)
  /\ resolve_item inherited py_str field_path (PObj (OCrossSection x))
     = Ok [(section_value field_path x, station_label py_str x)].
Proof.
  intros Hf Hd.
  destruct (walk_declared (PyStr.split "." field_path)
              (PObj (OCrossSection x)) eq_refl Hd) as (v & Hv & Hv').
  assert (Hs : section_value field_path x = v).
  { unfold section_value, _getattr_path. rewrite Hv'. reflexivity. }
  rewrite Hs. split; [exact Hv|].
  unfold resolve_item. rewrite Hf.
  change (getattr_or_None inherited (PObj (OCrossSection x)) "river_station")
    with (Ok (PFloat (CrossSection.river_station x)) : exc pyval).
  cbn [bind]. unfold _getattr_path. rewrite Hv. reflexivity.
Qed.

Lemma resolve_items_sections (field_path : string)
    (xs : list CrossSection.t) :
  String.eqb field_path "manning_n_overbank" = false ->
  forallb (fun x => declared (PObj (OCrossSection x))
                      (PyStr.split "." field_path)) xs = true ->
  resolve_items inherited py_str field_path
    (map (fun c => P (OCrossSection c)) xs)
  = Ok (map (fun x => (section_value field_path x, station_label py_str x))
          xs).
Proof.
  intros Hf. induction xs as [|x xs IH]; intros Hd; [reflexivity|].
  cbn [forallb] in Hd. apply andb_true_iff in Hd. destruct Hd as [Hx Hxs].
  cbn [map resolve_items]. unfold P at 1.
  destruct (resolve_item_section field_path x Hf Hx) as [_ ->].
  cbn [bind]. rewrite (IH Hxs). reflexivity.
Qed.

(** X4: a collection path over the cross-sections
    ("geometry.cross_sections[]" followed by a field path of declared names,
    other than the virtual overbank field) resolves, when geometry is
    loaded, to exactly one pair per cross-section, in file order, each
    labelled "RS <station>" and holding the value of the field path on that
    cross-section; no such path raises, and the pairs are the same whatever
    attribute lookup answers outside the declarations. *)
Theorem resolve_values_cross_section_field (model : ModelData.t)
    (g : GeometryFile.t) (suffix : string) :
  ModelData.geometry model = Some g ->
  String.eqb (PyStr.lstrip_by PyStr.is_dot suffix) "manning_n_overbank"
  = false ->
  forallb (fun x => declared (PObj (OCrossSection x))
                      (PyStr.split "." (PyStr.lstrip_by PyStr.is_dot suffix)))
          (GeometryFile.cross_sections g) = true ->
  let field_path := PyStr.lstrip_by PyStr.is_dot suffix in
  _resolve_values inherited py_str model
    (YStr ("geometry.cross_sections[]" ++ suffix))
  = Ok (map (fun x => (section_value field_path x, station_label py_str x))
          (GeometryFile.cross_sections g))
  /\ forall x,
       In x (GeometryFile.cross_sections g) ->
       _getattr_path inherited (PObj (OCrossSection x)) field_path
       = Ok (section_value field_path x).
Proof.
  intros Hg Hf Hd field_path. split.
  - unfold _resolve_values.
    rewrite contains_cross_sections, partition_cross_sections.
    cbv iota beta.
    change (PyStr.rstrip_by PyStr.is_dot "geometry.cross_sections")
      with "geometry.cross_sections".
    unfold _getattr_path.
    change (PyStr.split "." "geometry.cross_sections")
      with ["geometry"; "cross_sections"].
    cbn [walk].
    change (getattr_or_None inherited (PObj (OModelData model)) "geometry")
      with (Ok (p_opt (fun g => P (OGeometryFile g))
                  (ModelData.geometry model)) : exc pyval).
    rewrite Hg. cbn [bind p_opt]. unfold P at 1.
    change (getattr_or_None inherited (PObj (OGeometryFile g))
              "cross_sections")
      with (Ok (p_list (fun c => P (OCrossSection c))
                  (GeometryFile.cross_sections g)) : exc pyval).
    cbn [bind walk p_list iter_items].
    apply resolve_items_sections; assumption.
  - intros x Hx. apply resolve_item_section; [exact Hf|].
    eapply forallb_forall in Hd; [exact Hd | exact Hx].
Qed.

End Paths.

(** A name that no dataclass declares, such as an attribute of the [int]
    the plan type is, is outside these walks. *)
Example undeclared_name :
  declared (PObj (OModelData (plan_model (sample_plan true 4 [dec 1 1]))))
    (PyStr.split "." "plan.plan_type") = true
  /\ declared (PObj (OModelData (plan_model (sample_plan true 4 [dec 1 1]))))
       (PyStr.split "." "plan.plan_type.real") = false.
Proof. split; vm_compute; reflexivity. Qed.

Lemma resolve_values_scalar_path_witness :
  exists v,
    _getattr_path no_inherited
      (PObj (OModelData (plan_model (sample_plan true 4 [dec 1 1]))))
      "plan.encroachment.target_surcharge" = Ok v
    /\ _getattr_path no_inherited
         (PObj (OModelData (plan_model (sample_plan true 4 [dec 1 1]))))
         "plan.encroachment.target_surcharge" = Ok v
    /\ _resolve_values no_inherited sample_py_str
         (plan_model (sample_plan true 4 [dec 1 1]))
         (YStr "plan.encroachment.target_surcharge") = Ok [(v, "")].
Proof.
  apply (resolve_values_scalar_path no_inherited sample_py_str
           (plan_model (sample_plan true 4 [dec 1 1]))
           "plan.encroachment.target_surcharge");
    vm_compute; reflexivity.
Defined.

Lemma resolve_values_cross_section_field_witness :
  _resolve_values no_inherited sample_py_str (sample_model three_regions)
    (YStr ("geometry.cross_sections[]" ++ ".manning_n_channel"))
  = Ok (map (fun x => (section_value "manning_n_channel" x,
                       station_label sample_py_str x))
          (sample_sections three_regions)).
Proof.
  apply (resolve_values_cross_section_field no_inherited sample_py_str
           (sample_model three_regions)
           (GeometryFile.mk "Test" (sample_sections three_regions) [])
           ".manning_n_channel");
    vm_compute; reflexivity.
Defined.

(** ** The generic checks on a well-formed rule *)

Lemma has_keys_items (d : dict) :
  has_keys d = true ->
  Yaml.item (YMap d) "id" = Ok (dict_get d "id" YNull)
  /\ Yaml.item (YMap d) "name" = Ok (dict_get d "name" YNull)
  /\ Yaml.item (YMap d) "severity" = Ok (dict_get d "severity" YNull)
  /\ Yaml.item (YMap d) "citation" = Ok (dict_get d "citation" YNull).
Proof.
  unfold has_keys, has_key, dict_get. cbn [Yaml.item].
  destruct (assoc "id" d); [|discriminate].
  destruct (assoc "name" d); [|discriminate].
  destruct (assoc "severity" d); [|discriminate].
  destruct (assoc "citation" d); [|discriminate].
  intros _. repeat split; reflexivity.
Qed.

Lemma skipped_dict (d : dict) (reason location : string) :
  has_keys d = true ->
  _skipped (YMap d) reason location
  = Ok (result_for d SKIPPED "" "" reason location).
Proof.
  intros Hk. destruct (has_keys_items d Hk) as (Hid & Hname & Hsev & Hcit).
  unfold _skipped. rewrite Hid, Hname, Hsev, Hcit, get_YMap. reflexivity.
Qed.

Lemma failed_status_dict (d : dict) :
  has_keys d = true -> failed_status (YMap d) = Ok (status_on_failure d).
Proof.
  intros Hk. destruct (has_keys_items d Hk) as (_ & _ & Hsev & _).
  unfold failed_status. rewrite Hsev. reflexivity.
Qed.

Lemma mapM_map {A B : Type} (f : A -> exc B) (g : A -> B) (l : list A) :
  (forall a, In a l -> f a = Ok (g a)) -> mapM f l = Ok (map g l).
Proof.
  induction l as [|a l IH]; intros Hf; [reflexivity|].
  cbn [mapM map]. rewrite (Hf a (or_introl eq_refl)). cbn [bind].
  rewrite IH by (intros x Hx; apply Hf; right; exact Hx). reflexivity.
Qed.

Lemma py_eq_None (val : pyval) : val <> PNone -> py_eq val YNull = false.
Proof.
  destruct val as [ |b|z|f|s|l|l|o|eq le ge it]; intros H; try reflexivity.
  congruence.
Qed.

Section GenericChecks.

Variable inherited : pyval -> string -> exc pyval.
Variable py_str : pyval -> string.
Variable yaml_str : yaml -> string.

Lemma evaluate_rule_generic (d : dict) (model : ModelData.t)
    (check_type : yaml) (path : string) (values : list (pyval * string)) :
  dict_get d "check_type" (YStr "") = check_type ->
  Yaml.eq_str check_type "custom" = false ->
  dict_get d "applies_to" (YStr "") = YStr path ->
  _resolve_values inherited py_str model (YStr path) = Ok values ->
  values <> [] ->
  _evaluate_rule inherited py_str yaml_str (YMap d) model
  = mapM (check_value py_str yaml_str (YMap d) check_type) values.
Proof.
  intros Hct Hcustom Hap Hv Hne. unfold _evaluate_rule.
  rewrite !get_YMap, Hct. cbn [bind]. rewrite Hcustom, Hap, Hv. cbn [bind].
  destruct values; [congruence | reflexivity].
Qed.

Lemma check_exists_dict (d : dict) (val : pyval) (location : string) :
  has_keys d = true ->
  _check_exists py_str (YMap d) val location
  = Ok (result_for d PASS (py_str val) "present" "Value is present."
          location).
Proof.
  intros Hk. destruct (has_keys_items d Hk) as (Hid & Hname & Hsev & Hcit).
  unfold _check_exists. rewrite Hid, Hname, Hsev, Hcit, get_YMap.
  reflexivity.
Qed.

(** X5: an "exists" rule (carrying id, name, severity and citation) whose
    path resolves to at least one pair returns one result per pair, in
    order: SKIPPED with message "Value is None" where the value is None,
    PASS with the value's text and expected value "present" everywhere
    else.  Such a rule never yields FAIL or WARNING. *)
Theorem evaluate_rule_exists (d : dict) (model : ModelData.t)
    (path : string) (values : list (pyval * string)) :
  has_keys d = true ->
  dict_get d "check_type" (YStr "") = YStr "exists" ->
  dict_get d "applies_to" (YStr "") = YStr path ->
  _resolve_values inherited py_str model (YStr path) = Ok values ->
  values <> [] ->
  _evaluate_rule inherited py_str yaml_str (YMap d) model
  = Ok (map (fun vl =>
               match fst vl with
               | PNone => result_for d SKIPPED "" "" "Value is None" (snd vl)
               | v => result_for d PASS (py_str v) "present"
                        "Value is present." (snd vl)
               end) values).
Proof.
  intros Hk Hct Hap Hv Hne.
  rewrite (evaluate_rule_generic d model (YStr "exists") path values
             Hct eq_refl Hap Hv Hne).
  apply mapM_map. intros [val location] _. unfold check_value.
  cbn [Yaml.eq_str String.eqb Ascii.eqb Bool.eqb fst snd].
  destruct val as [ |b|z|f|s|l|l|o|eq le ge it];
    first [apply skipped_dict; exact Hk | apply check_exists_dict; exact Hk].
Qed.

(** X6: the exact check of a rule carrying id, name, severity and citation
    returns a result for every value: PASS when the value equals the [value]
    parameter, otherwise WARNING for severity "warning" and FAIL for any
    other severity; the expected value is None when the rule has no
    parameters or no [value], and then no value other than None passes. *)
Theorem check_exact_spec (d : dict) (val : pyval) (location : string)
    (params expected : yaml) :
  has_keys d = true ->
  dict_get d "parameters" (YMap []) = params ->
  Yaml.get params "value" YNull = Ok expected ->
  let passed := py_eq val expected in
  _check_exact py_str yaml_str (YMap d) val location
  = Ok (result_for d
          (if passed then PASS else status_on_failure d)
          (py_str val) (yaml_str expected)
          ("Value " ++ py_str val ++ " "
           ++ (if passed then "matches" else "does not match")
           ++ " expected " ++ yaml_str expected ++ ".")
          location)
  /\ ((forall v, params <> YMap v \/ assoc "value" v = None) ->
      expected = YNull /\ (val <> PNone -> passed = false)).
Proof.
  intros Hk Hp He passed.
  destruct (has_keys_items d Hk) as (Hid & Hname & Hsev & Hcit).
  split.
  - unfold _check_exact. rewrite get_YMap, Hp. cbn [bind].
    rewrite He. cbn [bind].
    fold passed. destruct passed.
    + cbn [bind]. rewrite Hid, Hname, Hsev, Hcit, get_YMap. reflexivity.
    + rewrite (failed_status_dict d Hk). cbn [bind].
      rewrite Hid, Hname, Hsev, Hcit, get_YMap. reflexivity.
  - intros Hno.
    assert (Hex : expected = YNull).
    { destruct params as [ | | | | | |v]; try discriminate He.
      cbn [Yaml.get] in He. destruct (Hno v) as [Hv|Hv]; [congruence|].
      rewrite Hv in He. congruence. }
    split; [exact Hex|]. intros Hval. unfold passed. rewrite Hex.
    apply py_eq_None. exact Hval.
Qed.

(** X7: a rule (carrying id, name, severity and citation) whose check type
    is none of "custom", "range", "exact" and "exists" - a missing check
    type included - returns one SKIPPED result per resolved pair: "Value is
    None" where the value is None, "Unknown check_type: <type>" everywhere
    else.  No check runs and nothing raises. *)
Theorem evaluate_rule_unknown_check_type (d : dict) (model : ModelData.t)
    (check_type : yaml) (path : string) (values : list (pyval * string)) :
  has_keys d = true ->
  dict_get d "check_type" (YStr "") = check_type ->
  Yaml.eq_str check_type "custom" = false ->
  Yaml.eq_str check_type "range" = false ->
  Yaml.eq_str check_type "exact" = false ->
  Yaml.eq_str check_type "exists" = false ->
  dict_get d "applies_to" (YStr "") = YStr path ->
  _resolve_values inherited py_str model (YStr path) = Ok values ->
  values <> [] ->
  _evaluate_rule inherited py_str yaml_str (YMap d) model
  = Ok (map (fun vl =>
               result_for d SKIPPED "" ""
                 match fst vl with
                 | PNone => "Value is None"
                 | _ => "Unknown check_type: " ++ yaml_str check_type
                 end (snd vl)) values).
Proof.
  intros Hk Hct Hcustom Hrange Hexact Hexists Hap Hv Hne.
  rewrite (evaluate_rule_generic d model check_type path values
             Hct Hcustom Hap Hv Hne).
  apply mapM_map. intros [val location] _. unfold check_value.
  rewrite Hrange, Hexact, Hexists. cbn [fst snd].
  destruct val as [ |b|z|f|s|l|l|o|eq le ge it]; apply skipped_dict; exact Hk.
Qed.

Lemma assoc_not_In {A : Type} (k : string) (l : list (string * A)) :
  ~ In k (map fst l) -> assoc k l = None.
Proof.
  induction l as [|[k' v] l IH]; [reflexivity|]. cbn [map fst In assoc].
  intros Hn. destruct (String.eqb k' k) eqn:Hk.
  - apply String.eqb_eq in Hk. tauto.
  - apply IH. tauto.
Qed.

(** X8: a custom rule (carrying id, name, severity and citation) whose
    handler name is hashable but not registered - a missing name and a name
    that is no string included - returns exactly one SKIPPED result with
    message "Unknown handler: <name>", whatever the model holds: no handler
    runs. *)
Theorem evaluate_rule_unknown_handler (d : dict) (model : ModelData.t)
    (params handler_name : yaml) :
  has_keys d = true ->
  dict_get d "check_type" (YStr "") = YStr "custom" ->
  dict_get d "parameters" (YMap []) = params ->
  Yaml.get params "handler" (YStr "") = Ok handler_name ->
  Yaml.hashable handler_name = true ->
  (forall s, handler_name = YStr s -> ~ In s (map fst HANDLER_REGISTRY)) ->
  _evaluate_rule inherited py_str yaml_str (YMap d) model
  = Ok [result_for d SKIPPED "" ""
          ("Unknown handler: " ++ yaml_str handler_name) ""].
Proof.
  intros Hk Hct Hp Hh Hhash Hnot.
  unfold _evaluate_rule. rewrite get_YMap, Hct. cbn [bind].
  change (Yaml.eq_str (YStr "custom") "custom") with true. cbv iota.
  unfold _run_custom. rewrite get_YMap, Hp. cbn [bind].
  rewrite Hh. cbn [bind].
  assert (Hreg : registry_get handler_name = Ok None).
  { destruct handler_name as [ |b|z|f|s|l|m]; try reflexivity;
      try discriminate Hhash.
    unfold registry_get. rewrite (assoc_not_In s HANDLER_REGISTRY);
      [reflexivity | apply Hnot; reflexivity]. }
  rewrite Hreg. cbn [bind]. rewrite (skipped_dict d _ "" Hk). reflexivity.
Qed.

Lemma check_value_warning (rule check_type : yaml) (vl : pyval * string)
    (r : RuleResult.t) :
  Yaml.item rule "severity" = Ok (YStr "warning") ->
  check_value py_str yaml_str rule check_type vl = Ok r ->
  RuleResult.status r <> FAIL.
Proof.
  intros Hsev. destruct vl as [val location]. unfold check_value.
  assert (Hskip : forall reason,
             _skipped rule reason location = Ok r ->
             RuleResult.status r <> FAIL).
  { intros reason H. rewrite (skipped_status _ _ _ _ H). discriminate. }
  assert (Hfail : forall st, failed_status rule = Ok st -> st <> FAIL).
  { unfold failed_status. rewrite Hsev. cbn. intros st H.
    inversion H. discriminate. }
  assert (Hgen :
    (if Yaml.eq_str check_type "range"
     then _check_range py_str yaml_str rule val location
     else if Yaml.eq_str check_type "exact"
     then _check_exact py_str yaml_str rule val location
     else if Yaml.eq_str check_type "exists"
     then _check_exists py_str rule val location
     else _skipped rule ("Unknown check_type: " ++ yaml_str check_type)
            location) = Ok r ->
    RuleResult.status r <> FAIL).
  { destruct (Yaml.eq_str check_type "range").
    { unfold _check_range. intros H. inv_bind H. inversion H; subst.
      cbn [RuleResult.status].
      destruct a2; [inversion Ha3; discriminate | apply Hfail; exact Ha3]. }
    destruct (Yaml.eq_str check_type "exact").
    { unfold _check_exact. intros H. inv_bind H. inversion H; subst.
      cbn [RuleResult.status].
      destruct (py_eq val a0);
        [inversion Ha1; discriminate | apply Hfail; exact Ha1]. }
    destruct (Yaml.eq_str check_type "exists").
    { unfold _check_exists. intros H. inv_bind H. inversion H; subst.
      discriminate. }
    apply Hskip. }
  destruct val; try exact Hgen. apply Hskip.
Qed.

Lemma results_of_warning (rule check_type : yaml) (model : ModelData.t)
    (r : RuleResult.t) :
  Yaml.item rule "severity" = Ok (YStr "warning") ->
  Yaml.get rule "check_type" (YStr "") = Ok check_type ->
  Yaml.eq_str check_type "custom" = false ->
  In r (results_of inherited py_str yaml_str rule model) ->
  RuleResult.status r <> FAIL.
Proof.
  intros Hsev Hct Hcustom. unfold results_of.
  destruct (_evaluate_rule inherited py_str yaml_str
              rule model) as [rs|e] eqn:He.
  - unfold _evaluate_rule in He. rewrite Hct in He. cbn [bind] in He.
    rewrite Hcustom in He. inv_bind He. destruct a0 as [|vl values].
    + inv_bind He. inversion He; subst. intros [<-|[]].
      rewrite (skipped_status _ _ _ _ Ha1). discriminate.
    + intros Hin.
      assert (Hall : Forall (fun r => RuleResult.status r <> FAIL) rs).
      { eapply mapM_Forall; [|exact He]. intros x y _ Hy.
        eapply check_value_warning; eassumption. }
      eapply Forall_forall in Hall; eassumption.
  - destruct (internal_error rule) as [r0|] eqn:Hr; [|intros []].
    unfold internal_error in Hr. inv_bind Hr. inversion Hr; subst.
    intros [<-|[]]. discriminate.
Qed.

(** X9: a rule of severity "warning" that is not a custom rule never
    contributes a FAIL result to [evaluate], on any model: a failed range
    or exact check is reported as WARNING, and every other outcome is PASS
    or SKIPPED - also when evaluating the rule raises.  The rule still
    gets at least one result. *)
Theorem warning_rule_never_fails (rule check_type : yaml)
    (model : ModelData.t) (log : list log_record) :
  Yaml.item rule "severity" = Ok (YStr "warning") ->
  Yaml.get rule "check_type" (YStr "") = Ok check_type ->
  Yaml.eq_str check_type "custom" = false ->
  exists out,
    fst (evaluate inherited py_str yaml_str
           (mk_engine [rule]) model log) = Ok out
    /\ out <> []
    /\ forall r, In r out -> RuleResult.status r <> FAIL.
Proof.
  intros Hsev Hct Hcustom.
  assert (Hm : is_mapping rule = true)
    by (eapply item_ok_mapping; exact Hsev).
  exists (results_of inherited py_str yaml_str rule model).
  split; [|split].
  - rewrite evaluate_mk_engine, evaluate_loop_results
      by (cbn [forallb]; rewrite Hm; reflexivity).
    cbn [flat_map app]. rewrite app_nil_r. reflexivity.
  - apply results_of_nonempty. exact Hm.
  - intros r. eapply results_of_warning; eassumption.
Qed.

End GenericChecks.

Lemma evaluate_rule_exists_witness :
  _evaluate_rule no_inherited sample_py_str sample_yaml_str
    (YMap (sample_dict "error" "exists" "plan.encroachment.target_surcharge"
             []))
    (plan_model (sample_plan true 4 [dec 1 1]))
  = Ok (map (fun vl =>
               match fst vl with
               | PNone =>
                   result_for
                     (sample_dict "error" "exists"
                        "plan.encroachment.target_surcharge" [])
                     SKIPPED "" "" "Value is None" (snd vl)
               | v =>
                   result_for
                     (sample_dict "error" "exists"
                        "plan.encroachment.target_surcharge" [])
                     PASS (sample_py_str v) "present" "Value is present."
                     (snd vl)
               end) [(PFloat (dec 1 1), "")]).
Proof.
  apply (evaluate_rule_exists no_inherited sample_py_str sample_yaml_str
           (sample_dict "error" "exists" "plan.encroachment.target_surcharge"
              [])
           (plan_model (sample_plan true 4 [dec 1 1]))
           "plan.encroachment.target_surcharge" [(PFloat (dec 1 1), "")]);
    try discriminate; vm_compute; reflexivity.
Defined.

Lemma check_exact_spec_witness :
  _check_exact sample_py_str sample_yaml_str
    (YMap (sample_dict "warning" "exact" "plan.encroachment.method"
             [("value", YInt 4)]))
    (PInt 1) ""
  = Ok (result_for
          (sample_dict "warning" "exact" "plan.encroachment.method"
             [("value", YInt 4)])
          WARNING "1" "4" "Value 1 does not match expected 4." "").
Proof.
  apply (check_exact_spec sample_py_str sample_yaml_str
           (sample_dict "warning" "exact" "plan.encroachment.method"
              [("value", YInt 4)])
           (PInt 1) "" (YMap [("value", YInt 4)]) (YInt 4));
    vm_compute; reflexivity.
Defined.

Lemma evaluate_rule_unknown_check_type_witness :
  _evaluate_rule no_inherited sample_py_str sample_yaml_str
    (YMap (sample_dict "error" "regex" "plan.title" []))
    (plan_model (sample_plan true 4 [dec 1 1]))
  = Ok (map (fun vl =>
               result_for (sample_dict "error" "regex" "plan.title" [])
                 SKIPPED "" ""
                 match fst vl with
                 | PNone => "Value is None"
                 | _ => "Unknown check_type: "
                        ++ sample_yaml_str (YStr "regex")
                 end (snd vl)) [(PStr "Test plan", "")]).
Proof.
  apply (evaluate_rule_unknown_check_type no_inherited sample_py_str
           sample_yaml_str
           (sample_dict "error" "regex" "plan.title" [])
           (plan_model (sample_plan true 4 [dec 1 1]))
           (YStr "regex") "plan.title" [(PStr "Test plan", "")]);
    try discriminate; vm_compute; reflexivity.
Defined.

Lemma evaluate_rule_unknown_handler_witness :
  _evaluate_rule no_inherited sample_py_str sample_yaml_str
    (YMap (sample_dict "error" "custom" ""
             [("handler", YStr "check_freeboard")]))
    (sample_model three_regions)
  = Ok [result_for
          (sample_dict "error" "custom" ""
             [("handler", YStr "check_freeboard")])
          SKIPPED "" ""
          ("Unknown handler: " ++ sample_yaml_str (YStr "check_freeboard"))
          ""].
Proof.
  apply (evaluate_rule_unknown_handler no_inherited sample_py_str
           sample_yaml_str
           (sample_dict "error" "custom" ""
              [("handler", YStr "check_freeboard")])
           (sample_model three_regions)
           (YMap [("handler", YStr "check_freeboard")])
           (YStr "check_freeboard"));
    try (vm_compute; reflexivity).
  intros s Hs. inversion Hs; subst s. simpl.
  intros [H|[H|[H|[H|[]]]]]; discriminate H.
Defined.

Lemma warning_rule_never_fails_witness :
  exists out,
    fst (evaluate no_inherited sample_py_str sample_yaml_str
           (mk_engine [manning_range_rule "warning"])
           (sample_model [ManningRegion.mk (dec 5 1000) (PyNum.of_Z 0)]) [])
    = Ok out
    /\ out <> []
    /\ forall r, In r out -> RuleResult.status r <> FAIL.
Proof.
  apply (warning_rule_never_fails no_inherited sample_py_str sample_yaml_str
           (manning_range_rule "warning") (YStr "range")
           (sample_model [ManningRegion.mk (dec 5 1000) (PyNum.of_Z 0)]) []);
    vm_compute; reflexivity.
Defined.

(** ** Custom rules through the engine *)

Lemma make_result_dict (d : dict) (status : yaml) (a e m : string) :
  has_keys d = true ->
  _make_result (YMap d) status a e m = Ok (raw_for d status a e m).
Proof.
  intros Hk. destruct (has_keys_items d Hk) as (Hid & Hname & Hsev & Hcit).
  unfold _make_result. rewrite Hid, Hname, Hsev, Hcit. reflexivity.
Qed.

Lemma of_raw_raw_for (d : dict) (status : yaml) (a e m : string) :
  of_raw (YMap d) (raw_for d status a e m) = Ok (result_for d status a e m "").
Proof.
  unfold of_raw. rewrite (get_YMap d "citation_url" (YStr "")). reflexivity.
Qed.

Section CustomRules.

Variable inherited : pyval -> string -> exc pyval.
Variable py_str : pyval -> string.
Variable yaml_str : yaml -> string.

Lemma evaluate_rule_custom (d ps : dict) (model : ModelData.t)
    (name : string) (h : handler) :
  dict_get d "check_type" (YStr "") = YStr "custom" ->
  dict_get d "parameters" (YMap []) = YMap ps ->
  dict_get ps "handler" (YStr "") = YStr name ->
  assoc name HANDLER_REGISTRY = Some h ->
  _evaluate_rule inherited py_str yaml_str (YMap d) model
  = (raw_results <- h (YMap d) model ;; mapM (of_raw (YMap d)) raw_results).
Proof.
  intros Hct Hp Hh Hreg. unfold _evaluate_rule. rewrite get_YMap, Hct.
  cbn [bind]. change (Yaml.eq_str (YStr "custom") "custom") with true.
  cbv iota. unfold _run_custom. rewrite get_YMap, Hp. cbn [bind].
  rewrite get_YMap, Hh. cbn [bind registry_get]. rewrite Hreg. reflexivity.
Qed.

(** X10: a custom rule (carrying id, name, severity and citation) bound to
    the boundary-condition handler yields exactly one result, with an empty
    location and the rule's citation URL: SKIPPED when no flow file is
    loaded; otherwise PASS when the flow file has at least one boundary
    entry of its own kind (steady entries for a steady file, unsteady
    entries otherwise) and FAIL when it has none, entries of the other kind
    not being counted. *)
Theorem evaluate_rule_boundary_conditions (d ps : dict)
    (model : ModelData.t) :
  has_keys d = true ->
  dict_get d "check_type" (YStr "") = YStr "custom" ->
  dict_get d "parameters" (YMap []) = YMap ps ->
  dict_get ps "handler" (YStr "")
  = YStr "check_boundary_conditions_defined" ->
  _evaluate_rule inherited py_str yaml_str (YMap d) model
  = Ok [match ModelData.flow model with
        | None =>
            result_for d SKIPPED "no flow data" "boundary conditions defined"
              "No flow file loaded; cannot check boundary conditions." ""
        | Some flow =>
            let count := PyStr.of_nat (boundary_count flow) in
            let kind := boundary_kind flow in
            if (0 <? boundary_count flow)%nat
            then result_for d PASS
                   (count ++ " " ++ kind ++ " boundary conditions")
                   "at least 1 boundary condition"
                   (count ++ " " ++ kind ++ " boundary condition(s) defined.")
                   ""
            else result_for d FAIL
                   ("0 " ++ kind ++ " boundary conditions")
                   "at least 1 boundary condition"
                   ("No " ++ kind
                    ++ " boundary conditions found. Every reach endpoint "
                    ++ "must have an assigned boundary condition.") ""
        end].
Proof.
  intros Hk Hct Hp Hh.
  rewrite (evaluate_rule_custom d ps model
             "check_boundary_conditions_defined"
             check_boundary_conditions_defined Hct Hp Hh eq_refl).
  destruct (has_keys_items d Hk) as (Hid & Hname & Hsev & Hcit).
  unfold check_boundary_conditions_defined, boundary_count, boundary_kind.
  destruct (ModelData.flow model) as [flow|].
  - destruct (FlowFile.is_steady flow); cbv zeta iota beta;
      rewrite Hid, Hname, Hsev; cbn [bind];
      match goal with
      | |- context [(0 <? ?n)%nat] => destruct (0 <? n)%nat
      end;
      rewrite Hcit; cbn [bind mapM];
      match goal with
      | |- context [of_raw _ ?raw] =>
          match raw with
          | context [("status", ?st)] =>
              match raw with
              | context [("actual_value", YStr ?a)] =>
                  match raw with
                  | context [("expected_value", YStr ?e)] =>
                      match raw with
                      | context [("message", YStr ?m)] =>
                          change raw with (raw_for d st a e m)
                      end
                  end
              end
          end
      end;
      rewrite of_raw_raw_for; reflexivity.
  - rewrite Hid, Hname, Hsev, Hcit. cbn [bind mapM].
    change (of_raw (YMap d) _)
      with (of_raw (YMap d)
              (raw_for d SKIPPED "no flow data" "boundary conditions defined"
                 "No flow file loaded; cannot check boundary conditions.")).
    rewrite of_raw_raw_for. reflexivity.
Qed.

(** X11: a custom rule (carrying id, name, severity and citation) bound to
    the profile handler whose parameters hold no [accepted_names]: without a
    flow file it is SKIPPED ("no flow data"); with a flow file that has no
    profiles it is SKIPPED ("no profiles", empty expected value); with a
    flow file that has profiles the handler raises [KeyError], which
    [evaluate] turns into the single internal-error SKIPPED result. *)
Theorem profile_rule_without_accepted_names (d ps : dict)
    (model : ModelData.t) (name : string) (log : list log_record) :
  has_keys d = true ->
  dict_get d "check_type" (YStr "") = YStr "custom" ->
  assoc "parameters" d = Some (YMap ps) ->
  dict_get ps "handler" (YStr "") = YStr name ->
  name = "check_profile_exists" \/ name = "check_100yr_profile_exists" ->
  assoc "accepted_names" ps = None ->
  match ModelData.flow model with
  | None =>
      _evaluate_rule inherited py_str yaml_str (YMap d) model
      = Ok [result_for d SKIPPED "no flow data" ""
              "No flow file loaded; cannot check profile names." ""]
  | Some flow =>
      match FlowFile.profile_names flow with
      | [] =>
          _evaluate_rule inherited py_str yaml_str (YMap d) model
          = Ok [result_for d SKIPPED "no profiles" ""
                  "Flow file contains no profiles." ""]
      | _ :: _ =>
          _evaluate_rule inherited py_str yaml_str
            (YMap d) model = Raise KeyError
          /\ fst (evaluate inherited py_str yaml_str
                    (mk_engine [YMap d]) model log)
             = Ok [result_for d SKIPPED "" ""
                     "Internal error evaluating rule." ""]
      end
  end.
Proof.
  intros Hk Hct Hp Hh Hname Hnone.
  assert (Hp' : dict_get d "parameters" (YMap []) = YMap ps)
    by (unfold dict_get; rewrite Hp; reflexivity).
  assert (Hreg : assoc name HANDLER_REGISTRY = Some check_profile_exists)
    by (destruct Hname as [-> | ->]; reflexivity).
  rewrite (evaluate_mk_engine inherited py_str yaml_str).
  cbn [evaluate_loop].
  rewrite (evaluate_rule_custom d ps model name check_profile_exists
             Hct Hp' Hh Hreg).
  unfold check_profile_exists.
  destruct (ModelData.flow model) as [flow|].
  - cbn [Yaml.item]. rewrite Hp. cbn [bind Yaml.get]. rewrite Hnone.
    cbn [bind lower_all Yaml.iter mapM].
    destruct (FlowFile.profile_names flow) as [|pn pns].
    + cbn [bind Yaml.join Yaml.iter mapM PyStr.join String.concat].
      rewrite (make_result_dict d _ _ _ _ Hk). cbn [bind mapM].
      rewrite of_raw_raw_for. reflexivity.
    + cbn [Yaml.item]. rewrite Hnone. cbn [bind].
      split; [reflexivity|].
      unfold internal_error, result_for, dict_get, has_keys, has_key in *.
      cbn [Yaml.get].
      destruct (assoc "id" d); [|discriminate Hk].
      destruct (assoc "name" d); [|discriminate Hk].
      destruct (assoc "severity" d); [|discriminate Hk].
      destruct (assoc "citation" d); [|discriminate Hk].
      destruct (assoc "citation_url" d); reflexivity.
  - rewrite (make_result_dict d _ _ _ _ Hk). cbn [bind mapM].
    rewrite of_raw_raw_for. reflexivity.
Qed.

End CustomRules.

Lemma evaluate_rule_boundary_conditions_witness :
  _evaluate_rule no_inherited sample_py_str sample_yaml_str
    (YMap (sample_dict "error" "custom" ""
             [("handler", YStr "check_boundary_conditions_defined")]))
    bounded_model
  = Ok [result_for
          (sample_dict "error" "custom" ""
             [("handler", YStr "check_boundary_conditions_defined")])
          PASS "2 steady boundary conditions" "at least 1 boundary condition"
          "2 steady boundary condition(s) defined." ""].
Proof.
  exact (evaluate_rule_boundary_conditions no_inherited sample_py_str
           sample_yaml_str
           (sample_dict "error" "custom" ""
              [("handler", YStr "check_boundary_conditions_defined")])
           [("handler", YStr "check_boundary_conditions_defined")]
           bounded_model eq_refl eq_refl eq_refl eq_refl).
Defined.

Lemma profile_rule_without_accepted_names_witness :
  _evaluate_rule no_inherited sample_py_str sample_yaml_str
    (YMap (sample_dict "error" "custom" ""
             [("handler", YStr "check_profile_exists")]))
    (flow_model ["100yr"])
  = Raise KeyError
  /\ fst (evaluate no_inherited sample_py_str sample_yaml_str
            (mk_engine
               [YMap (sample_dict "error" "custom" ""
                        [("handler", YStr "check_profile_exists")])])
            (flow_model ["100yr"]) [])
     = Ok [result_for
             (sample_dict "error" "custom" ""
                [("handler", YStr "check_profile_exists")])
             SKIPPED "" "" "Internal error evaluating rule." ""].
Proof.
  exact (profile_rule_without_accepted_names no_inherited sample_py_str
           sample_yaml_str
           (sample_dict "error" "custom" ""
              [("handler", YStr "check_profile_exists")])
           [("handler", YStr "check_profile_exists")]
           (flow_model ["100yr"]) "check_profile_exists" []
           eq_refl eq_refl eq_refl eq_refl (or_introl eq_refl) eq_refl).
Defined.

(** ** Rule loading: the baseline alone, overlay selection, defaults *)

Lemma lower_empty (s : string) :
  String.eqb (PyStr.lower s) "" = String.eqb s "".
Proof. destruct s; reflexivity. Qed.

Lemma or_empty_falsy (y : yaml) :
  Yaml.truthy y = false -> or_empty y = YSeq [].
Proof. unfold or_empty. intros ->. reflexivity. Qed.

Section LoaderEdges.

Variable path : Type.
Variable _FEMA_RULES : path.
Variable state_file : string -> path.
Variable fs : path -> option (exc yaml).

(** X12: without a region and without an overlay path, [load_rules] touches
    only the baseline file: it raises [FileNotFoundError] when that file is
    missing, returns the empty list when the file has no [rules] key, and
    otherwise returns the [rules] list as it stands - whatever the items
    are, with or without identifiers.  The empty region name counts as no
    region. *)
Theorem load_rules_without_overlay (state : option string)
    (fema_path : option path) :
  state = None \/ state = Some "" ->
  (fs (baseline_file path _FEMA_RULES fema_path) = None ->
   load_rules path _FEMA_RULES state_file fs state fema_path None
   = Raise FileNotFoundError)
  /\ (forall fd,
        fs (baseline_file path _FEMA_RULES fema_path) = Some (Ok (YMap fd)) ->
        assoc "rules" fd = None ->
        load_rules path _FEMA_RULES state_file fs state fema_path None
        = Ok [])
  /\ (forall fd baseline,
        fs (baseline_file path _FEMA_RULES fema_path) = Some (Ok (YMap fd)) ->
        assoc "rules" fd = Some (YSeq baseline) ->
        load_rules path _FEMA_RULES state_file fs state fema_path None
        = Ok baseline).
Proof.
  intros Hstate.
  assert (Hov : overlay_file path state_file state None = None)
    by (destruct Hstate as [-> | ->]; reflexivity).
  unfold load_rules, read_yaml. rewrite Hov.
  split; [|split].
  - intros ->. reflexivity.
  - intros fd -> Hr. cbn [bind Yaml.get]. rewrite Hr. reflexivity.
  - intros fd baseline -> Hr. cbn [bind Yaml.get]. rewrite Hr. reflexivity.
Qed.

(** X13: the overlay is selected by the lower-cased region name, so two
    names that differ only in letter case load the same rules; and an
    explicit overlay path takes precedence: the region name is then
    ignored. *)
Theorem load_rules_overlay_selection (s t : string)
    (fema_path : option path) :
  PyStr.lower s = PyStr.lower t ->
  load_rules path _FEMA_RULES state_file fs (Some s) fema_path None
  = load_rules path _FEMA_RULES state_file fs (Some t) fema_path None
  /\ forall p,
       load_rules path _FEMA_RULES state_file fs (Some s) fema_path (Some p)
       = load_rules path _FEMA_RULES state_file fs None fema_path (Some p).
Proof.
  intros Hl. split; [|reflexivity].
  assert (Hov : overlay_file path state_file (Some s) None
                = overlay_file path state_file (Some t) None).
  { unfold overlay_file.
    rewrite <- (lower_empty s), <- (lower_empty t), Hl. reflexivity. }
  unfold load_rules. rewrite Hov. reflexivity.
Qed.

(** X14: an overlay file whose [supersedes] entry is absent, null or empty
    removes nothing: the baseline rules are all kept, in order, with no
    identifier looked up, and the overlay's [rules] are appended - none when
    that entry is absent, null or empty as well. *)
Theorem load_rules_overlay_defaults (state : option string)
    (fema_path state_path : option path) (st_file : path)
    (fd sd : dict) (baseline : list yaml) :
  fs (baseline_file path _FEMA_RULES fema_path) = Some (Ok (YMap fd)) ->
  assoc "rules" fd = Some (YSeq baseline) ->
  overlay_file path state_file state state_path = Some st_file ->
  fs st_file = Some (Ok (YMap sd)) ->
  Yaml.truthy (dict_get sd "supersedes" (YSeq [])) = false ->
  (Yaml.truthy (dict_get sd "rules" (YSeq [])) = false ->
   load_rules path _FEMA_RULES state_file fs state fema_path state_path
   = Ok baseline)
  /\ (forall overlay,
        assoc "rules" sd = Some (YSeq overlay) ->
        load_rules path _FEMA_RULES state_file fs state fema_path state_path
        = Ok (baseline ++ overlay)%list).
Proof.
  intros Hf Hrules Hov Hs Hsup.
  unfold load_rules, read_yaml, exists_. rewrite Hf. cbn [bind Yaml.get].
  rewrite Hrules. cbn [bind Yaml.iter]. rewrite Hov, Hs.
  cbn [bind]. rewrite !get_YMap. cbn [bind].
  rewrite (or_empty_falsy _ Hsup). cbn [py_set Yaml.iter bind forallb].
  split.
  - intros Hr. rewrite (or_empty_falsy _ Hr). cbn [Yaml.iter bind].
    rewrite app_nil_r. reflexivity.
  - intros overlay Hr. unfold dict_get. rewrite Hr.
    unfold or_empty. destruct overlay; cbn [Yaml.truthy Yaml.iter bind];
      reflexivity.
Qed.

Lemma drop_superseded_without_id (supersedes before after : list yaml)
    (rd : dict) :
  forallb has_id before = true ->
  assoc "id" rd = None ->
  drop_superseded supersedes (before ++ YMap rd :: after)%list
  = Raise KeyError.
Proof.
  intros Hb Hid. induction before as [|r before IH].
  - cbn [app drop_superseded Yaml.item]. rewrite Hid. reflexivity.
  - cbn [forallb] in Hb. apply andb_true_iff in Hb. destruct Hb as [Hr Hb].
    cbn [app drop_superseded]. unfold has_id in Hr.
    destruct (Yaml.item r "id") as [rid|]; [|discriminate].
    cbn [bind]. unfold set_mem. rewrite Hr. cbn [bind].
    rewrite (IH Hb). reflexivity.
Qed.

(** X15: when the overlay supersedes at least one identifier, every
    baseline rule is asked for its [id]: a baseline rule without identifier
    (the rules before it having one) makes [load_rules] raise [KeyError],
    whether or not anything would have been removed. *)
Theorem load_rules_rule_without_id (state : option string)
    (fema_path state_path : option path) (st_file : path)
    (fd sd rd : dict) (before after supersedes : list yaml) :
  fs (baseline_file path _FEMA_RULES fema_path) = Some (Ok (YMap fd)) ->
  assoc "rules" fd = Some (YSeq (before ++ YMap rd :: after)%list) ->
  forallb has_id before = true ->
  assoc "id" rd = None ->
  overlay_file path state_file state state_path = Some st_file ->
  fs st_file = Some (Ok (YMap sd)) ->
  assoc "supersedes" sd = Some (YSeq supersedes) ->
  supersedes <> [] ->
  forallb Yaml.hashable supersedes = true ->
  load_rules path _FEMA_RULES state_file fs state fema_path state_path
  = Raise KeyError.
Proof.
  intros Hf Hrules Hb Hid Hov Hs Hsup Hne Hhash.
  unfold load_rules, read_yaml, exists_. rewrite Hf. cbn [bind Yaml.get].
  rewrite Hrules. cbn [bind Yaml.iter]. rewrite Hov, Hs.
  cbn [bind Yaml.get]. rewrite Hsup. cbn [bind].
  destruct supersedes as [|s0 sup]; [congruence|].
  unfold or_empty. cbn [Yaml.truthy py_set Yaml.iter bind].
  rewrite Hhash. cbn [bind].
  rewrite (drop_superseded_without_id _ _ _ _ Hb Hid). reflexivity.
Qed.

End LoaderEdges.

Lemma load_rules_without_overlay_witness :
  load_rules string "config/fema_rules.yaml" sample_state_file sample_fs
    (Some "") None None
  = Ok sample_baseline.
Proof.
  destruct (load_rules_without_overlay string "config/fema_rules.yaml"
              sample_state_file sample_fs (Some "") None
              (or_intror eq_refl)) as (_ & _ & H).
  apply (H [("rules", YSeq sample_baseline)]); reflexivity.
Defined.

Lemma load_rules_overlay_selection_witness :
  load_rules string "config/fema_rules.yaml" sample_state_file sample_fs
    (Some "Texas") None None
  = load_rules string "config/fema_rules.yaml" sample_state_file sample_fs
      (Some "TEXAS") None None.
Proof.
  apply (load_rules_overlay_selection string "config/fema_rules.yaml"
           sample_state_file sample_fs "Texas" "TEXAS" None).
  vm_compute. reflexivity.
Defined.

Lemma load_rules_overlay_defaults_witness :
  load_rules string "config/fema_rules.yaml" sample_state_file anonymous_fs
    (Some "maine") None None
  = Ok [named_rule "FEMA-MANN-001"; anonymous_rule; named_rule "FEMA-BC-001";
        named_rule "ME-FW-001"].
Proof.
  destruct (load_rules_overlay_defaults string "config/fema_rules.yaml"
              sample_state_file anonymous_fs (Some "maine") None None
              "config/states/maine.yaml"
              [("rules", YSeq [named_rule "FEMA-MANN-001"; anonymous_rule;
                               named_rule "FEMA-BC-001"])]
              [("supersedes", YNull);
               ("rules", YSeq [named_rule "ME-FW-001"])]
              [named_rule "FEMA-MANN-001"; anonymous_rule;
               named_rule "FEMA-BC-001"]
              eq_refl eq_refl eq_refl eq_refl eq_refl) as [_ H].
  apply (H [named_rule "ME-FW-001"]). reflexivity.
Defined.

Lemma load_rules_rule_without_id_witness :
  load_rules string "config/fema_rules.yaml" sample_state_file anonymous_fs
    (Some "texas") None None
  = Raise KeyError.
Proof.
  apply (load_rules_rule_without_id string "config/fema_rules.yaml"
           sample_state_file anonymous_fs (Some "texas") None None
           "config/states/texas.yaml"
           [("rules", YSeq [named_rule "FEMA-MANN-001"; anonymous_rule;
                            named_rule "FEMA-BC-001"])]
           [("supersedes", YSeq [YStr "FEMA-FW-001"]);
            ("rules", YSeq [named_rule "TX-FW-001"])]
           [("name", YStr "No identifier"); ("severity", YStr "error");
            ("citation", YStr "Guidance 1.2"); ("check_type", YStr "exists");
            ("applies_to", YStr "plan.title")]
           [named_rule "FEMA-MANN-001"] [named_rule "FEMA-BC-001"]
           [YStr "FEMA-FW-001"]);
    try discriminate; reflexivity.
Defined.

(** ** The log of [evaluate] *)

Section Log.

Variable inherited : pyval -> string -> exc pyval.
Variable py_str : pyval -> string.
Variable yaml_str : yaml -> string.

Lemma evaluate_loop_log (rules : list yaml) (model : ModelData.t)
    (results : list RuleResult.t) (log : list log_record) :
  forallb is_mapping rules = true ->
  snd (evaluate_loop inherited py_str yaml_str rules model results log)
  = (log ++ flat_map (fun rule => log_of inherited py_str yaml_str rule model)
              rules)%list.
Proof.
  revert results log.
  induction rules as [|rule rest IH]; cbn [evaluate_loop flat_map forallb];
    intros results log Hm.
  - rewrite app_nil_r. reflexivity.
  - apply andb_true_iff in Hm. destruct Hm as [Hrule Hrest].
    unfold log_of at 1.
    destruct (_evaluate_rule inherited py_str yaml_str rule model) as [rs|e].
    + rewrite IH by exact Hrest. reflexivity.
    + destruct (get_mapping rule "id" (YStr "?") Hrule) as [rid ->].
      destruct (internal_error_mapping rule Hrule) as (r & -> & _).
      rewrite IH by exact Hrest. rewrite <- app_assoc. reflexivity.
Qed.

(** X16: for every list of rule mappings, [evaluate] logs exactly one
    warning for each rule whose evaluation raises - carrying that rule's
    identifier ("?" when it has none) and the exception - in rule order,
    after what the log already held; rules that evaluate normally log
    nothing, so the log grows by at most one record per rule. *)
Theorem evaluate_log_records (rules : list yaml) (model : ModelData.t)
    (log : list log_record) :
  forallb is_mapping rules = true ->
  snd (evaluate inherited py_str yaml_str (mk_engine rules) model log)
  = (log ++ flat_map (fun rule => log_of inherited py_str yaml_str rule model)
              rules)%list
  /\ (List.length (snd (evaluate inherited py_str yaml_str
                          (mk_engine rules) model log))
      <= List.length log + List.length rules)%nat
  /\ ((forall rule, In rule rules ->
        is_ok (_evaluate_rule inherited py_str yaml_str rule model) = true) ->
      snd (evaluate inherited py_str yaml_str
             (mk_engine rules) model log) = log).
Proof.
  intros Hm. rewrite evaluate_mk_engine, (evaluate_loop_log _ _ _ _ Hm).
  split; [reflexivity|]. split.
  - rewrite length_app. apply Nat.add_le_mono_l.
    clear Hm. induction rules as [|rule rest IH]; [apply Nat.le_refl|].
    cbn [flat_map List.length]. rewrite length_app.
    assert (Hone : (List.length (log_of inherited py_str yaml_str
                                   rule model) <= 1)%nat).
    { unfold log_of.
      destruct (_evaluate_rule inherited py_str yaml_str rule model);
        [apply Nat.le_0_l|].
      destruct (Yaml.get rule "id" (YStr "?")); cbn [List.length]; lia. }
    lia.
  - intros Hok.
    assert (Hnil : flat_map (fun rule => log_of inherited py_str yaml_str
                                           rule model)
                     rules = []).
    { clear Hm. induction rules as [|rule rest IH]; [reflexivity|].
      cbn [flat_map]. rewrite IH by (intros x Hx; apply Hok; right; exact Hx).
      unfold log_of. specialize (Hok rule (or_introl eq_refl)).
      destruct (_evaluate_rule inherited py_str yaml_str rule model);
        [reflexivity | discriminate Hok]. }
    rewrite Hnil. apply app_nil_r.
Qed.

End Log.

Lemma evaluate_log_records_witness :
  snd (evaluate no_inherited sample_py_str sample_yaml_str
         (mk_engine mixed_rules)
         (sample_model three_regions) [])
  = ([] ++ flat_map (fun rule =>
                       log_of no_inherited sample_py_str sample_yaml_str rule
                         (sample_model three_regions)) mixed_rules)%list.
Proof.
  apply (evaluate_log_records no_inherited sample_py_str sample_yaml_str
           mixed_rules
           (sample_model three_regions) []).
  vm_compute. reflexivity.
Defined.

Example mixed_rules_log :
  snd (evaluate no_inherited sample_py_str sample_yaml_str
         (mk_engine mixed_rules)
         (sample_model three_regions) [])
  = [mk_log (YStr "BAD-001") KeyError].
Proof. vm_compute. reflexivity. Qed.

(** ** The floodway surcharge, from the plan to the engine *)

Section Surcharge.

Variable inherited : pyval -> string -> exc pyval.
Variable py_str : pyval -> string.

(** X17: the path "plan.encroachment.target_surcharge" resolves, on a model
    with a plan, to a single pair that holds the first encroachment value
    exactly when encroachment is enabled with method 4 or 5 and at least one
    value is present, and holds None in every other case (so that a rule on
    it is skipped, not failed, for a plan that is no floodway analysis). *)
Theorem resolve_target_surcharge (model : ModelData.t) (p : PlanFile.t) :
  ModelData.plan model = Some p ->
  let enc := PlanFile.encroachment p in
  exists val,
    _resolve_values inherited py_str
      model (YStr "plan.encroachment.target_surcharge")
    = Ok [(val, "")]
    /\ (forall v,
          val = PFloat v
          <-> EncroachmentSettings.enabled enc = true
              /\ (EncroachmentSettings.method enc = 4%Z
                  \/ EncroachmentSettings.method enc = 5%Z)
              /\ exists rest, EncroachmentSettings.values enc = v :: rest)
    /\ (val = PNone \/ exists v, val = PFloat v).
Proof.
  intros Hp enc.
  exists (p_opt PFloat (EncroachmentSettings.target_surcharge enc)).
  split.
  - unfold _resolve_values, _getattr_path.
    change (PyStr.contains "[]" "plan.encroachment.target_surcharge")
      with false.
    change (PyStr.split "." "plan.encroachment.target_surcharge")
      with ["plan"; "encroachment"; "target_surcharge"].
    cbn [walk].
    change (getattr_or_None inherited (PObj (OModelData model)) "plan")
      with (Ok (p_opt (fun g => P (OPlanFile g)) (ModelData.plan model))).
    rewrite Hp. cbn [bind p_opt]. unfold P.
    change (getattr_or_None inherited (PObj (OPlanFile p)) "encroachment")
      with (Ok (PObj (OEncroachmentSettings (PlanFile.encroachment p)))).
    cbn [bind].
    change (getattr_or_None inherited
              (PObj (OEncroachmentSettings (PlanFile.encroachment p)))
              "target_surcharge")
      with (Ok (p_opt PFloat
                  (EncroachmentSettings.target_surcharge
                     (PlanFile.encroachment p)))).
    cbn [bind]. fold enc.
    destruct (EncroachmentSettings.target_surcharge enc); reflexivity.
  - unfold EncroachmentSettings.target_surcharge,
      EncroachmentSettings.is_floodway.
    destruct (EncroachmentSettings.enabled enc);
      destruct (EncroachmentSettings.values enc) as [|v0 rest];
      destruct (Z.eqb_spec (EncroachmentSettings.method enc) 4) as [H4|H4];
      destruct (Z.eqb_spec (EncroachmentSettings.method enc) 5) as [H5|H5];
      cbn [andb orb p_opt]; (split; [|eauto]); intros v; split;
      try discriminate;
      try (intros (He & Hm & rest' & Hv); first
             [discriminate He | discriminate Hv
             | destruct Hm; contradiction
             | inversion Hv; reflexivity]);
      try (intros Hv; inversion Hv; subst; repeat split; eauto).
Qed.

End Surcharge.

Lemma resolve_target_surcharge_witness :
  exists val,
    _resolve_values no_inherited sample_py_str
      (plan_model (sample_plan true 4 [dec 1 1]))
      (YStr "plan.encroachment.target_surcharge")
    = Ok [(val, "")]
    /\ (forall v,
          val = PFloat v
          <-> true = true
              /\ (4%Z = 4%Z \/ 4%Z = 5%Z)
              /\ exists rest, [dec 1 1] = v :: rest)
    /\ (val = PNone \/ exists v, val = PFloat v).
Proof.
  exact (resolve_target_surcharge no_inherited sample_py_str
           (plan_model (sample_plan true 4 [dec 1 1]))
           (sample_plan true 4 [dec 1 1]) eq_refl).
Defined.

(** ** The properties of the geometry classes *)

Lemma first_region_from_skip (left_bank : PyNum.float)
    (before rest : list ManningRegion.t) :
  (forall b, In b before ->
     PyNum.fle left_bank (ManningRegion.start_station b) = false) ->
  CrossSection.first_region_from left_bank (before ++ rest)%list
  = CrossSection.first_region_from left_bank rest.
Proof.
  induction before as [|b before IH]; intros H; [reflexivity|].
  cbn [app CrossSection.first_region_from].
  rewrite (H b (or_introl eq_refl)). apply IH.
  intros x Hx. apply H. right. exact Hx.
Qed.

Lemma first_region_from_In (left_bank n : PyNum.float)
    (regions : list ManningRegion.t) :
  CrossSection.first_region_from left_bank regions = Some n ->
  exists r, In r regions /\ ManningRegion.n_value r = n.
Proof.
  induction regions as [|r regions IH]; cbn [CrossSection.first_region_from];
    [discriminate|].
  destruct (PyNum.fle left_bank (ManningRegion.start_station r)).
  - intros H. inversion H. exists r. split; [left|]; reflexivity.
  - intros H. destruct (IH H) as (r' & Hin & Hn).
    exists r'. split; [right; exact Hin | exact Hn].
Qed.

Lemma last_In {A : Type} (l : list A) (d : A) : In (last l d) (d :: l).
Proof.
  induction l as [|a l IH]; [left; reflexivity|].
  destruct l as [|b l]; [right; left; reflexivity|].
  change (last (a :: b :: l) d) with (last (b :: l) d).
  destruct IH as [H|H]; [left; exact H | right; right; exact H].
Qed.

(** X18: the channel roughness of a cross-section.  It is None exactly when
    the cross-section has no Manning region or no bank stations; otherwise
    it is the n value of one of the regions: of the first region that starts
    at or after the left bank station, and of the last region (the right
    overbank value) when no region does. *)
Theorem manning_n_channel_spec (x : CrossSection.t) :
  (CrossSection.manning_n_channel x = None
   <-> CrossSection.manning_regions x = []
       \/ CrossSection.bank_stations x = None)
  /\ (forall n,
        CrossSection.manning_n_channel x = Some n ->
        exists r, In r (CrossSection.manning_regions x)
                  /\ ManningRegion.n_value r = n)
  /\ (forall bank before r after,
        CrossSection.bank_stations x = Some bank ->
        CrossSection.manning_regions x = (before ++ r :: after)%list ->
        (forall b, In b before ->
           PyNum.fle (BankStations.left bank) (ManningRegion.start_station b)
           = false) ->
        PyNum.fle (BankStations.left bank) (ManningRegion.start_station r)
        = true ->
        CrossSection.manning_n_channel x = Some (ManningRegion.n_value r))
  /\ (forall bank,
        CrossSection.bank_stations x = Some bank ->
        (forall r, In r (CrossSection.manning_regions x) ->
           PyNum.fle (BankStations.left bank) (ManningRegion.start_station r)
           = false) ->
        CrossSection.manning_n_channel x = CrossSection.manning_n_right x).
Proof.
  unfold CrossSection.manning_n_channel, CrossSection.manning_n_right.
  destruct (CrossSection.manning_regions x) as [|r0 rs] eqn:Hregions.
  - split; [split; auto|]. split; [discriminate|]. split.
    + intros bank before r after _ H. destruct before; discriminate H.
    + intros bank Hb _. reflexivity.
  - destruct (CrossSection.bank_stations x) as [bank0|] eqn:Hbank.
    + split.
      { split.
        - destruct (CrossSection.first_region_from _ _); discriminate.
        - intros [H|H]; discriminate H. }
      split.
      { intros n.
        destruct (CrossSection.first_region_from (BankStations.left bank0)
                    (r0 :: rs)) as [n0|] eqn:Hf.
        - intros H. inversion H; subst n0.
          eapply first_region_from_In. exact Hf.
        - intros H. inversion H.
          exists (last rs r0). split; [apply last_In | reflexivity]. }
      split.
      { intros bank before r after Hb Hsplit Hbefore Hr.
        inversion Hb; subst bank0. rewrite Hsplit.
        rewrite (first_region_from_skip _ _ _ Hbefore).
        cbn [CrossSection.first_region_from]. rewrite Hr. reflexivity. }
      { intros bank Hb Hall. inversion Hb; subst bank0.
        rewrite <- (app_nil_r (r0 :: rs)).
        rewrite (first_region_from_skip _ _ [] Hall). reflexivity. }
    + split; [split; auto|]. split; [discriminate|]. split.
      * intros bank before r after H. discriminate H.
      * intros bank H. discriminate H.
Qed.

(** *** The order of the numbers *)

Lemma fin_compare_antisym (m1 e1 m2 e2 : Z) :
  PyNum.fin_compare m1 e1 m2 e2 = CompOpp (PyNum.fin_compare m2 e2 m1 e1).
Proof.
  unfold PyNum.fin_compare. cbv zeta. rewrite (Z.min_comm e2 e1).
  apply Z.compare_antisym.
Qed.

Lemma forallb_map_compose {A B : Type} (f : B -> bool) (g : A -> B)
    (l : list A) :
  forallb f (map g l) = forallb (fun x => f (g x)) l.
Proof.
  induction l as [|a l IH]; [reflexivity|]. cbn [map forallb].
  rewrite IH. reflexivity.
Qed.

Lemma leb_trans (a b c : PyNum.xreal) :
  PyNum.leb a b = true -> PyNum.leb b c = true -> PyNum.leb a c = true.
Proof.
  destruct a as [|sa|ma ea]; destruct b as [|sb|mb eb];
    destruct c as [|sc|mc ec];
    try destruct sa; try destruct sb; try destruct sc;
    try (intros H; discriminate H); try (intros _ H; discriminate H);
    try (intros _ _; reflexivity).
  rewrite !leb_finite_exact. apply Qle_trans.
Qed.

Lemma ltb_leb (a b : PyNum.xreal) :
  PyNum.ltb a b = true -> PyNum.leb a b = true.
Proof.
  unfold PyNum.ltb, PyNum.leb.
  destruct (PyNum.compare a b) as [[ | | ]|]; intros H;
    first [reflexivity | discriminate H].
Qed.

Lemma not_ltb_leb (a b : PyNum.xreal) :
  PyNum.is_nan a = false -> PyNum.is_nan b = false ->
  PyNum.ltb b a = false -> PyNum.leb a b = true.
Proof.
  destruct a as [|sa|ma ea]; destruct b as [|sb|mb eb];
    try destruct sa; try destruct sb;
    try (intros H; discriminate H); try (intros _ H; discriminate H);
    try (intros _ _ H; discriminate H); try (intros _ _ _; reflexivity).
  intros _ _. unfold PyNum.ltb, PyNum.leb. cbn [PyNum.compare].
  rewrite (fin_compare_antisym ma ea mb eb).
  destruct (PyNum.fin_compare mb eb ma ea); intros H;
    first [reflexivity | discriminate H].
Qed.

Lemma leb_refl (a : PyNum.xreal) :
  PyNum.is_nan a = false -> PyNum.leb a a = true.
Proof.
  destruct a as [|sa|ma ea]; try destruct sa; intros H;
    try discriminate H; try reflexivity.
  unfold PyNum.leb, PyNum.fin_compare. cbn [PyNum.compare].
  unfold PyNum.fin_compare. cbv zeta. rewrite Z.compare_refl. reflexivity.
Qed.

Lemma of_float_nan (f : PyNum.float) :
  PyNum.is_nan (PyNum.of_float f) = negb (not_nan f).
Proof. destruct f; reflexivity. Qed.

Lemma py_min_In (x : PyNum.float) (xs : list PyNum.float) :
  In (Bridge.py_min x xs) (x :: xs).
Proof.
  unfold Bridge.py_min. revert x.
  induction xs as [|y ys IH]; intros x; [left; reflexivity|].
  cbn [fold_left].
  destruct (IH (if PyNum.flt y x then y else x)) as [H|H].
  - rewrite <- H. destruct (PyNum.flt y x); [right; left | left]; reflexivity.
  - right. right. exact H.
Qed.

Lemma py_min_lower_bound (x : PyNum.float) (xs : list PyNum.float) :
  forallb not_nan (x :: xs) = true ->
  forall y, In y (x :: xs) -> PyNum.fle (Bridge.py_min x xs) y = true.
Proof.
  unfold Bridge.py_min. revert x.
  induction xs as [|z zs IH]; intros x Hn y Hy.
  - destruct Hy as [<-|[]]. cbn [fold_left forallb] in *.
    apply leb_refl. rewrite of_float_nan.
    apply andb_true_iff in Hn. destruct Hn as [-> _]. reflexivity.
  - cbn [fold_left]. cbn [forallb] in Hn.
    apply andb_true_iff in Hn. destruct Hn as [Hx Hn].
    apply andb_true_iff in Hn. destruct Hn as [Hz Hzs].
    set (cur := if PyNum.flt z x then z else x).
    assert (Hcur : forallb not_nan (cur :: zs) = true).
    { cbn [forallb]. rewrite Hzs. unfold cur.
      destruct (PyNum.flt z x); [rewrite Hz | rewrite Hx]; reflexivity. }
    pose proof (IH cur Hcur) as Hall. fold cur.
    assert (Hm : PyNum.fle (fold_left
                              (fun cur0 y0 =>
                                 if PyNum.flt y0 cur0 then y0 else cur0)
                              zs cur) cur = true)
      by (apply Hall; left; reflexivity).
    assert (Hcx : PyNum.fle cur x = true /\ PyNum.fle cur z = true).
    { unfold cur. destruct (PyNum.flt z x) eqn:Hlt.
      - split.
        + apply ltb_leb. exact Hlt.
        + apply leb_refl. rewrite of_float_nan, Hz. reflexivity.
      - split.
        + apply leb_refl. rewrite of_float_nan, Hx. reflexivity.
        + apply not_ltb_leb;
            [rewrite of_float_nan, Hx | rewrite of_float_nan, Hz | exact Hlt];
            reflexivity. }
    destruct Hy as [<-|[<-|Hy]].
    + eapply leb_trans; [exact Hm | apply Hcx].
    + eapply leb_trans; [exact Hm | apply Hcx].
    + apply Hall. right. exact Hy.
Qed.

(** X19: the lowest low chord of a bridge.  It is None exactly when the
    bridge has no deck or the deck has no points; otherwise it is the low
    chord of one of the deck points, and - provided no low chord is NaN -
    it is less than or equal to the low chord of every deck point. *)
Theorem min_low_chord_spec (b : Bridge.t) :
  (Bridge.min_low_chord b = None
   <-> Bridge.deck b = None
       \/ exists d, Bridge.deck b = Some d /\ BridgeDeck.points d = [])
  /\ (forall d m,
        Bridge.deck b = Some d ->
        Bridge.min_low_chord b = Some m ->
        (exists p, In p (BridgeDeck.points d) /\ DeckPoint.low_chord p = m)
        /\ (forallb (fun p => not_nan (DeckPoint.low_chord p))
                    (BridgeDeck.points d) = true ->
            forall p, In p (BridgeDeck.points d) ->
                      PyNum.fle m (DeckPoint.low_chord p) = true)).
Proof.
  unfold Bridge.min_low_chord.
  destruct (Bridge.deck b) as [d0|].
  - destruct (BridgeDeck.points d0) as [|p0 ps] eqn:Hpts.
    + split.
      * split; [intros _; right; exists d0; split; [reflexivity|exact Hpts]
               | reflexivity].
      * intros d m Hd H. discriminate H.
    + split.
      * split; [discriminate|].
        intros [H|(d & Hd & Hp)]; [discriminate H|].
        inversion Hd; subst d. rewrite Hpts in Hp. discriminate Hp.
      * intros d m Hd Hm. inversion Hd; subst d. inversion Hm; subst m.
        rewrite Hpts. split.
        -- pose proof (py_min_In (DeckPoint.low_chord p0)
                         (map DeckPoint.low_chord ps)) as Hin.
           change (DeckPoint.low_chord p0 :: map DeckPoint.low_chord ps)
             with (map DeckPoint.low_chord (p0 :: ps)) in Hin.
           apply in_map_iff in Hin. destruct Hin as (p & Hp & Hin).
           exists p. split; assumption.
        -- intros Hn p Hp.
           apply py_min_lower_bound.
           ++ change (DeckPoint.low_chord p0 :: map DeckPoint.low_chord ps)
                with (map DeckPoint.low_chord (p0 :: ps)).
              rewrite forallb_map_compose. exact Hn.
           ++ change (DeckPoint.low_chord p0 :: map DeckPoint.low_chord ps)
                with (map DeckPoint.low_chord (p0 :: ps)).
              apply in_map. exact Hp.
  - split.
    + split; [intros _; left; reflexivity | reflexivity].
    + intros d m H. discriminate H.
Qed.

Lemma min_low_chord_spec_witness :
  Bridge.min_low_chord (sample_bridge 2500 (Some uneven_deck) [])
  = Some (PyNum.of_Z 5)
  /\ PyNum.fle (PyNum.of_Z 5) (PyNum.of_Z 7) = true.
Proof.
  split; [reflexivity|].
  destruct (min_low_chord_spec (sample_bridge 2500 (Some uneven_deck) []))
    as [_ H].
  destruct (H uneven_deck (PyNum.of_Z 5) eq_refl eq_refl) as [_ Hb].
  apply (Hb eq_refl
           (DeckPoint.mk (PyNum.of_Z 100) (PyNum.of_Z 9) (PyNum.of_Z 7))).
  left. reflexivity.
Defined.

Lemma manning_n_channel_spec_witness :
  CrossSection.manning_n_channel (sample_xs 5000 three_regions)
  = Some (dec 35 1000).
Proof.
  destruct (manning_n_channel_spec (sample_xs 5000 three_regions))
    as (_ & _ & H & _).
  apply (H (BankStations.mk (PyNum.of_Z 100) (PyNum.of_Z 300))
           [ManningRegion.mk (dec 6 100) (PyNum.of_Z 0)]
           (ManningRegion.mk (dec 35 1000) (PyNum.of_Z 100))
           [ManningRegion.mk (dec 6 100) (PyNum.of_Z 300)]);
    try reflexivity.
  intros b [<-|[]]. vm_compute. reflexivity.
Defined.

(** *** Looking a station up *)

Lemma fsub_self (f : PyNum.float) :
  is_finite f = true -> PyNum.fsub f f = S754_zero false.
Proof.
  destruct f as [s|s| |s m e]; intros H; try discriminate H.
  - destruct s; reflexivity.
  - unfold PyNum.fsub, SFsub. cbv zeta. rewrite Z.min_id.
    unfold shl_align. rewrite Z.sub_diag. cbn [fst]. rewrite ?Z.sub_diag.
    reflexivity.
Qed.

Lemma near_refl (f : PyNum.float) :
  is_finite f = true -> GeometryFile.near f f = true.
Proof.
  intros H. unfold GeometryFile.near. rewrite (fsub_self f H).
  vm_compute. reflexivity.
Qed.

Lemma near_nan (f station : PyNum.float) :
  not_nan station = false -> GeometryFile.near f station = false.
Proof.
  destruct station; try discriminate. intros _.
  unfold GeometryFile.near, PyNum.fsub. destruct f; reflexivity.
Qed.

Lemma find_first {A : Type} (f : A -> bool) (l : list A) (x : A) :
  find f l = Some x ->
  exists before after,
    l = (before ++ x :: after)%list /\ f x = true
    /\ forall y, In y before -> f y = false.
Proof.
  induction l as [|a l IH]; cbn [find]; [discriminate|].
  destruct (f a) eqn:Ha.
  - intros H. inversion H; subst a. exists [], l.
    split; [reflexivity|]. split; [exact Ha|]. intros y [].
  - intros H. destruct (IH H) as (before & after & -> & Hx & Hb).
    exists (a :: before), after. split; [reflexivity|].
    split; [exact Hx|]. intros y [<-|Hy]; [exact Ha | apply Hb; exact Hy].
Qed.

(** X20: [get_cross_section] returns the first cross-section of the file
    whose station is within 0.01 of the one asked for, and None exactly when
    no cross-section is that close; asking for the (finite) station of a
    cross-section of the file always finds one; asking for NaN finds
    none. *)
Theorem get_cross_section_spec (g : GeometryFile.t) (station : PyNum.float) :
  (forall x,
     GeometryFile.get_cross_section g station = Some x ->
     exists before after,
       GeometryFile.cross_sections g = (before ++ x :: after)%list
       /\ GeometryFile.near (CrossSection.river_station x) station = true
       /\ forall y, In y before ->
            GeometryFile.near (CrossSection.river_station y) station = false)
  /\ (GeometryFile.get_cross_section g station = None
      <-> forall x, In x (GeometryFile.cross_sections g) ->
            GeometryFile.near (CrossSection.river_station x) station = false)
  /\ (forall x,
        In x (GeometryFile.cross_sections g) ->
        is_finite (CrossSection.river_station x) = true ->
        exists y,
          GeometryFile.get_cross_section g (CrossSection.river_station x)
          = Some y)
  /\ (not_nan station = false ->
      GeometryFile.get_cross_section g station = None).
Proof.
  unfold GeometryFile.get_cross_section.
  split; [|split; [|split]].
  - intros x H. apply find_first in H. exact H.
  - split.
    + intros H x Hx. exact (find_none _ _ H x Hx).
    + intros H. induction (GeometryFile.cross_sections g) as [|a l IH];
        [reflexivity|].
      cbn [find]. rewrite (H a (or_introl eq_refl)). apply IH.
      intros x Hx. apply H. right. exact Hx.
  - intros x Hx Hfin.
    destruct (find _ (GeometryFile.cross_sections g)) as [y|] eqn:Hf;
      [exists y; reflexivity|].
    pose proof (find_none _ _ Hf x Hx) as Hn. cbv beta in Hn.
    rewrite (near_refl _ Hfin) in Hn. discriminate Hn.
  - intros Hnan. induction (GeometryFile.cross_sections g) as [|a l IH];
      [reflexivity|].
    cbn [find]. rewrite (near_nan _ _ Hnan). exact IH.
Qed.

Lemma get_cross_section_spec_witness :
  exists y,
    GeometryFile.get_cross_section
      (GeometryFile.mk "Test" (sample_sections three_regions) [])
      (CrossSection.river_station (sample_xs 4000 three_regions))
    = Some y.
Proof.
  destruct (get_cross_section_spec
              (GeometryFile.mk "Test" (sample_sections three_regions) [])
              (CrossSection.river_station (sample_xs 4000 three_regions)))
    as (_ & _ & H & _).
  apply (H (sample_xs 4000 three_regions)).
  - right. left. reflexivity.
  - vm_compute. reflexivity.
Defined.

(** *** Pier widths *)

Lemma interpolate_between_defined (elevation : PyNum.float)
    (pts : list PierElevWidth.t) (r : exc PyNum.float) :
  distinct_steps pts = true ->
  interpolate_between elevation pts = Some r -> exists w, r = Ok w.
Proof.
  induction pts as [|lo rest IH]; [discriminate|].
  destruct rest as [|hi rest']; [discriminate|].
  intros Hd. change (distinct_steps (lo :: hi :: rest'))
    with (negb (PyNum.is_zero (PyNum.fsub (PierElevWidth.elevation hi)
                                          (PierElevWidth.elevation lo)))
          && distinct_steps (hi :: rest')) in Hd.
  apply andb_true_iff in Hd. destruct Hd as [Hz Hrest].
  apply negb_true_iff in Hz.
  change (interpolate_between elevation (lo :: hi :: rest'))
    with (if PyNum.fle (PierElevWidth.elevation lo) elevation
             && PyNum.fle elevation (PierElevWidth.elevation hi)
          then Some (
            frac <- PyNum.fdiv
                      (PyNum.fsub elevation (PierElevWidth.elevation lo))
                      (PyNum.fsub (PierElevWidth.elevation hi)
                                  (PierElevWidth.elevation lo)) ;;
            Ok (PyNum.fadd (PierElevWidth.width lo)
                  (PyNum.fmul frac
                     (PyNum.fsub (PierElevWidth.width hi)
                                 (PierElevWidth.width lo)))))
          else interpolate_between elevation (hi :: rest')).
  destruct (PyNum.fle (PierElevWidth.elevation lo) elevation
            && PyNum.fle elevation (PierElevWidth.elevation hi)).
  - intros H. inversion H. unfold PyNum.fdiv. rewrite Hz. cbn [bind].
    eexists. reflexivity.
  - apply IH. exact Hrest.
Qed.

Lemma interpolate_pier_width_defined (pier : Pier.t)
    (elevation : PyNum.float) :
  distinct_steps (Pier.elevations pier) = true ->
  exists w, _interpolate_pier_width pier elevation = Ok w.
Proof.
  intros Hd. unfold _interpolate_pier_width.
  destruct (Pier.elevations pier) as [|p0 ps]; [eexists; reflexivity|].
  destruct (PyNum.fle elevation (PierElevWidth.elevation p0));
    [eexists; reflexivity|].
  destruct (PyNum.fle (PierElevWidth.elevation (last ps p0)) elevation);
    [eexists; reflexivity|].
  destruct (interpolate_between elevation (p0 :: ps)) as [r|] eqn:Hr;
    [|eexists; reflexivity].
  exact (interpolate_between_defined _ _ _ Hd Hr).
Qed.

(** X21: the total pier width of a bridge is defined - the property
    returns a number instead of raising [ZeroDivisionError] - whenever no
    pier table of the bridge has two consecutive entries whose elevation
    difference is zero; it is 0.0 for a bridge without a low chord. *)
Theorem total_pier_width_defined (b : Bridge.t) :
  forallb (fun pier => distinct_steps (Pier.elevations pier))
          (Bridge.piers b) = true ->
  (exists w, Bridge.total_pier_width_at_low_chord b = Ok w)
  /\ (Bridge.min_low_chord b = None ->
      Bridge.total_pier_width_at_low_chord b = Ok (S754_zero false)).
Proof.
  intros Hd. unfold Bridge.total_pier_width_at_low_chord.
  split; [|intros ->; reflexivity].
  destruct (Bridge.min_low_chord b) as [lc|]; [|eexists; reflexivity].
  generalize (S754_zero false : PyNum.float).
  induction (Bridge.piers b) as [|pier rest IH]; intros total;
    [eexists; reflexivity|].
  cbn [forallb] in Hd. apply andb_true_iff in Hd. destruct Hd as [Hp Hrest].
  cbn [Bridge.sum_pier_widths].
  destruct (interpolate_pier_width_defined pier lc Hp) as [w ->].
  cbn [bind]. apply IH. exact Hrest.
Qed.

Lemma total_pier_width_defined_witness :
  exists w,
    Bridge.total_pier_width_at_low_chord
      (sample_bridge 2500 (Some low_deck) [tapered_pier; tapered_pier])
    = Ok w.
Proof.
  apply (total_pier_width_defined
           (sample_bridge 2500 (Some low_deck) [tapered_pier; tapered_pier])).
  vm_compute. reflexivity.
Defined.

Example tapered_pier_total_width :
  Bridge.total_pier_width_at_low_chord
    (sample_bridge 2500 (Some low_deck) [tapered_pier; tapered_pier])
  = Ok (PyNum.of_Z 5).
Proof. vm_compute. reflexivity. Qed.

(** ** Filling the encroachment values: [_set_enc_val] *)

Lemma grow_repeat (rounds : nat) (values : list PyNum.float) :
  grow rounds values = (values ++ repeat (S754_zero false) rounds)%list.
Proof.
  revert values. induction rounds as [|n IH]; intros values;
    cbn [grow repeat]; [rewrite app_nil_r; reflexivity|].
  rewrite IH, <- app_assoc. reflexivity.
Qed.

Lemma set_item_length (values : list PyNum.float) (index : nat)
    (v : PyNum.float) :
  List.length (set_item values index v) = List.length values.
Proof.
  revert index. induction values as [|x rest IH]; intros [|i];
    cbn [set_item List.length]; try reflexivity.
  rewrite IH. reflexivity.
Qed.

Lemma set_item_same (values : list PyNum.float) (index : nat)
    (v : PyNum.float) :
  (index < List.length values)%nat ->
  nth_error (set_item values index v) index = Some v.
Proof.
  revert index. induction values as [|x rest IH]; intros [|i];
    cbn [set_item List.length nth_error]; intros H; try lia; try reflexivity.
  apply IH. lia.
Qed.

Lemma set_item_other (values : list PyNum.float) (index j : nat)
    (v : PyNum.float) :
  j <> index ->
  nth_error (set_item values index v) j = nth_error values j.
Proof.
  revert index j. induction values as [|x rest IH]; intros [|i] [|j];
    cbn [set_item nth_error]; intros H; try reflexivity; try congruence.
  apply IH. congruence.
Qed.

Section SetEncVal.

Variable _float : string -> PyNum.float.

(** X22: [_set_enc_val] stores the parsed value in slot [index] of the
    encroachment values, growing the list with 0.0 up to that slot when it
    is too short: afterwards the list has the larger of its old length and
    [index + 1] entries, slot [index] holds the value, the other old slots
    are unchanged and the new slots before [index] hold 0.0; the switch and
    the method are untouched.  Hence a floodway plan whose first slot was
    set reads that value as its target surcharge, and one whose list was
    empty and where only a later slot was set reads 0.0. *)
Theorem set_enc_val_spec (enc : EncroachmentSettings.t) (index : nat)
    (raw : string) :
  let values := EncroachmentSettings.values enc in
  let enc' := _set_enc_val _float enc index raw in
  let values' := EncroachmentSettings.values enc' in
  List.length values' = Nat.max (List.length values) (S index)
  /\ nth_error values' index = Some (_float raw)
  /\ (forall j, j <> index -> (j < List.length values)%nat ->
        nth_error values' j = nth_error values j)
  /\ (forall j, (List.length values <= j)%nat -> (j < index)%nat ->
        nth_error values' j = Some (S754_zero false))
  /\ EncroachmentSettings.enabled enc' = EncroachmentSettings.enabled enc
  /\ EncroachmentSettings.method enc' = EncroachmentSettings.method enc
  /\ (EncroachmentSettings.is_floodway enc = true ->
      EncroachmentSettings.target_surcharge enc'
      = match index, values with
        | O, _ => Some (_float raw)
        | S _, [] => Some (S754_zero false)
        | S _, v :: _ => Some v
        end).
Proof.
  intros values enc' values'.
  assert (Hv : values'
               = set_item (values
                           ++ repeat (S754_zero false)
                                (S index - List.length values))%list
                   index (_float raw)).
  { unfold values', enc', _set_enc_val. cbn [EncroachmentSettings.values].
    rewrite grow_repeat. reflexivity. }
  assert (Hlen : List.length (values
                              ++ repeat (S754_zero false)
                                   (S index - List.length values))%list
                 = Nat.max (List.length values) (S index)).
  { rewrite length_app, repeat_length. lia. }
  split; [rewrite Hv, set_item_length; exact Hlen|].
  split; [rewrite Hv; apply set_item_same; rewrite Hlen; lia|].
  split.
  { intros j Hj Hlt. rewrite Hv, (set_item_other _ _ _ _ Hj).
    apply nth_error_app1. exact Hlt. }
  split.
  { intros j Hge Hlt. rewrite Hv, set_item_other by lia.
    rewrite nth_error_app2 by exact Hge.
    apply nth_error_repeat. lia. }
  split; [reflexivity|]. split; [reflexivity|].
  intros Hfw. unfold EncroachmentSettings.target_surcharge.
  assert (Hfw' : EncroachmentSettings.is_floodway enc' = true) by exact Hfw.
  rewrite Hfw'. fold values'. rewrite Hv.
  destruct index as [|i].
  - destruct values as [|v0 rest]; reflexivity.
  - destruct values as [|v0 rest]; reflexivity.
Qed.

End SetEncVal.

Lemma set_enc_val_spec_witness :
  EncroachmentSettings.target_surcharge
    (_set_enc_val sample_float (EncroachmentSettings.mk true 4 []) 1 "0.5")
  = Some (S754_zero false).
Proof.
  destruct (set_enc_val_spec sample_float (EncroachmentSettings.mk true 4 [])
              1 "0.5") as (_ & _ & _ & _ & _ & _ & H).
  apply H. reflexivity.
Defined.

(** ** The region argument of the command line: [_resolve_state] *)

Lemma lower_upper_char (c : ascii) :
  PyStr.lower_char (PyStr.upper_char c) = PyStr.lower_char c.
Proof.
  destruct c as [[] [] [] [] [] [] [] []]; vm_compute; reflexivity.
Qed.

Lemma upper_lower_char (c : ascii) :
  PyStr.upper_char (PyStr.lower_char c) = PyStr.upper_char c.
Proof.
  destruct c as [[] [] [] [] [] [] [] []]; vm_compute; reflexivity.
Qed.

Lemma lower_lower_char (c : ascii) :
  PyStr.lower_char (PyStr.lower_char c) = PyStr.lower_char c.
Proof.
  destruct c as [[] [] [] [] [] [] [] []]; vm_compute; reflexivity.
Qed.

Lemma lower_upper (s : string) : PyStr.lower (PyStr.upper s) = PyStr.lower s.
Proof.
  induction s as [|c s IH]; [reflexivity|].
  cbn [PyStr.upper PyStr.lower]. rewrite lower_upper_char, IH. reflexivity.
Qed.

Lemma upper_lower (s : string) : PyStr.upper (PyStr.lower s) = PyStr.upper s.
Proof.
  induction s as [|c s IH]; [reflexivity|].
  cbn [PyStr.upper PyStr.lower]. rewrite upper_lower_char, IH. reflexivity.
Qed.

Lemma lower_lower (s : string) : PyStr.lower (PyStr.lower s) = PyStr.lower s.
Proof.
  induction s as [|c s IH]; [reflexivity|].
  cbn [PyStr.lower]. rewrite lower_lower_char, IH. reflexivity.
Qed.

Lemma state_abbrevs_values (k name : string) :
  assoc k _STATE_ABBREVS = Some name ->
  PyStr.lower name = name
  /\ assoc (PyStr.upper name) _STATE_ABBREVS = Some name.
Proof.
  unfold _STATE_ABBREVS. cbn [assoc].
  repeat match goal with
         | |- context [if String.eqb ?a k then _ else _] =>
             destruct (String.eqb a k);
             [intros H; inversion H; split; reflexivity|]
         end.
  discriminate.
Qed.

(** X23: the region argument is normalised without regard to letter case:
    two ASCII names with the same upper-case form resolve to the same key;
    the key is lower-case, and resolving a key again returns it unchanged.
    No argument resolves to no key. *)
Theorem resolve_state_spec (s t : string) :
  ascii_only s = true ->
  ascii_only t = true ->
  PyStr.upper s = PyStr.upper t ->
  _resolve_state (Some s) = _resolve_state (Some t)
  /\ (exists key,
        _resolve_state (Some s) = Some key
        /\ PyStr.lower key = key
        /\ _resolve_state (Some key) = Some key)
  /\ _resolve_state None = None.
Proof.
  intros _ _ Hu.
  assert (Hl : PyStr.lower s = PyStr.lower t)
    by (rewrite <- (lower_upper s), <- (lower_upper t), Hu; reflexivity).
  split; [|split; [|reflexivity]].
  - unfold _resolve_state. rewrite Hu, Hl. reflexivity.
  - unfold _resolve_state.
    destruct (assoc (PyStr.upper s) _STATE_ABBREVS) as [name|] eqn:Ha.
    + destruct (state_abbrevs_values _ _ Ha) as [Hlow Hup].
      exists name. split; [reflexivity|]. split; [exact Hlow|].
      rewrite Hup. reflexivity.
    + exists (PyStr.lower s). split; [reflexivity|].
      split; [apply lower_lower|].
      rewrite upper_lower, Ha, lower_lower. reflexivity.
Qed.

Lemma resolve_state_spec_witness :
  _resolve_state (Some "Tx") = _resolve_state (Some "tX")
  /\ (exists key,
        _resolve_state (Some "Tx") = Some key
        /\ PyStr.lower key = key
        /\ _resolve_state (Some key) = Some key)
  /\ _resolve_state None = None.
Proof.
  apply (resolve_state_spec "Tx" "tX"); vm_compute; reflexivity.
Defined.

Example resolve_state_abbreviations :
  map _resolve_state [Some "ME"; Some "me"; Some "Maine"; Some "tx";
                      Some "Ohio"; None]
  = [Some "maine"; Some "maine"; Some "maine"; Some "texas"; Some "ohio";
     None].
Proof. vm_compute. reflexivity. Qed.

(** ** Grouping the results by category *)

Lemma prefix_categories_in_order :
  Forall (fun kv => In (snd kv) _CATEGORY_ORDER) _PREFIX_TO_CATEGORY.
Proof. repeat (apply Forall_cons; [cbn; tauto|]). apply Forall_nil. Qed.

Lemma first_category_in_order (parts : list string) :
  In (first_category parts) _CATEGORY_ORDER.
Proof.
  induction parts as [|part rest IH]; cbn [first_category]; [cbn; tauto|].
  destruct (assoc part _PREFIX_TO_CATEGORY) as [c|] eqn:Hc; [|exact IH].
  exact (assoc_Forall (fun c => In c _CATEGORY_ORDER) part _ c
           prefix_categories_in_order Hc).
Qed.

Lemma first_category_skip (before rest : list string) :
  (forall p, In p before -> assoc p _PREFIX_TO_CATEGORY = None) ->
  first_category (before ++ rest)%list = first_category rest.
Proof.
  induction before as [|p before IH]; intros H; [reflexivity|].
  cbn [app first_category]. rewrite (H p (or_introl eq_refl)).
  apply IH. intros q Hq. apply H. right. exact Hq.
Qed.

(** X24: [_categorize] always answers with one of the headings of
    [_CATEGORY_ORDER]: the category of the first part of the identifier
    (split at "-") that is a known prefix, and "Other" when no part is. *)
Theorem categorize_spec (rule_id : string) :
  In (_categorize rule_id) _CATEGORY_ORDER
  /\ (forall before part after category,
        PyStr.split "-" rule_id = (before ++ part :: after)%list ->
        (forall p, In p before -> assoc p _PREFIX_TO_CATEGORY = None) ->
        assoc part _PREFIX_TO_CATEGORY = Some category ->
        _categorize rule_id = category)
  /\ ((forall p, In p (PyStr.split "-" rule_id) ->
         assoc p _PREFIX_TO_CATEGORY = None) ->
      _categorize rule_id = "Other").
Proof.
  unfold _categorize. split; [apply first_category_in_order|]. split.
  - intros before part after category Hs Hb Hp.
    rewrite Hs, (first_category_skip _ _ Hb). cbn [first_category].
    rewrite Hp. reflexivity.
  - intros H. rewrite <- (app_nil_r (PyStr.split "-" rule_id)).
    rewrite (first_category_skip _ [] H). reflexivity.
Qed.

Lemma categorize_spec_witness : _categorize "TX-FW-001" = "Floodway / Surcharge".
Proof.
  destruct (categorize_spec "TX-FW-001") as (_ & H & _).
  apply (H ["TX"] "FW" ["001"]); try reflexivity.
  intros p [<-|[]]. reflexivity.
Defined.

Lemma group_append_assoc (cat c : string) (r : RuleResult.t)
    (grouped : list (string * list RuleResult.t)) :
  assoc cat (group_append c r grouped)
  = if String.eqb c cat
    then Some (match assoc cat grouped with
               | Some l => (l ++ [r])%list
               | None => [r]
               end)
    else assoc cat grouped.
Proof.
  induction grouped as [|[c0 rs] rest IH]; cbn [group_append assoc];
    [reflexivity|].
  destruct (String.eqb c0 c) eqn:Hc0.
  - apply String.eqb_eq in Hc0. subst c0. cbn [assoc].
    destruct (String.eqb c cat); reflexivity.
  - cbn [assoc]. destruct (String.eqb c0 cat) eqn:Hcat.
    + apply String.eqb_eq in Hcat. subst c0.
      rewrite String.eqb_sym, Hc0. reflexivity.
    + exact IH.
Qed.

Lemma in_category_id (cat : string) (r : RuleResult.t) (rid : string) :
  RuleResult.rule_id r = YStr rid ->
  in_category cat r = String.eqb (_categorize rid) cat.
Proof. unfold in_category. intros ->. reflexivity. Qed.

Lemma group_loop_spec (results seen : list RuleResult.t)
    (grouped : list (string * list RuleResult.t)) :
  forallb has_str_id results = true ->
  (forall cat,
     assoc cat grouped = match filter (in_category cat) seen with
                         | [] => None
                         | l => Some l
                         end) ->
  exists out,
    group_loop results grouped = Ok out
    /\ forall cat,
         assoc cat out
         = match filter (in_category cat) (seen ++ results)%list with
           | [] => None
           | l => Some l
           end.
Proof.
  revert seen grouped.
  induction results as [|r rest IH]; intros seen grouped Hids Hinv.
  - exists grouped. split; [reflexivity|]. intros cat.
    rewrite app_nil_r. apply Hinv.
  - cbn [forallb] in Hids. apply andb_true_iff in Hids.
    destruct Hids as [Hr Hrest].
    unfold has_str_id in Hr. cbn [group_loop]. unfold category_of.
    destruct (RuleResult.rule_id r) as [ | | | |rid| | ] eqn:Hid;
      try discriminate Hr.
    cbn [bind].
    destruct (IH (seen ++ [r])%list (group_append (_categorize rid) r grouped)
                Hrest) as (out & Hout & Hspec).
    + intros cat. rewrite group_append_assoc, Hinv, filter_app.
      cbn [filter]. rewrite (in_category_id cat r rid Hid).
      destruct (String.eqb (_categorize rid) cat).
      * destruct (filter (in_category cat) seen); reflexivity.
      * rewrite app_nil_r. reflexivity.
    + exists out. split; [exact Hout|]. intros cat.
      rewrite Hspec, <- app_assoc. reflexivity.
Qed.

Lemma list_sum_map_add {A : Type} (f g : A -> nat) (l : list A) :
  list_sum (map (fun a => f a + g a)%nat l)
  = (list_sum (map f l) + list_sum (map g l))%nat.
Proof.
  unfold list_sum. induction l as [|a l IH]; [reflexivity|].
  cbn [map fold_right]. rewrite IH. lia.
Qed.

Lemma one_heading (c : string) :
  In c _CATEGORY_ORDER ->
  list_sum (map (fun cat => if String.eqb c cat then 1 else 0)%nat
              _CATEGORY_ORDER) = 1%nat.
Proof.
  cbn [In _CATEGORY_ORDER].
  intros [<-|[<-|[<-|[<-|[<-|[<-|[<-|[<-|[]]]]]]]]]; reflexivity.
Qed.

Lemma category_sizes (results : list RuleResult.t) :
  forallb has_str_id results = true ->
  list_sum (map (fun cat => List.length (filter (in_category cat) results))
              _CATEGORY_ORDER)
  = List.length results.
Proof.
  induction results as [|r rest IH]; intros Hids; [reflexivity|].
  cbn [forallb] in Hids. apply andb_true_iff in Hids.
  destruct Hids as [Hr Hrest]. unfold has_str_id in Hr.
  destruct (RuleResult.rule_id r) as [ | | | |rid| | ] eqn:Hid;
    try discriminate Hr.
  rewrite (map_ext
             (fun cat => List.length (filter (in_category cat) (r :: rest)))
             (fun cat => ((if String.eqb (_categorize rid) cat then 1 else 0)
                          + List.length (filter (in_category cat) rest))%nat)).
  - rewrite list_sum_map_add, (IH Hrest),
      (one_heading (_categorize rid)
         (first_category_in_order (PyStr.split "-" rid))).
    reflexivity.
  - intros cat. cbn [filter]. rewrite (in_category_id cat r rid Hid).
    destruct (String.eqb (_categorize rid) cat); reflexivity.
Qed.

(** X25: the grouping the web report shows.  For results whose rule
    identifiers are strings, [categories] returns, in the order of
    [_CATEGORY_ORDER], one block for each category that has results (and
    none for the others), each holding exactly the results of that category
    in their original order; the blocks together hold as many results as
    were given, so every result is shown under exactly one heading. *)
Theorem categories_spec (results : list RuleResult.t) :
  forallb has_str_id results = true ->
  categories results
  = Ok (flat_map (category_block results) _CATEGORY_ORDER)
  /\ list_sum (map (fun block => List.length (snd block))
                 (flat_map (category_block results) _CATEGORY_ORDER))
     = List.length results.
Proof.
  intros Hids. split.
  - unfold categories.
    destruct (group_loop_spec results [] [] Hids (fun cat => eq_refl))
      as (grouped & -> & Hspec).
    cbn [bind app] in *. f_equal. apply flat_map_ext. intros cat.
    rewrite Hspec. unfold category_block.
    destruct (filter (in_category cat) results); reflexivity.
  - rewrite <- (category_sizes results Hids).
    induction _CATEGORY_ORDER as [|cat order IH]; [reflexivity|].
    cbn [flat_map map]. rewrite map_app, list_sum_app.
    change (list_sum (?x :: ?l)) with (x + list_sum l)%nat.
    rewrite IH. f_equal. unfold category_block.
    destruct (filter (in_category cat) results); cbn; lia.
Qed.

Lemma categories_spec_witness :
  categories sample_results
  = Ok [("Manning's n", [sample_result "FEMA-MANN-001" "FAIL"]);
        ("Floodway / Surcharge",
         [sample_result "FEMA-FW-001" "PASS";
          sample_result "TX-FW-001" "WARNING"]);
        ("Other", [sample_result "LOCAL-7" "SKIPPED"])].
Proof.
  destruct (categories_spec sample_results eq_refl) as [H _].
  exact H.
Defined.

(** ** Loading the model files: [_load_model] *)

Section LoadModelProps.

Variable path : Type.
Variable member : string -> path.
Variable file_exists : path -> bool.
Variable parse_project : path -> exc ProjectFile.t.
Variable parse_geometry : path -> exc GeometryFile.t.
Variable parse_plan : path -> exc PlanFile.t.
Variable parse_flow : path -> exc FlowFile.t.

Lemma first_existing_spec {A : Type} (parse : path -> exc A)
    (exts : list string) :
  (forall ext, file_exists (member ext) = true ->
     is_ok (parse (member ext)) = true) ->
  exists r,
    first_existing path member file_exists parse exts = Ok r
    /\ (r = None
        <-> forall ext, In ext exts -> file_exists (member ext) = false)
    /\ (forall before ext after x,
          exts = (before ++ ext :: after)%list ->
          (forall e, In e before -> file_exists (member e) = false) ->
          file_exists (member ext) = true ->
          parse (member ext) = Ok x ->
          r = Some x).
Proof.
  intros Hok. induction exts as [|e exts IH].
  - exists None. split; [reflexivity|]. split.
    + split; [intros _ ext [] | reflexivity].
    + intros before ext after x H. destruct before; discriminate H.
  - cbn [first_existing].
    destruct (file_exists (member e)) eqn:He.
    + specialize (Hok e He).
      destruct (parse (member e)) as [x0|] eqn:Hp; [|discriminate Hok].
      exists (Some x0). split; [reflexivity|]. split.
      * split; [discriminate|]. intros H.
        rewrite (H e (or_introl eq_refl)) in He. discriminate He.
      * intros before ext after x Hs Hb Hex Hx.
        destruct before as [|b before].
        -- inversion Hs; subst. rewrite Hp in Hx. inversion Hx. reflexivity.
        -- inversion Hs; subst.
           rewrite (Hb b (or_introl eq_refl)) in He. discriminate He.
    + destruct IH as (r & Hr & Hnone & Hfirst).
      exists r. split; [exact Hr|]. split.
      * split.
        -- intros Hn ext [<-|Hin]; [exact He|].
           apply Hnone; assumption.
        -- intros H. apply Hnone. intros ext Hin. apply H. right. exact Hin.
      * intros before ext after x Hs Hb Hex Hx.
        destruct before as [|b before].
        -- inversion Hs; subst. rewrite Hex in He. discriminate He.
        -- inversion Hs; subst. apply (Hfirst before ext after x eq_refl).
           ++ intros e0 He0. apply Hb. right. exact He0.
           ++ exact Hex.
           ++ exact Hx.
Qed.

(** X26: loading a project whose project file parses, when the parsers do
    not fail on the files that exist.  [_load_model] returns a model that
    always holds the project; its geometry (plan, flow) is None exactly when
    none of the listed geometry (plan, flow) files exists, and is otherwise
    what the first existing file in the list parses to; the plan list starts
    with the current plan, so an existing current plan is the one loaded,
    wherever it stands among the plan files. *)
Theorem load_model_spec (prj_path : path) (project : ProjectFile.t) :
  parse_project prj_path = Ok project ->
  (forall ext, file_exists (member ext) = true ->
     is_ok (parse_geometry (member ext)) = true) ->
  (forall ext, file_exists (member ext) = true ->
     is_ok (parse_plan (member ext)) = true) ->
  (forall ext, file_exists (member ext) = true ->
     is_ok (parse_flow (member ext)) = true) ->
  exists model,
    _load_model path member file_exists parse_project parse_geometry
      parse_plan parse_flow prj_path = Ok model
    /\ ModelData.project model = Some project
    /\ (ModelData.geometry model = None
        <-> forall ext, In ext (ProjectFile.geom_files project) ->
              file_exists (member ext) = false)
    /\ (ModelData.plan model = None
        <-> forall ext, In ext (plan_exts project) ->
              file_exists (member ext) = false)
    /\ (ModelData.flow model = None
        <-> forall ext, In ext (ProjectFile.all_flow_files project) ->
              file_exists (member ext) = false)
    /\ (forall before ext after g,
          ProjectFile.geom_files project = (before ++ ext :: after)%list ->
          (forall e, In e before -> file_exists (member e) = false) ->
          file_exists (member ext) = true ->
          parse_geometry (member ext) = Ok g ->
          ModelData.geometry model = Some g)
    /\ (forall before ext after pl,
          plan_exts project = (before ++ ext :: after)%list ->
          (forall e, In e before -> file_exists (member e) = false) ->
          file_exists (member ext) = true ->
          parse_plan (member ext) = Ok pl ->
          ModelData.plan model = Some pl)
    /\ (forall before ext after fl,
          ProjectFile.all_flow_files project = (before ++ ext :: after)%list ->
          (forall e, In e before -> file_exists (member e) = false) ->
          file_exists (member ext) = true ->
          parse_flow (member ext) = Ok fl ->
          ModelData.flow model = Some fl)
    /\ (forall pl,
          ProjectFile.current_plan project <> "" ->
          file_exists (member (ProjectFile.current_plan project)) = true ->
          parse_plan (member (ProjectFile.current_plan project)) = Ok pl ->
          ModelData.plan model = Some pl).
Proof.
  intros Hprj Hg Hp Hf.
  destruct (first_existing_spec parse_geometry
              (ProjectFile.geom_files project) Hg)
    as (g & Hgr & Hgnone & Hgfirst).
  destruct (first_existing_spec parse_plan (plan_exts project) Hp)
    as (pl & Hpr & Hpnone & Hpfirst).
  destruct (first_existing_spec parse_flow
              (ProjectFile.all_flow_files project) Hf)
    as (fl & Hfr & Hfnone & Hffirst).
  exists (ModelData.mk g pl fl (Some project)).
  split.
  { unfold _load_model. rewrite Hprj. cbn [bind]. rewrite Hgr. cbn [bind].
    fold (plan_exts project). rewrite Hpr. cbn [bind]. rewrite Hfr.
    reflexivity. }
  cbn [ModelData.project ModelData.geometry ModelData.plan ModelData.flow].
  split; [reflexivity|]. split; [exact Hgnone|]. split; [exact Hpnone|].
  split; [exact Hfnone|]. split; [exact Hgfirst|].
  split; [exact Hpfirst|]. split; [exact Hffirst|].
  intros pl0 Hcur Hex Hpl.
  apply (Hpfirst [] (ProjectFile.current_plan project)
           (ProjectFile.plan_files project) pl0).
  - unfold plan_exts.
    destruct (ProjectFile.current_plan project); [congruence | reflexivity].
  - intros e [].
  - exact Hex.
  - exact Hpl.
Qed.

End LoadModelProps.

Lemma load_model_spec_witness :
  exists model,
    _load_model string sample_member sample_exists sample_parse_project
      sample_parse_geometry sample_parse_plan sample_parse_flow "model.prj"
    = Ok model
    /\ ModelData.project model = Some sample_project
    /\ ModelData.geometry model = Some (GeometryFile.mk "model.g02" [] [])
    /\ ModelData.plan model = Some (sample_plan true 4 [dec 1 1])
    /\ ModelData.flow model = None.
Proof.
  destruct (load_model_spec string sample_member sample_exists
              sample_parse_project sample_parse_geometry sample_parse_plan
              sample_parse_flow "model.prj" sample_project eq_refl
              (fun _ _ => eq_refl) (fun _ _ => eq_refl) (fun _ _ => eq_refl))
    as (model & Hm & Hproj & _ & _ & Hflow & Hgeom & _ & _ & Hplan).
  exists model. split; [exact Hm|]. split; [exact Hproj|]. split; [|split].
  - apply (Hgeom ["g01"] "g02" []); try reflexivity.
    intros e [<-|[]]. reflexivity.
  - apply Hplan; [discriminate | reflexivity | reflexivity].
  - apply Hflow. intros ext [<-|[]]. reflexivity.
Defined.

(** ** Rules that raise *)

Lemma mapM_raises {A B : Type} (f : A -> exc B) (l : list A) (a : A)
    (e : exn) :
  In a l -> f a = Raise e -> exists e', mapM f l = Raise e'.
Proof.
  induction l as [|x l IH]; intros Hin Ha; [destruct Hin|].
  cbn [mapM]. destruct (f x) as [b|e0] eqn:Hx; [|exists e0; reflexivity].
  cbn [bind]. destruct Hin as [->|Hin]; [congruence|].
  destruct (IH Hin Ha) as [e' ->]. exists e'. reflexivity.
Qed.

Ltac raise_by_keys Hk :=
  unfold has_keys, has_key in Hk; cbn [Yaml.item];
  destruct (assoc "id" _); [|eexists; reflexivity];
  destruct (assoc "name" _); [|eexists; reflexivity];
  destruct (assoc "severity" _); [|eexists; reflexivity];
  destruct (assoc "citation" _); [discriminate Hk | eexists; reflexivity].

Lemma skipped_raises (d : dict) (reason location : string) :
  has_keys d = false ->
  exists e, _skipped (YMap d) reason location = Raise e.
Proof. intros Hk. unfold _skipped. raise_by_keys Hk. Qed.

Section RaisingRules.

Variable inherited : pyval -> string -> exc pyval.
Variable py_str : pyval -> string.
Variable yaml_str : yaml -> string.

Lemma evaluate_single_raise (d : dict) (model : ModelData.t)
    (log : list log_record) (e : exn) :
  _evaluate_rule inherited py_str yaml_str (YMap d) model = Raise e ->
  fst (evaluate inherited py_str yaml_str (mk_engine [YMap d]) model log)
  = Ok [internal_error_result d].
Proof.
  intros He. rewrite evaluate_mk_engine. cbn [evaluate_loop]. rewrite He.
  rewrite get_YMap. unfold internal_error. rewrite !get_YMap. reflexivity.
Qed.

Lemma internal_error_result_keys (d : dict) :
  has_keys d = true ->
  internal_error_result d
  = result_for d SKIPPED "" "" "Internal error evaluating rule." "".
Proof.
  unfold has_keys, has_key, internal_error_result, result_for, dict_get.
  destruct (assoc "id" d); [|discriminate].
  destruct (assoc "name" d); [|discriminate].
  destruct (assoc "severity" d); [|discriminate].
  destruct (assoc "citation" d); [|discriminate].
  reflexivity.
Qed.

(** X27: an exception at one location costs the rule all its locations.
    When a generic rule (carrying id, name, severity and citation) resolves
    to several pairs and the check of any one of them raises, [evaluate]
    reports the single SKIPPED result "Internal error evaluating rule." for
    the rule, with an empty location: the results of the other pairs are
    not returned. *)
Theorem raising_location_skips_rule (d : dict) (model : ModelData.t)
    (check_type : yaml) (path : string) (values : list (pyval * string))
    (vl : pyval * string) (e : exn) (log : list log_record) :
  has_keys d = true ->
  dict_get d "check_type" (YStr "") = check_type ->
  Yaml.eq_str check_type "custom" = false ->
  dict_get d "applies_to" (YStr "") = YStr path ->
  _resolve_values inherited py_str model (YStr path) = Ok values ->
  In vl values ->
  check_value py_str yaml_str (YMap d) check_type vl = Raise e ->
  fst (evaluate inherited py_str yaml_str (mk_engine [YMap d]) model log)
  = Ok [result_for d SKIPPED "" "" "Internal error evaluating rule." ""].
Proof.
  intros Hk Hct Hcustom Hap Hv Hin He.
  assert (Hne : values <> []) by (destruct values; [destruct Hin | discriminate]).
  destruct (mapM_raises _ _ _ _ Hin He) as [e' He'].
  rewrite <- (evaluate_rule_generic inherited py_str yaml_str
                d model check_type path
                values Hct Hcustom Hap Hv Hne) in He'.
  rewrite (evaluate_single_raise d model log e' He').
  rewrite (internal_error_result_keys d Hk). reflexivity.
Qed.

Lemma check_value_raises (d : dict) (check_type : yaml)
    (vl : pyval * string) :
  has_keys d = false ->
  exists e, check_value py_str yaml_str (YMap d) check_type vl = Raise e.
Proof.
  intros Hk. destruct vl as [val location]. unfold check_value.
  assert (Hgen : exists e,
    (if Yaml.eq_str check_type "range"
     then _check_range py_str yaml_str (YMap d) val location
     else if Yaml.eq_str check_type "exact"
     then _check_exact py_str yaml_str (YMap d) val location
     else if Yaml.eq_str check_type "exists"
     then _check_exists py_str (YMap d) val location
     else _skipped (YMap d) ("Unknown check_type: " ++ yaml_str check_type)
            location) = Raise e).
  { destruct (Yaml.eq_str check_type "range").
    { unfold _check_range.
      destruct (Yaml.get (YMap d) "parameters" (YMap [])) as [params|e0];
        [cbn [bind] | eexists; reflexivity].
      destruct (Yaml.get params "min" (YFloat PyNum.neg_inf)) as [lo|e0];
        [cbn [bind] | eexists; reflexivity].
      destruct (Yaml.get params "max" (YFloat PyNum.inf)) as [hi|e0];
        [cbn [bind] | eexists; reflexivity].
      destruct (between lo val hi) as [passed|e0];
        [cbn [bind] | eexists; reflexivity].
      destruct (if passed then Ok PASS else failed_status (YMap d))
        as [status|e0]; [cbn [bind] | eexists; reflexivity].
      raise_by_keys Hk. }
    destruct (Yaml.eq_str check_type "exact").
    { unfold _check_exact.
      destruct (Yaml.get (YMap d) "parameters" (YMap [])) as [params|e0];
        [cbn [bind] | eexists; reflexivity].
      destruct (Yaml.get params "value" YNull) as [expected|e0];
        [cbn [bind] | eexists; reflexivity].
      destruct (if py_eq val expected then Ok PASS
                else failed_status (YMap d))
        as [status|e0]; [cbn [bind] | eexists; reflexivity].
      raise_by_keys Hk. }
    destruct (Yaml.eq_str check_type "exists").
    { unfold _check_exists. raise_by_keys Hk. }
    apply skipped_raises. exact Hk. }
  destruct val; try exact Hgen. apply skipped_raises. exact Hk.
Qed.

(** X28: a generic rule dictionary that lacks one of [id], [name],
    [severity] and [citation] never gets a check result: whatever its check
    type and whatever its path resolves to, evaluating it raises, and
    [evaluate] reports exactly one SKIPPED result "Internal error evaluating
    rule." that carries the entries the rule does have and the defaults "?"
    (id, name), "error" (severity) and "" (citation) for the others. *)
Theorem malformed_rule_internal_error (d : dict) (model : ModelData.t)
    (check_type : yaml) (path : string) (values : list (pyval * string))
    (log : list log_record) :
  has_keys d = false ->
  dict_get d "check_type" (YStr "") = check_type ->
  Yaml.eq_str check_type "custom" = false ->
  dict_get d "applies_to" (YStr "") = YStr path ->
  _resolve_values inherited py_str model (YStr path) = Ok values ->
  (exists e, _evaluate_rule inherited py_str yaml_str (YMap d) model = Raise e)
  /\ fst (evaluate inherited py_str yaml_str (mk_engine [YMap d]) model log)
     = Ok [internal_error_result d].
Proof.
  intros Hk Hct Hcustom Hap Hv.
  assert (He : exists e,
             _evaluate_rule inherited py_str yaml_str (YMap d) model = Raise e).
  { destruct values as [|vl values].
    - unfold _evaluate_rule. rewrite get_YMap, Hct. cbn [bind].
      rewrite Hcustom, get_YMap, Hap. cbn [bind]. rewrite Hv. cbn [bind].
      destruct (skipped_raises d "Data not available" "" Hk) as [e ->].
      exists e. reflexivity.
    - rewrite (evaluate_rule_generic inherited py_str yaml_str
                 d model check_type path
                 (vl :: values) Hct Hcustom Hap Hv) by discriminate.
      destruct (check_value_raises d check_type vl Hk) as [e He].
      apply (mapM_raises _ (vl :: values) vl e); [left; reflexivity|].
      exact He. }
  split; [exact He|]. destruct He as [e He].
  exact (evaluate_single_raise d model log e He).
Qed.

End RaisingRules.

Lemma raising_location_skips_rule_witness :
  fst (evaluate no_inherited sample_py_str sample_yaml_str
         (mk_engine
            [YMap (sample_dict "error" "range"
                     "geometry.cross_sections[].river" [("min", YInt 0)])])
         (sample_model three_regions) [])
  = Ok [result_for
          (sample_dict "error" "range" "geometry.cross_sections[].river"
             [("min", YInt 0)])
          SKIPPED "" "" "Internal error evaluating rule." ""].
Proof.
  apply (raising_location_skips_rule no_inherited sample_py_str sample_yaml_str
           (sample_dict "error" "range" "geometry.cross_sections[].river"
              [("min", YInt 0)])
           (sample_model three_regions) (YStr "range")
           "geometry.cross_sections[].river"
           [(PStr "Test River", "RS 5000.0"); (PStr "Test River", "RS 4000.0");
            (PStr "Test River", "RS 3000.0")]
           (PStr "Test River", "RS 4000.0") TypeError []);
    try (vm_compute; reflexivity).
  right. left. reflexivity.
Defined.

Lemma malformed_rule_internal_error_witness :
  (exists e,
     _evaluate_rule no_inherited sample_py_str sample_yaml_str broken_rule
       (sample_model three_regions) = Raise e)
  /\ fst (evaluate no_inherited sample_py_str sample_yaml_str
            (mk_engine [broken_rule])
            (sample_model three_regions) [])
     = Ok [RuleResult.mk (YStr "BAD-001") (YStr "?") SKIPPED (YStr "error")
             (YStr "") (YStr "") (YStr "") (YStr "")
             (YStr "Internal error evaluating rule.") (YStr "")].
Proof.
  apply (malformed_rule_internal_error no_inherited sample_py_str
           sample_yaml_str
           [("id", YStr "BAD-001"); ("check_type", YStr "exists");
            ("applies_to", YStr "geometry.title")]
           (sample_model three_regions) (YStr "exists") "geometry.title"
           [(PStr "Test", "")] []);
    vm_compute; reflexivity.
Defined.
